(** * Agent infrastructure: execution envelope and logging lifecycle

    A shallow embedding of the two Cloudflare workers of the repository
    (Nova, the marketing writer, and Ada, the form analyzer) and of the
    shared Supabase helpers of [lib/supabase.js].

    JavaScript values are a small untyped universe ([Value]); [async]
    functions are computations in a state-and-exception monad over a
    [World] that holds the Supabase tables, the external collaborators
    (Notion, Anthropic, Resend), the clock and the trace of outbound HTTP
    requests.  [console.log] and [console.error] calls are left out: they
    neither throw nor touch any of that state. *)

From Stdlib Require Import String Ascii ZArith List Lia Bool.
From Stdlib Require Import DecimalString DecimalNat.
Import ListNotations.
Local Open Scope list_scope.
Local Open Scope string_scope.
Set Warnings "-register-all".

(* ================================================================ *)
(** ** JavaScript values *)
(* ================================================================ *)

(** Numbers are integers here: the code only counts, subtracts clock
    readings and prints HTTP status codes. *)
Inductive Value : Type :=
| VUndef
| VNull
| VBool (b : bool)
| VNum (n : Z)
| VStr (s : string)
| VArr (items : list Value)
| VObj (fields : list (string * Value)).

(** An exception value: the two properties of [Error] the code reads. *)
Record JsError : Type := mkError { message : string; stack : string }.

Inductive Result (A : Type) : Type :=
| Ok (a : A)
| Throw (e : JsError).
Arguments Ok {A} a.
Arguments Throw {A} e.

(** [new Error(msg)], [TypeError] and [SyntaxError] as raised by the engine.
    Of the stack only its first line is kept. *)
Definition Error_ (msg : string) : JsError := mkError msg ("Error: " ++ msg).
Definition TypeError (msg : string) : JsError := mkError msg ("TypeError: " ++ msg).
Definition SyntaxError (msg : string) : JsError := mkError msg ("SyntaxError: " ++ msg).

(** Synchronous code that may throw is written with [and_then]. *)
Definition and_then {A B} (r : Result A) (k : A -> Result B) : Result B :=
  match r with Ok a => k a | Throw e => Throw e end.

Declare Scope js_scope.
Delimit Scope js_scope with js.
Notation "x <~ r ;; k" := (and_then r (fun x => k))
  (at level 61, r at next level, right associativity) : js_scope.
Local Open Scope js_scope.

Fixpoint map_result {A B} (f : A -> Result B) (l : list A) : Result (list B) :=
  match l with
  | [] => Ok []
  | x :: rest => y <~ f x ;; ys <~ map_result f rest ;; Ok (y :: ys)
  end.

(** Truthiness, as used by [!x], [x || y], [if (x)] and [filter(Boolean)]. *)
Definition truthy (v : Value) : bool :=
  match v with
  | VUndef | VNull => false
  | VBool b => b
  | VNum n => negb (Z.eqb n 0)
  | VStr s => negb (String.eqb s "")
  | VArr _ | VObj _ => true
  end.

(** [a || b] *)
Definition or_else (a b : Value) : Value := if truthy a then a else b.

Definition nullish (v : Value) : bool :=
  match v with VUndef | VNull => true | _ => false end.

Fixpoint lookup (k : string) (fs : list (string * Value)) : Value :=
  match fs with
  | [] => VUndef
  | (k', v) :: rest => if String.eqb k k' then v else lookup k rest
  end.

Definition dec (z : Z) : string := NilZero.string_of_int (Z.to_int z).

(** An object has an own property named [k]. *)
Definition has_own (k : string) (fs : list (string * Value)) : bool :=
  existsb (fun kv => String.eqb (fst kv) k) fs.

(** The error of ToPrimitive when neither [toString] nor [valueOf] gives
    a primitive. *)
Definition cannot_convert : JsError :=
  TypeError "Cannot convert object to primitive value".

(** [String(v)], template interpolation [`${v}`] and the conversion of a
    property key: ToString.  The values here come out of [JSON.parse] or
    are built from such values, so no property holds a function.  An
    object without an own [toString] is printed by
    [Object.prototype.toString]; an object with an own [toString] has one
    that cannot be called, its [valueOf] (own or inherited) gives no
    primitive either, and the conversion throws.  An array is printed by
    [Array.prototype.join], which converts each item in turn. *)
Fixpoint String_of (v : Value) : Result string :=
  match v with
  | VUndef => Ok "undefined"
  | VNull => Ok "null"
  | VBool true => Ok "true"
  | VBool false => Ok "false"
  | VNum n => Ok (dec n)
  | VStr s => Ok s
  | VArr l =>
      parts <~ map_result (fun x => match x with
                                    | VUndef | VNull => Ok ""
                                    | _ => String_of x
                                    end) l ;;
      Ok (String.concat "," parts)
  | VObj fs =>
      if has_own "toString" fs then Throw cannot_convert
      else Ok "[object Object]"
  end.

(** The element conversion of [Array.prototype.join]. *)
Definition join_item (v : Value) : Result string :=
  if nullish v then Ok "" else String_of v.

(** [arr.join(sep)] on an array's items. *)
Definition js_join (sep : string) (l : list Value) : Result string :=
  parts <~ map_result join_item l ;;
  Ok (String.concat sep parts).

(** [v.k]: reading a property of [undefined] or [null] throws. *)
Definition get (v : Value) (k : string) : Result Value :=
  match v with
  | VUndef =>
      Throw (TypeError ("Cannot read properties of undefined (reading '" ++ k ++ "')"))
  | VNull =>
      Throw (TypeError ("Cannot read properties of null (reading '" ++ k ++ "')"))
  | VObj fs => Ok (lookup k fs)
  | VArr l =>
      if String.eqb k "length" then Ok (VNum (Z.of_nat (List.length l)))
      else Ok VUndef
  | VStr s =>
      if String.eqb k "length" then Ok (VNum (Z.of_nat (String.length s)))
      else Ok VUndef
  | VBool _ | VNum _ => Ok VUndef
  end.

(** [v?.k] *)
Definition opt_get (v : Value) (k : string) : Result Value :=
  if nullish v then Ok VUndef else get v k.

(** [v[i]] for a literal index. *)
Definition index (v : Value) (i : nat) : Result Value :=
  match v with
  | VArr l => Ok (nth i l VUndef)
  | VStr s =>
      match String.get i s with
      | Some c => Ok (VStr (String c EmptyString))
      | None => Ok VUndef
      end
  | _ => get v (dec (Z.of_nat i))
  end.

(** [v?.[i]] *)
Definition opt_index (v : Value) (i : nat) : Result Value :=
  if nullish v then Ok VUndef else index v i.

(** [a === b] on values that came out of [JSON.parse]: primitives compare
    by value, two parsed arrays or objects are never the same reference. *)
Definition strict_eq (a b : Value) : bool :=
  match a, b with
  | VUndef, VUndef | VNull, VNull => true
  | VBool x, VBool y => Bool.eqb x y
  | VNum x, VNum y => Z.eqb x y
  | VStr x, VStr y => String.eqb x y
  | _, _ => false
  end.

(** The receiver of a method call [v.m(...)] where [m] is an array method:
    the items of an array, a [TypeError] otherwise. *)
Definition array_method (v : Value) (m : string) : Result (list Value) :=
  match v with
  | VArr l => Ok l
  | VUndef | VNull => match get v m with Throw e => Throw e | Ok _ => Ok [] end
  | _ => Throw (TypeError (m ++ " is not a function"))
  end.

(** Environment bindings are text variables: a string, or unset. *)
Definition Binding : Type := option string.

Definition binding_value (b : Binding) : Value :=
  match b with Some s => VStr s | None => VUndef end.

(** [`${b}`] *)
Definition tpl (b : Binding) : string :=
  match b with Some s => s | None => "undefined" end.

(** [!!b] *)
Definition present (b : Binding) : Value := VBool (truthy (binding_value b)).

(* ================================================================ *)
(** ** The world outside the workers *)
(* ================================================================ *)

(** Where an outbound request goes.  URLs are kept structured: the text
    the code pastes into them is an argument of the constructor, as it was
    pasted; what the receiver reads of it is the receiver's business. *)
Inductive Endpoint : Type :=
| SupabaseExecutions (base : Binding)
    (* `${supabaseUrl}/rest/v1/agent_executions` *)
| SupabaseExecutionById (base : Binding) (pasted : string)
    (* `${supabaseUrl}/rest/v1/agent_executions?id=eq.${executionId}` *)
| SupabaseActiveConversation (base : Binding) (pasted : string)
    (* `.../conversations?user_id=eq.${userId}&status=eq.active&order=created_at.desc&limit=1` *)
| SupabaseConversations (base : Binding)
    (* `${supabaseUrl}/rest/v1/conversations` *)
| NotionDatabaseQuery (databaseId : string)
| NotionSearch
| NotionBlockChildren (pageId : string)
| AnthropicMessages
| ResendEmails.

Record FetchReq : Type := mkReq {
  endpoint : Endpoint;
  method : string;
  headers : list (string * string);
  body : Value                      (* the document given to JSON.stringify *)
}.

Record HttpResponse : Type := mkResp {
  status : Z;
  text : string;                    (* what response.text() resolves to *)
  json : option Value               (* what response.json() resolves to; None: not JSON *)
}.

(** [response.ok] *)
Definition ok (r : HttpResponse) : bool :=
  Z.leb 200 (status r) && Z.leb (status r) 299.

Inductive NetResult : Type :=
| NetError (e : JsError)            (* the fetch promise rejects *)
| NetReply (r : HttpResponse).

(** Platform functions that are not modelled further. *)
Record Builtins : Type := mkBuiltins {
  JSON_stringify : Value -> string;
  toISOString : Z -> string;
  toLocaleString : Value -> string;
  toLocaleDateString : Value -> string;
  toLocaleTimeString : Value -> string
}.

(** *** The Supabase tables *)

Record ExecutionRecord : Type := mkExecution {
  e_id : string;
  e_conversation_id : Value;
  e_agent_id : Value;
  e_input : Value;
  e_output : Value;
  e_status : Value;
  e_error_message : Value;
  e_duration_ms : Value;
  e_created_at : Value
}.

Record Conversation : Type := mkConversation {
  c_id : string;
  c_user_id : Value;
  c_status : Value;
  c_created_at : Value
}.

(** One write to the status column of [agent_executions], kept as a ghost
    log: [tr_from] is [None] for the insert that creates the row. *)
Record Transition : Type := mkTransition {
  tr_id : string;
  tr_from : option Value;
  tr_to : Value
}.

(** How the store treats the next request it receives. *)
Inductive Fault : Type :=
| Up                                (* processed and answered *)
| Down (e : JsError)                (* unreachable: the fetch rejects, nothing is written *)
| Refuse (doc : option Value)       (* answered 503 with the JSON document [doc], or with
                                       a body that is not JSON; nothing is written *)
| Garbled                           (* processed, but the reply body is not JSON *)
| Lost (e : JsError).               (* processed, but the fetch rejects *)

Record Store : Type := mkStore {
  store_url : string;
  store_key : string;
  executions : list ExecutionRecord;
  conversations : list Conversation;
  next_id : nat;
  faults : list Fault;
  transitions : list Transition
}.

(** Identifiers the store hands out: distinct for distinct counters. *)
Definition id_of (n : nat) : string :=
  "id-" ++ NilEmpty.string_of_uint (Nat.to_uint n).

Definition execution_json (r : ExecutionRecord) : Value :=
  VObj [("id", VStr (e_id r)); ("conversation_id", e_conversation_id r);
        ("agent_id", e_agent_id r); ("input", e_input r);
        ("output", e_output r); ("status", e_status r);
        ("error_message", e_error_message r);
        ("duration_ms", e_duration_ms r); ("created_at", e_created_at r)].

Definition conversation_json (c : Conversation) : Value :=
  VObj [("id", VStr (c_id c)); ("user_id", c_user_id c);
        ("status", c_status c); ("created_at", c_created_at c)].

(** A column left out of the document (or [undefined], which
    JSON.stringify drops) is stored as NULL on insert and kept on update. *)
Definition column (k : string) (fs : list (string * Value)) : Value :=
  match lookup k fs with VUndef => VNull | v => v end.

Definition patched (k : string) (fs : list (string * Value)) (old : Value) : Value :=
  match lookup k fs with VUndef => old | v => v end.

Definition new_execution (id : string) (fs : list (string * Value)) : ExecutionRecord :=
  {| e_id := id;
     e_conversation_id := column "conversation_id" fs;
     e_agent_id := column "agent_id" fs;
     e_input := column "input" fs;
     e_output := column "output" fs;
     e_status := column "status" fs;
     e_error_message := column "error_message" fs;
     e_duration_ms := column "duration_ms" fs;
     e_created_at := column "created_at" fs |}.

Definition patch_execution (fs : list (string * Value)) (r : ExecutionRecord)
  : ExecutionRecord :=
  {| e_id := e_id r;
     e_conversation_id := patched "conversation_id" fs (e_conversation_id r);
     e_agent_id := patched "agent_id" fs (e_agent_id r);
     e_input := patched "input" fs (e_input r);
     e_output := patched "output" fs (e_output r);
     e_status := patched "status" fs (e_status r);
     e_error_message := patched "error_message" fs (e_error_message r);
     e_duration_ms := patched "duration_ms" fs (e_duration_ms r);
     e_created_at := patched "created_at" fs (e_created_at r) |}.

(** PATCH ...?id=eq.<id>: every row whose id is <id> is updated. *)
Fixpoint patch_rows (id : string) (fs : list (string * Value))
  (rows : list ExecutionRecord) : list ExecutionRecord :=
  match rows with
  | [] => []
  | r :: rest =>
      (if String.eqb (e_id r) id then patch_execution fs r else r)
        :: patch_rows id fs rest
  end.

Fixpoint patch_log (id : string) (fs : list (string * Value))
  (rows : list ExecutionRecord) : list Transition :=
  match rows with
  | [] => []
  | r :: rest =>
      if String.eqb (e_id r) id
      then mkTransition id (Some (e_status r)) (patched "status" fs (e_status r))
             :: patch_log id fs rest
      else patch_log id fs rest
  end.

(** The text of a column compared by an [eq.] filter; NULL matches nothing. *)
Definition column_text (v : Value) : option string :=
  match v with
  | VStr s => Some s
  | VNum n => Some (dec n)
  | _ => None
  end.

Definition text_is (v : Value) (s : string) : bool :=
  match column_text v with Some t => String.eqb t s | None => false end.

Definition active_for (user : string) (c : Conversation) : bool :=
  text_is (c_user_id c) user && text_is (c_status c) "active".

Definition order_text (v : Value) : string :=
  match column_text v with Some t => t | None => "" end.

(** What the REST layer reads of a pasted text.

    The helpers paste [executionId] and [userId] into the query string as
    they are, without [encodeURIComponent].  The value the REST layer
    reads for the [eq.] filter is then not always the text pasted: the
    URL parser drops tabs and line breaks and, at the end of the URL,
    trailing blanks; a [#] starts the fragment, which is never sent; an
    [&] starts the next parameter; and [%XX] is decoded.  The parameters
    that a pasted [&] adds are not modelled: the value read is all that
    is kept of such a text. *)
Definition is_line_break (c : ascii) : bool :=
  let n := nat_of_ascii c in Nat.eqb n 9 || Nat.eqb n 10 || Nat.eqb n 13.

Definition is_blank (c : ascii) : bool := Nat.leb (nat_of_ascii c) 32.

Definition ends_value (c : ascii) : bool :=
  let n := nat_of_ascii c in Nat.eqb n 35 || Nat.eqb n 38.      (* # and & *)

Fixpoint drop_line_breaks (s : string) : string :=
  match s with
  | EmptyString => EmptyString
  | String c rest =>
      if is_line_break c then drop_line_breaks rest
      else String c (drop_line_breaks rest)
  end.

Fixpoint strip_end (s : string) : string :=
  match s with
  | EmptyString => EmptyString
  | String c rest =>
      match strip_end rest with
      | EmptyString => if is_blank c then EmptyString else String c EmptyString
      | rest' => String c rest'
      end
  end.

Fixpoint value_part (s : string) : string :=
  match s with
  | EmptyString => EmptyString
  | String c rest => if ends_value c then EmptyString else String c (value_part rest)
  end.

Definition hex_value (c : ascii) : option nat :=
  let n := nat_of_ascii c in
  if Nat.leb 48 n && Nat.leb n 57 then Some (n - 48)
  else if Nat.leb 65 n && Nat.leb n 70 then Some (n - 55)
  else if Nat.leb 97 n && Nat.leb n 102 then Some (n - 87)
  else None.

Fixpoint percent_decode (s : string) : string :=
  match s with
  | EmptyString => EmptyString
  | String c rest =>
      if Nat.eqb (nat_of_ascii c) 37 then
        match rest with
        | String a (String b rest') =>
            match hex_value a, hex_value b with
            | Some x, Some y => String (ascii_of_nat (16 * x + y)) (percent_decode rest')
            | _, _ => String c (percent_decode rest)
            end
        | _ => String c (percent_decode rest)
        end
      else String c (percent_decode rest)
  end.

(** The value read of a text pasted inside the query string. *)
Definition read_param (pasted : string) : string :=
  percent_decode (value_part (drop_line_breaks pasted)).

(** The value read of a text pasted at the end of the URL. *)
Definition read_last (pasted : string) : string :=
  read_param (strip_end pasted).

(** The pasted text starts the fragment: what the code wrote after it is
    not part of the request. *)
Fixpoint cuts_query (pasted : string) : bool :=
  match pasted with
  | EmptyString => false
  | String c rest => Nat.eqb (nat_of_ascii c) 35 || cuts_query rest
  end.

(** user_id=eq.<user> alone: every conversation of the user. *)
Definition all_of (user : string) (cs : list Conversation) : list Conversation :=
  filter (fun c => text_is (c_user_id c) user) cs.

(** order=created_at.desc&limit=1: the row with the greatest timestamp,
    the earliest inserted among equals. *)
Fixpoint latest (best : Conversation) (rest : list Conversation) : Conversation :=
  match rest with
  | [] => best
  | c :: rest' =>
      if String.ltb (order_text (c_created_at best)) (order_text (c_created_at c))
      then latest c rest'
      else latest best rest'
  end.

Definition latest_active (user : string) (cs : list Conversation) : list Conversation :=
  match filter (active_for user) cs with
  | [] => []
  | c :: rest => [latest c rest]
  end.

Definition header (k : string) (rq : FetchReq) : string :=
  match find (fun h => String.eqb (fst h) k) (headers rq) with
  | Some h => snd h
  | None => ""
  end.

Definition set_tables (xs : list ExecutionRecord) (cs : list Conversation)
  (n : nat) (ts : list Transition) (st : Store) : Store :=
  mkStore (store_url st) (store_key st) xs cs n (faults st) ts.

Definition set_faults (fs : list Fault) (st : Store) : Store :=
  mkStore (store_url st) (store_key st) (executions st) (conversations st)
    (next_id st) fs (transitions st).

(** A refusal of the REST layer: an error document. *)
Definition refusal (stringify : Value -> string) (code : Z) (msg : string)
  : HttpResponse :=
  let doc := VObj [("message", VStr msg)] in
  mkResp code (stringify doc) (Some doc).

(** What the REST layer does with a request that reaches it. *)
Definition store_process (stringify : Value -> string) (rq : FetchReq) (st : Store)
  : HttpResponse * Store :=
  if negb (String.eqb (header "apikey" rq) (store_key st)) then
    (refusal stringify 401 "Invalid API key", st)
  else
    match endpoint rq, body rq with
    | SupabaseExecutions _, VObj fs =>
        if String.eqb (method rq) "POST" then
          let row := new_execution (id_of (next_id st)) fs in
          let doc := VArr [execution_json row] in
          (mkResp 201 (stringify doc) (Some doc),
           set_tables (executions st ++ [row]) (conversations st) (S (next_id st))
             (transitions st ++ [mkTransition (e_id row) None (e_status row)]) st)
        else (refusal stringify 405 "Method Not Allowed", st)
    | SupabaseExecutionById _ pasted, VObj fs =>
        if String.eqb (method rq) "PATCH" then
          let id := read_last pasted in
          (mkResp 204 "" None,
           set_tables (patch_rows id fs (executions st)) (conversations st) (next_id st)
             (transitions st ++ patch_log id fs (executions st)) st)
        else (refusal stringify 405 "Method Not Allowed", st)
    | SupabaseActiveConversation _ pasted, _ =>
        if String.eqb (method rq) "GET" then
          let user := read_param pasted in
          let rows := if cuts_query pasted then all_of user (conversations st)
                      else latest_active user (conversations st) in
          let doc := VArr (map conversation_json rows) in
          (mkResp 200 (stringify doc) (Some doc), st)
        else (refusal stringify 405 "Method Not Allowed", st)
    | SupabaseConversations _, VObj fs =>
        if String.eqb (method rq) "POST" then
          let row := mkConversation (id_of (next_id st)) (column "user_id" fs)
                       (column "status" fs) (column "created_at" fs) in
          let doc := VArr [conversation_json row] in
          (mkResp 201 (stringify doc) (Some doc),
           set_tables (executions st) (conversations st ++ [row]) (S (next_id st))
             (transitions st) st)
        else (refusal stringify 405 "Method Not Allowed", st)
    | _, _ => (refusal stringify 400 "Bad Request", st)
    end.

(** The store as seen through the network, one fault decision per request. *)
Definition supabase (stringify : Value -> string) (base : Binding) (rq : FetchReq)
  (st : Store) : NetResult * Store :=
  if negb (String.eqb (tpl base) (store_url st)) then
    (NetError (TypeError "fetch failed"), st)
  else
    let f := hd Up (faults st) in
    let st0 := set_faults (tl (faults st)) st in
    match f with
    | Up => let (r, st') := store_process stringify rq st0 in (NetReply r, st')
    | Down e => (NetError e, st0)
    | Refuse doc =>
        (NetReply (mkResp 503 (match doc with
                               | Some d => stringify d
                               | None => "Service Unavailable"
                               end) doc), st0)
    | Garbled =>
        let (r, st') := store_process stringify rq st0 in
        (NetReply (mkResp (status r) "<html>" None), st')
    | Lost e => let (_, st') := store_process stringify rq st0 in (NetError e, st')
    end.

Record World : Type := mkWorld {
  store : Store;
  collab : FetchReq -> NetResult;   (* Notion, Anthropic and Resend *)
  builtins : Builtins;
  now : Z;                          (* the last clock reading *)
  ticks : list N;                   (* milliseconds elapsed before each later reading *)
  http_log : list FetchReq          (* every outbound request so far, oldest first *)
}.

Definition supabase_base (ep : Endpoint) : option Binding :=
  match ep with
  | SupabaseExecutions b | SupabaseExecutionById b _
  | SupabaseActiveConversation b _ | SupabaseConversations b => Some b
  | _ => None
  end.

(* ================================================================ *)
(** ** Asynchronous computations *)
(* ================================================================ *)

Definition M (A : Type) : Type := World -> Result A * World.

Definition ret {A} (a : A) : M A := fun w => (Ok a, w).
Definition throw {A} (e : JsError) : M A := fun w => (Throw e, w).

Definition bind {A B} (m : M A) (k : A -> M B) : M B :=
  fun w => match m w with
           | (Ok a, w') => k a w'
           | (Throw e, w') => (Throw e, w')
           end.

(** [try { m } catch (error) { h error }] *)
Definition try_catch {A} (m : M A) (h : JsError -> M A) : M A :=
  fun w => match m w with
           | (Ok a, w') => (Ok a, w')
           | (Throw e, w') => h e w'
           end.

(** A synchronous expression that may throw. *)
Definition lift {A} (r : Result A) : M A := fun w => (r, w).

Notation "x <- m ;; k" := (bind m (fun x => k))
  (at level 61, m at next level, right associativity) : js_scope.
Notation "m ;;; k" := (bind m (fun _ => k))
  (at level 61, right associativity) : js_scope.
Local Open Scope js_scope.

Fixpoint mapM {A B} (f : A -> M B) (l : list A) : M (list B) :=
  match l with
  | [] => ret []
  | x :: rest => y <- f x ;; ys <- mapM f rest ;; ret (y :: ys)
  end.

(** [fetch(url, init)] *)
Definition fetch (rq : FetchReq) : M HttpResponse :=
  fun w =>
    let log := (http_log w ++ [rq])%list in
    match supabase_base (endpoint rq) with
    | Some base =>
        let (res, st') := supabase (JSON_stringify (builtins w)) base rq (store w) in
        let w' := mkWorld st' (collab w) (builtins w) (now w) (ticks w) log in
        match res with
        | NetError e => (Throw e, w')
        | NetReply r => (Ok r, w')
        end
    | None =>
        let w' := mkWorld (store w) (collab w) (builtins w) (now w) (ticks w) log in
        match collab w rq with
        | NetError e => (Throw e, w')
        | NetReply r => (Ok r, w')
        end
    end.

(** [response.json()] *)
Definition response_json (r : HttpResponse) : M Value :=
  lift (match json r with
        | Some v => Ok v
        | None => Throw (SyntaxError "Unexpected token in JSON")
        end).

(** [response.text()] *)
Definition response_text (r : HttpResponse) : M string := ret (text r).

(** [Date.now()]: time never runs backwards. *)
Definition Date_now : M Z :=
  fun w =>
    let t := (now w + Z.of_N (hd 0%N (ticks w)))%Z in
    (Ok t, mkWorld (store w) (collab w) (builtins w) t (tl (ticks w)) (http_log w)).

(** [new Date().toISOString()] *)
Definition Date_toISOString : M Value :=
  fun w => bind Date_now (fun t => ret (VStr (toISOString (builtins w) t))) w.

(** [JSON.stringify(v)] where its text is what matters. *)
Definition stringify (v : Value) : M string :=
  fun w => (Ok (JSON_stringify (builtins w) v), w).

(** [new Date(v).toLocale...String(...)]: the constructor converts [v] to a
    primitive first, which throws where [String(v)] does. *)
Definition date_format (f : Builtins -> Value -> string) (v : Value) : M string :=
  fun w => (_ <~ String_of v ;; Ok (f (builtins w) v), w).

(** [v > 0] for the values a [length] property can hold. *)
Definition gt_zero (v : Value) : bool :=
  match v with
  | VNum n => Z.ltb 0 n
  | VBool b => b
  | VStr s =>
      match NilZero.int_of_string s with
      | Some i => Z.ltb 0 (Z.of_int i)
      | None => false
      end
  | _ => false
  end.

Definition supabase_headers (supabaseKey : Binding) : list (string * string) :=
  [("Content-Type", "application/json");
   ("apikey", tpl supabaseKey);
   ("Authorization", ("Bearer " ++ tpl supabaseKey)%string)].

(* ================================================================ *)
(** ** lib/supabase.js *)
(* ================================================================ *)

Module Supabase.

Definition logExecutionStart (supabaseUrl supabaseKey : Binding)
  (conversationId agentId input : Value) : M Value :=
  try_catch
    (created_at <- Date_toISOString ;;
     let logEntry := VObj [("conversation_id", or_else conversationId VNull);
                           ("agent_id", agentId);
                           ("input", input);
                           ("status", VStr "running");
                           ("created_at", created_at)] in
     response <- fetch (mkReq (SupabaseExecutions supabaseUrl) "POST"
                          (supabase_headers supabaseKey
                             ++ [("Prefer", "return=representation")])
                          logEntry) ;;
     if negb (ok response) then
       (_ <- response_text response ;; ret VNull)
     else
       (result <- response_json response ;;
        first <- lift (index result 0) ;;
        id <- lift (opt_get first "id") ;;
        ret (or_else id VNull)))
    (fun error => ret VNull).

Definition logExecutionComplete (supabaseUrl supabaseKey : Binding)
  (executionId output durationMs : Value) : M unit :=
  if negb (truthy executionId) then ret tt
  else
    try_catch
      (id <- lift (String_of executionId) ;;
       response <- fetch (mkReq (SupabaseExecutionById supabaseUrl id)
                            "PATCH" (supabase_headers supabaseKey)
                            (VObj [("output", output);
                                   ("status", VStr "success");
                                   ("duration_ms", durationMs)])) ;;
       if negb (ok response) then (_ <- response_text response ;; ret tt)
       else ret tt)
      (fun error => ret tt).

Definition logExecutionError (supabaseUrl supabaseKey : Binding)
  (executionId errorMessage durationMs : Value) : M unit :=
  if negb (truthy executionId) then ret tt
  else
    try_catch
      (id <- lift (String_of executionId) ;;
       response <- fetch (mkReq (SupabaseExecutionById supabaseUrl id)
                            "PATCH" (supabase_headers supabaseKey)
                            (VObj [("status", VStr "error");
                                   ("error_message", errorMessage);
                                   ("duration_ms", durationMs)])) ;;
       if negb (ok response) then (_ <- response_text response ;; ret tt)
       else ret tt)
      (fun error => ret tt).

Definition getOrCreateConversation (supabaseUrl supabaseKey : Binding)
  (userId : Value) : M Value :=
  try_catch
    (user <- lift (String_of userId) ;;
     checkResponse <- fetch (mkReq (SupabaseActiveConversation supabaseUrl user)
                               "GET"
                               [("apikey", tpl supabaseKey);
                                ("Authorization", ("Bearer " ++ tpl supabaseKey)%string)]
                               VUndef) ;;
     existing <- response_json checkResponse ;;
     len <- lift (if truthy existing then get existing "length" else Ok VUndef) ;;
     if truthy existing && gt_zero len then
       lift (index existing 0)
     else
       (created_at <- Date_toISOString ;;
        createResponse <- fetch (mkReq (SupabaseConversations supabaseUrl) "POST"
                                   (supabase_headers supabaseKey
                                      ++ [("Prefer", "return=representation")])
                                   (VObj [("user_id", userId);
                                          ("status", VStr "active");
                                          ("created_at", created_at)])) ;;
        result <- response_json createResponse ;;
        lift (index result 0)))
    (fun error => ret VNull).

End Supabase.

(* ================================================================ *)
(** ** Requests, responses and synchronous helpers *)
(* ================================================================ *)

Record Request : Type := mkRequest {
  req_method : string;
  req_body : option Value           (* None: the body is not JSON *)
}.

Inductive Body : Type :=
| NoBody                            (* new Response(null, ...) *)
| TextBody (s : string)             (* new Response('...', ...) *)
| JsonBody (doc : Value).           (* new Response(JSON.stringify(doc), ...) *)

Record Response : Type := mkResponse {
  r_status : Z;
  r_headers : list (string * string);
  r_body : Body
}.

Record Env : Type := mkEnv {
  ANTHROPIC_API_KEY : Binding;
  NOTION_TOKEN : Binding;
  NOTION_DATABASE_ID : Binding;
  SUPABASE_URL : Binding;
  SUPABASE_KEY : Binding;
  RESEND_API_KEY : Binding
}.

(** [request.json()] *)
Definition request_json (request : Request) : M Value :=
  lift (match req_body request with
        | Some v => Ok v
        | None => Throw (SyntaxError "Unexpected end of JSON input")
        end).

(** The document JSON.stringify writes: properties holding [undefined]
    are left out, [undefined] array items become [null]. *)
Fixpoint JSON_doc (v : Value) : Value :=
  match v with
  | VArr l => VArr (map (fun x => match x with
                                  | VUndef => VNull
                                  | _ => JSON_doc x
                                  end) l)
  | VObj fs => VObj (flat_map (fun '(k, x) => match x with
                                              | VUndef => []
                                              | _ => [(k, JSON_doc x)]
                                              end) fs)
  | _ => v
  end.

(** [const { k } = v] *)
Definition destructure (v : Value) (k : string) : Result Value :=
  if nullish v then
    Throw (TypeError ("Cannot destructure property '" ++ k ++ "' of '(intermediate value)' as it is "
                        ++ match v with VNull => "null" | _ => "undefined" end ++ "."))
  else get v k.

(** [s.substring(0, n)] on a binding, under [?.] *)
Definition opt_substring (b : Binding) (n : nat) : Value :=
  match b with
  | Some s => VStr (String.substring 0 n s)
  | None => VUndef
  end.

(* ================================================================ *)
(** ** Nova, the marketing writer *)
(* ================================================================ *)

Module Nova.

Definition corsHeaders : list (string * string) :=
  [("Access-Control-Allow-Origin", "*");
   ("Access-Control-Allow-Methods", "GET, POST, OPTIONS");
   ("Access-Control-Allow-Headers", "Content-Type")].

Definition notion_headers (notionToken : Binding) : list (string * string) :=
  [("Authorization", ("Bearer " ++ tpl notionToken)%string);
   ("Notion-Version", "2022-06-28")].

(** The callback of [data.results.map] in getVoiceExamples. *)
Definition voice_example (page : Value) : Result Value :=
  properties <~ get page "properties" ;;
  Content <~ get properties "Content" ;;
  rich_text <~ opt_get Content "rich_text" ;;
  item <~ opt_index rich_text 0 ;;
  plain_text <~ opt_get item "plain_text" ;;
  let content := or_else plain_text (VStr "") in
  Tag <~ get properties "Tag" ;;
  multi_select <~ opt_get Tag "multi_select" ;;
  names <~ (if nullish multi_select then Ok VUndef
            else (ts <~ array_method multi_select "map" ;;
                  ns <~ map_result (fun t => get t "name") ts ;;
                  Ok (VArr ns))) ;;
  let tags := or_else names (VArr []) in
  Platform <~ get properties "Platform" ;;
  select <~ opt_get Platform "select" ;;
  name <~ opt_get select "name" ;;
  Ok (VObj [("content", content); ("tags", tags); ("platform", or_else name (VStr ""))]).

Definition getVoiceExamples (notionToken databaseId : Binding) (platform : Value)
  : M Value :=
  try_catch
    (response <- fetch (mkReq (NotionDatabaseQuery (tpl databaseId)) "POST"
                          (notion_headers notionToken
                             ++ [("Content-Type", "application/json")])
                          (VObj [("filter",
                                  if truthy platform
                                  then VObj [("property", VStr "Platform");
                                             ("select", VObj [("equals", platform)])]
                                  else VUndef);
                                 ("page_size", VNum 10)])) ;;
     if negb (ok response) then
       (error <- response_text response ;; ret (VArr []))
     else
       (data <- response_json response ;;
        lift (results <~ get data "results" ;;
              pages <~ array_method results "map" ;;
              examples <~ map_result voice_example pages ;;
              Ok (VArr (filter (fun ex => truthy (lookup "content"
                                                    match ex with VObj fs => fs | _ => [] end))
                          examples)))))
    (fun error => ret (VArr [])).

Definition extractBlockText (block : Value) : Result Value :=
  type <~ get block "type" ;;
  key <~ String_of type ;;
  typed <~ get block key ;;
  if negb (truthy typed) then Ok (VStr "")
  else
    (rich_text <~ get typed "rich_text" ;;
     let richText := or_else rich_text (VArr []) in
     ts <~ array_method richText "map" ;;
     texts <~ map_result (fun t => get t "plain_text") ts ;;
     text <~ js_join "" texts ;;
     Ok (VStr text)).

(** The async callback of [data.results.slice(0, 3).map] in
    searchNotionWorkspace: it catches whatever it raises. *)
Definition page_document (notionToken : Binding) (page : Value) : M Value :=
  try_catch
    (page_id <- lift (id <~ get page "id" ;; String_of id) ;;
     pageContent <- fetch (mkReq (NotionBlockChildren page_id) "GET"
                             (notion_headers notionToken) VUndef) ;;
     blocks <- response_json pageContent ;;
     lift (results <~ get blocks "results" ;;
           bs <~ array_method results "map" ;;
           texts <~ map_result extractBlockText bs ;;
           text <~ js_join "
" (filter truthy texts) ;;
           properties <~ opt_get page "properties" ;;
           title <~ opt_get properties "title" ;;
           title' <~ opt_get title "title" ;;
           item <~ opt_index title' 0 ;;
           plain_text <~ opt_get item "plain_text" ;;
           Ok (VObj [("title", or_else plain_text (VStr "Untitled"));
                     ("content", VStr text)])))
    (fun err => ret VNull).

Definition searchNotionWorkspace (notionToken : Binding) (topic platform : Value)
  : M Value :=
  try_catch
    (let searchQuery :=
       if strict_eq platform (VStr "LinkedIn") then VStr "LinkedIn Content Style Guide"
       else if strict_eq platform (VStr "Substack") then VStr "Substack Strategy"
       else topic in
     response <- fetch (mkReq NotionSearch "POST"
                          (notion_headers notionToken
                             ++ [("Content-Type", "application/json")])
                          (VObj [("query", searchQuery);
                                 ("filter", VObj [("property", VStr "object");
                                                  ("value", VStr "page")]);
                                 ("page_size", VNum 5)])) ;;
     if negb (ok response) then
       (_ <- response_text response ;; ret (VArr []))
     else
       (data <- response_json response ;;
        results <- lift (results <~ get data "results" ;;
                         array_method results "slice") ;;
        pages <- mapM (page_document notionToken) (firstn 3 results) ;;
        ret (VArr (filter truthy pages))))
    (fun error => ret (VArr [])).

(** The body of [voiceExamples.slice(0, 5).forEach((ex, i) => ...)]. *)
Fixpoint example_lines (i : nat) (l : list Value) : Result string :=
  match l with
  | [] => Ok ""
  | ex :: rest =>
      tags <~ get ex "tags" ;;
      ts <~ array_method tags "join" ;;
      joined <~ js_join ", " ts ;;
      content <~ get ex "content" ;;
      text <~ String_of content ;;
      more <~ example_lines (S i) rest ;;
      Ok ("Example " ++ dec (Z.of_nat i + 1) ++ " (" ++ joined ++ "):
" ++ text ++ "

" ++ more)
  end.

(** The body of [contextDocs.forEach(doc => ...)]. *)
Fixpoint doc_lines (l : list Value) : Result string :=
  match l with
  | [] => Ok ""
  | doc :: rest =>
      title <~ get doc "title" ;;
      heading <~ String_of title ;;
      content <~ get doc "content" ;;
      text <~ String_of content ;;
      more <~ doc_lines rest ;;
      Ok ("## " ++ heading ++ "
" ++ text ++ "

" ++ more)
  end.

Definition buildSystemPrompt (platform voiceExamples contextDocs : Value)
  : Result string :=
  medium <~ String_of (or_else platform (VStr "social media")) ;;
  let prompt := "You are Nova, Jacob Brain's marketing writing assistant. Your job is to write " ++ medium ++ " content that sounds exactly like Jacob.
  
  # Jacob's Voice & Style
  
  Jacob writes with a direct, practical, anti-fluff style. Key characteristics:
  
  - **Direct and concise**: Gets to the point quickly, no unnecessary words
  - **Practical over theoretical**: Emphasizes actionable advice and real-world application  
  - **Conversational but professional**: Approachable tone while maintaining credibility
  - **Contrarian when warranted**: Challenges conventional wisdom with nuanced takes
  - **Structured thinking**: Often uses bullets, numbers, or clear sections
  - **No hype or buzzwords**: Avoids marketing speak and empty phrases
  - **Personal experience**: Draws from building agencies and working with professional services firms
  
  " in
  vlen <~ get voiceExamples "length" ;;
  prompt <~ (if gt_zero vlen then
               (exs <~ array_method voiceExamples "slice" ;;
                body <~ example_lines 0 (firstn 5 exs) ;;
                Ok (prompt ++ "
# Voice Examples

Here are examples of Jacob's actual posts:

" ++ body))
             else Ok prompt) ;;
  clen <~ get contextDocs "length" ;;
  prompt <~ (if gt_zero clen then
               (docs <~ array_method contextDocs "forEach" ;;
                body <~ doc_lines docs ;;
                Ok (prompt ++ "
# Style Guidelines from Notion

" ++ body))
             else Ok prompt) ;;
  Ok (prompt ++ "
Write in Jacob's voice. Match his style, tone, and approach. Be direct, practical, and valuable.").

Definition buildUserPrompt (topic platform style : Value) : Result string :=
  medium <~ String_of (or_else platform (VStr "social media")) ;;
  subject <~ String_of topic ;;
  let prompt := "Write a " ++ medium ++ " post about: " ++ subject ++ "

" in
  prompt <~ (if truthy style
             then (notes <~ String_of style ;;
                   Ok (prompt ++ "Style notes: " ++ notes ++ "

"))
             else Ok prompt) ;;
  if strict_eq platform (VStr "LinkedIn") then
    Ok (prompt ++ "LinkedIn formatting:
  - Start with a strong hook (first 1-2 sentences)
  - Keep paragraphs short (1-3 sentences)
  - Use line breaks for readability
  - Can use bullets (🚫, ✏️, etc.) or emojis sparingly
  - 150-300 words typically
  - End with insight or call to action")
  else if strict_eq platform (VStr "Substack") then
    Ok (prompt ++ "Substack Note formatting:
  - Can be shorter and punchier than LinkedIn
  - More casual, conversational
  - Quick takes, observations, or insights
  - 50-150 words")
  else Ok prompt.

(** [JSON.parse(responseText)] on the text just read from [response]. *)
Definition JSON_parse_body (response : HttpResponse) : Result Value :=
  match json response with
  | Some v => Ok v
  | None => Throw (SyntaxError "Unexpected token in JSON")
  end.

Definition generateContent (topic platform style voiceExamples contextDocs : Value)
  (apiKey : Binding) : M Value :=
  systemPrompt <- lift (buildSystemPrompt platform voiceExamples contextDocs) ;;
  userPrompt <- lift (buildUserPrompt topic platform style) ;;
  response <- fetch (mkReq AnthropicMessages "POST"
                       [("Content-Type", "application/json");
                        ("x-api-key", tpl apiKey);
                        ("anthropic-version", "2023-06-01")]
                       (VObj [("model", VStr "claude-sonnet-4-20250514");
                              ("max_tokens", VNum 2000);
                              ("messages", VArr [VObj [("role", VStr "user");
                                                       ("content", VStr userPrompt)]]);
                              ("system", VStr systemPrompt)])) ;;
  responseText <- response_text response ;;
  data <- try_catch (lift (JSON_parse_body response))
            (fun e => throw (Error_ ("Failed to parse Anthropic response: " ++ responseText))) ;;
  if negb (ok response) then
    (doc <- stringify data ;;
     throw (Error_ ("Claude API error (" ++ dec (status response) ++ "): " ++ doc)))
  else
    lift (content <~ get data "content" ;;
          item <~ index content 0 ;;
          get item "text").

(** Nova carries its own copy of the helpers; logExecutionStart differs
    from the library's by the [form_type] column. *)
Definition logExecutionStart (supabaseUrl supabaseKey : Binding)
  (conversationId agentId input : Value) : M Value :=
  try_catch
    (created_at <- Date_toISOString ;;
     let logEntry := VObj [("conversation_id", or_else conversationId VNull);
                           ("agent_id", agentId);
                           ("input", input);
                           ("form_type", VNull);
                           ("status", VStr "running");
                           ("created_at", created_at)] in
     response <- fetch (mkReq (SupabaseExecutions supabaseUrl) "POST"
                          (supabase_headers supabaseKey
                             ++ [("Prefer", "return=representation")])
                          logEntry) ;;
     if negb (ok response) then
       (_ <- response_text response ;; ret VNull)
     else
       (result <- response_json response ;;
        first <- lift (index result 0) ;;
        id <- lift (opt_get first "id") ;;
        ret (or_else id VNull)))
    (fun error => ret VNull).

(** The other two are the library's text, unchanged. *)
Definition logExecutionComplete := Supabase.logExecutionComplete.
Definition logExecutionError := Supabase.logExecutionError.

(** The statements between the start write and the completion write. *)
Definition domain_logic (env : Env) (topic platform style : Value) : M Value :=
  voiceExamples <- getVoiceExamples (NOTION_TOKEN env) (NOTION_DATABASE_ID env) platform ;;
  _ <- lift (get voiceExamples "length") ;;   (* read for the log line *)
  contextDocs <- searchNotionWorkspace (NOTION_TOKEN env) topic platform ;;
  _ <- lift (get contextDocs "length") ;;     (* read for the log line *)
  draft <- generateContent topic platform style voiceExamples contextDocs
             (ANTHROPIC_API_KEY env) ;;
  voiceExamplesUsed <- lift (get voiceExamples "length") ;;
  contextDocsUsed <- lift (get contextDocs "length") ;;
  ret (VObj [("draft", draft);
             ("voiceExamplesUsed", voiceExamplesUsed);
             ("contextDocsUsed", contextDocsUsed)]).

Definition json_headers : list (string * string) :=
  corsHeaders ++ [("Content-Type", "application/json")].

Definition metadata (executionId timestamp : Value) : Value :=
  VObj [("agentId", VStr "nova");
        ("executionId", executionId);
        ("timestamp", timestamp)].

(** The catch block of the handler, for the value [executionId] holds when
    control reaches it. *)
Definition on_error (env : Env) (startTime : Z) (executionId : Value)
  (error : JsError) : M Response :=
  t <- Date_now ;;
  let duration := VNum (t - startTime) in
  logExecutionError (SUPABASE_URL env) (SUPABASE_KEY env) executionId
    (VStr (message error)) duration ;;;
  timestamp <- Date_toISOString ;;
  ret (mkResponse 500 json_headers
         (JsonBody (JSON_doc (VObj [("success", VBool false);
                                    ("output", VNull);
                                    ("error", VStr (message error));
                                    ("metadata", metadata executionId timestamp)])))).

(** Runs [m] and hands back how it ended. *)
Definition attempt {A} (m : M A) : M (Result A) :=
  fun w => let (r, w') := m w in (Ok r, w').

(** The try block up to and including the assignment to [executionId]. *)
Definition accept (request : Request) (env : Env)
  : M (Value * Value * Value * Value) :=
  parsed <- request_json request ;;
  topic <- lift (destructure parsed "topic") ;;
  platform <- lift (destructure parsed "platform") ;;
  style <- lift (destructure parsed "style") ;;
  executionId <- logExecutionStart (SUPABASE_URL env) (SUPABASE_KEY env)
                   VNull (VStr "nova")
                   (VObj [("topic", topic);
                          ("platform", platform);
                          ("style", or_else style VNull)]) ;;
  ret (topic, platform, style, executionId).

(** [executionId] is a variable declared before the try block, assigned
    inside it and read by the catch block: a failure before the assignment
    reaches the catch block with [null], a later one with the assigned
    value. *)
Definition fetch (request : Request) (env : Env) : M Response :=
  if String.eqb (req_method request) "OPTIONS" then
    ret (mkResponse 200 corsHeaders NoBody)
  else if String.eqb (req_method request) "GET" then
    ret (mkResponse 200 json_headers
           (JsonBody (JSON_doc
              (VObj [("message", VStr "Nova is running");
                     ("hasAnthropicKey", present (ANTHROPIC_API_KEY env));
                     ("hasNotionToken", present (NOTION_TOKEN env));
                     ("hasNotionDatabase", present (NOTION_DATABASE_ID env));
                     ("hasSupabaseUrl", present (SUPABASE_URL env));
                     ("hasSupabaseKey", present (SUPABASE_KEY env))]))))
  else if negb (String.eqb (req_method request) "POST") then
    ret (mkResponse 405 corsHeaders (TextBody "Method not allowed"))
  else
    (startTime <- Date_now ;;
     started <- attempt (accept request env) ;;
     match started with
     | Throw error => on_error env startTime VNull error
     | Ok (topic, platform, style, executionId) =>
         try_catch
           (output <- domain_logic env topic platform style ;;
            t <- Date_now ;;
            let duration := VNum (t - startTime) in
            logExecutionComplete (SUPABASE_URL env) (SUPABASE_KEY env) executionId
              output duration ;;;
            timestamp <- Date_toISOString ;;
            ret (mkResponse 200 json_headers
                   (JsonBody (JSON_doc (VObj [("success", VBool true);
                                              ("output", output);
                                              ("error", VNull);
                                              ("metadata", metadata executionId timestamp)])))))
           (on_error env startTime executionId)
     end).

End Nova.

(* ================================================================ *)
(** ** Ada, the form analyzer *)
(* ================================================================ *)

(** String methods, on ASCII. *)
Definition lower_char (c : ascii) : ascii :=
  let n := nat_of_ascii c in
  if Nat.leb 65 n && Nat.leb n 90 then ascii_of_nat (n + 32) else c.

Fixpoint toLowerCase (s : string) : string :=
  match s with
  | EmptyString => EmptyString
  | String c rest => String (lower_char c) (toLowerCase rest)
  end.

Fixpoint includes (s sub : string) : bool :=
  String.prefix sub s ||
  match s with
  | EmptyString => false
  | String _ rest => includes rest sub
  end.

Definition is_space (c : ascii) : bool :=
  let n := nat_of_ascii c in
  Nat.eqb n 32 || (Nat.leb 9 n && Nat.leb n 13).

Fixpoint trim_start (s : string) : string :=
  match s with
  | EmptyString => EmptyString
  | String c rest => if is_space c then trim_start rest else s
  end.

Fixpoint trim_end (s : string) : string :=
  match s with
  | EmptyString => EmptyString
  | String c rest =>
      match trim_end rest with
      | EmptyString => if is_space c then EmptyString else String c EmptyString
      | rest' => String c rest'
      end
  end.

Definition trim (s : string) : string := trim_end (trim_start s).

Definition dq : string := String (ascii_of_nat 34) EmptyString.

(** [v?.toLowerCase() || ''] *)
Definition lowered (v : Value) : Result string :=
  match v with
  | VUndef | VNull => Ok ""
  | VStr s => Ok (toLowerCase s)
  | _ => Throw (TypeError "toLowerCase is not a function")
  end.

(** [arr.find(p)] for a predicate that may throw. *)
Fixpoint find_result (p : Value -> Result bool) (l : list Value) : Result Value :=
  match l with
  | [] => Ok VUndef
  | x :: rest => b <~ p x ;; if (b : bool) then Ok x else find_result p rest
  end.

(** [a || b] where evaluating [b] may throw. *)
Definition or_lazy (a : Result Value) (b : Result Value) : Result Value :=
  x <~ a ;; if truthy x then Ok x else b.

Module Ada.

Definition determineFormType (formData : Value) : Result Value :=
  name <~ get formData "formName" ;;
  formName <~ lowered name ;;
  if includes formName "helper" then Ok (VStr "helper")
  else if includes formName "request" then Ok (VStr "request")
  else
    (fields <~ get formData "fields" ;;
     fs <~ array_method fields "map" ;;
     fieldLabels <~ map_result (fun f => label <~ get f "label" ;; lowered label) fs ;;
     if existsb (fun label => includes label "skills offered") fieldLabels
     then Ok (VStr "helper")
     else Ok (VStr "request")).

(** The predicate shared by getFieldValue and getCheckboxText. *)
Definition label_matches (labelMatch : string) (f : Value) : Result bool :=
  l <~ get f "label" ;;
  label <~ lowered l ;;
  Ok (includes label (toLowerCase labelMatch)).

Definition getFieldValue (fields : Value) (labelMatch : string) : Result Value :=
  fs <~ array_method fields "find" ;;
  field <~ find_result (label_matches labelMatch) fs ;;
  value <~ opt_get field "value" ;;
  Ok (or_else value VNull).

Definition getCheckboxText (fields : Value) (labelMatch : string) : Result Value :=
  fs <~ array_method fields "find" ;;
  field <~ find_result (label_matches labelMatch) fs ;;
  if negb (truthy field) then Ok (VStr "Not specified")
  else
    (value <~ get field "value" ;;
     if negb (truthy value) then Ok (VStr "Not specified")
     else
       (options <~ get field "options" ;;
        match value with
        | VArr ids =>
            if truthy options then
              (selectedOptions <~
                 map_result
                   (fun id =>
                      opts <~ array_method options "find" ;;
                      option <~ find_result
                                  (fun opt => oid <~ get opt "id" ;; Ok (strict_eq oid id))
                                  opts ;;
                      text <~ opt_get option "text" ;;
                      Ok (or_else text id))
                   ids ;;
               text <~ js_join ", " selectedOptions ;;
               Ok (VStr text))
            else (text <~ String_of value ;; Ok (VStr text))
        | VBool true => Ok (VStr "Yes")
        | VBool false => Ok (VStr "No")
        | _ => text <~ String_of value ;; Ok (VStr text)
        end)).

(** The fields both e-mails start from: name, email, phone, isRegular. *)
Definition contact (fields : Value) : Result (string * Value * Value * Value) :=
  first <~ getFieldValue fields "first name" ;;
  let firstName := or_else first (VStr "Unknown") in
  last <~ getFieldValue fields "last name" ;;
  let lastName := or_else last (VStr "") in
  firstText <~ String_of firstName ;;
  lastText <~ String_of lastName ;;
  let name := trim (firstText ++ " " ++ lastText) in
  e <~ getFieldValue fields "email" ;;
  let email := or_else e (VStr "Not provided") in
  p <~ getFieldValue fields "phone" ;;
  let phone := or_else p (VStr "Not provided") in
  isRegular <~ getCheckboxText fields "mvcc regular attender" ;;
  Ok (name, email, phone, isRegular).

(** [formData.createdAt || new Date().toISOString()] *)
Definition submission_date (formData : Value) : M Value :=
  createdAt <- lift (get formData "createdAt") ;;
  if truthy createdAt then ret createdAt else Date_toISOString.

Definition buildRequestEmail (formData analysis : Value) : M Value :=
  fields <- lift (get formData "fields") ;;
  c <- lift (contact fields) ;;
  let '(name, email, phone, isRegular) := c in
  helpType <- lift (getCheckboxText fields "checkbox") ;;
  details <- lift (fs <~ array_method fields "find" ;;
                   field <~ find_result
                              (fun f => k <~ get f "key" ;;
                                        Ok (strict_eq k (VStr "question_GKK09Z"))) fs ;;
                   value <~ opt_get field "value" ;;
                   Ok (or_else value (VStr "No details provided"))) ;;
  financial <- lift (or_lazy (or_lazy (getFieldValue fields "financial")
                                      (getFieldValue fields "pay for parts"))
                             (Ok (VStr "Not specified"))) ;;
  submissionDate <- submission_date formData ;;
  helpType_s <- lift (String_of helpType) ;;
  let subject := "New Help Request Submission - " ++ name
                   ++ " (" ++ helpType_s ++ ")" in
  email_s <- lift (String_of email) ;;
  phone_s <- lift (String_of phone) ;;
  isRegular_s <- lift (String_of isRegular) ;;
  details_s <- lift (String_of details) ;;
  financial_s <- lift (String_of financial) ;;
  when <- date_format toLocaleString submissionDate ;;
  let body := "
    <p>Hi Joel,</p>
    
    <p>There has been a new " ++ dq ++ "Request for Help" ++ dq ++ " submission that I wanted to let you know about.</p>
    
    <p><strong>Summary of the submission:</strong></p>
    
    <p>
      <strong>Name:</strong> " ++ name ++ "<br>
      <strong>Email:</strong> " ++ email_s ++ "<br>
      <strong>Phone:</strong> " ++ phone_s ++ "<br>
      <strong>MVCC Regular Attender:</strong> " ++ isRegular_s ++ "
    </p>
    
    <p><strong>Type of Help Needed:</strong> " ++ helpType_s ++ "</p>
    
    <p><strong>Details:</strong> " ++ dq ++ details_s ++ dq ++ "</p>
    
    <p><strong>Financial Situation:</strong> " ++ financial_s ++ "</p>
    
    <p><strong>Submission Date:</strong> " ++ when ++ "</p>
    
    <p>You can see more details and the full submission in the <a href=" ++ dq ++ "https://docs.google.com/spreadsheets/d/1nFxhaOTeTwYj1k_c1xcsKy-NGADKdQEJCV-Cj1-35eY/edit?gid=0#gid=0" ++ dq ++ ">Submit Request for Help Google Sheet</a>.</p>
    
    <p>Let me know if you need any additional information!</p>
    
    <p>Best regards,<br>
    Ada (Jacob's AI Assistant)</p>
  " in
  ret (VObj [("subject", VStr subject); ("body", VStr body)]).

Definition buildHelperEmail (formData analysis : Value) : M Value :=
  fields <- lift (get formData "fields") ;;
  c <- lift (contact fields) ;;
  let '(name, email, phone, isRegular) := c in
  skills <- lift (or_lazy (getCheckboxText fields "skills offered")
                          (getCheckboxText fields "checkbox")) ;;
  details <- lift (or_lazy (or_lazy (getFieldValue fields "details")
                                    (getFieldValue fields "textarea"))
                           (Ok (VStr "No details provided"))) ;;
  financial <- lift (or_lazy (getFieldValue fields "financial position")
                             (Ok (VStr "Not specified"))) ;;
  submissionDate <- submission_date formData ;;
  let subject := "New " ++ dq ++ "Apply to be a Helper" ++ dq ++ " Submission" in
  day <- date_format toLocaleDateString submissionDate ;;
  time <- date_format toLocaleTimeString submissionDate ;;
  email_s <- lift (String_of email) ;;
  phone_s <- lift (String_of phone) ;;
  isRegular_s <- lift (String_of isRegular) ;;
  details_s <- lift (String_of details) ;;
  skills_s <- lift (String_of skills) ;;
  financial_s <- lift (String_of financial) ;;
  let body := "
    <p>Hi Joel,</p>
    
    <p>There's a new " ++ dq ++ "Apply to be a Helper" ++ dq ++ " submission that came in on " ++ day ++ " at " ++ time ++ ".</p>
    
    <p><strong>Submission Summary:</strong></p>
    
    <ul>
      <li><strong>Name:</strong> " ++ name ++ "</li>
      <li><strong>Email:</strong> " ++ email_s ++ "</li>
      <li><strong>Phone:</strong> " ++ phone_s ++ "</li>
      <li><strong>MVCC Regular Attender:</strong> " ++ isRegular_s ++ "</li>
      <li><strong>Details:</strong> " ++ details_s ++ "</li>
      <li><strong>Skills Offered:</strong> " ++ skills_s ++ "</li>
      <li><strong>Financial Position:</strong> " ++ financial_s ++ "</li>
    </ul>
    
    <p>You can view the full details and all submissions in the <a href=" ++ dq ++ "https://docs.google.com/spreadsheets/d/1xeAnyLNwALRLZQBXbiR06OO_WxnNfVA0tMUXkpSLJ3g/edit?gid=0#gid=0" ++ dq ++ ">Apply to be a Helper Google Sheet</a>.</p>
    
    <p>Best regards,<br>
    Ada</p>
  " in
  ret (VObj [("subject", VStr subject); ("body", VStr body)]).

Definition sendEmail (formData analysis formType : Value) (apiKey : Binding) : M Value :=
  try_catch
    (emailConfig <- (if strict_eq formType (VStr "request")
                     then buildRequestEmail formData analysis
                     else buildHelperEmail formData analysis) ;;
     subject <- lift (get emailConfig "subject") ;;
     html <- lift (get emailConfig "body") ;;
     let emailPayload :=
       VObj [("from", VStr "Ada (Jacob's AI Assistant) <noreply@agent.jacobbrain.com>");
             ("to", VStr "joel0954@comcast.net");
             ("cc", VArr [VStr "jbrainiv@gmail.com"; VStr "jacob.brain@mvccfrederick.com"]);
             ("subject", subject);
             ("html", html)] in
     response <- fetch (mkReq ResendEmails "POST"
                          [("Content-Type", "application/json");
                           ("Authorization", "Bearer " ++ tpl apiKey)]
                          emailPayload) ;;
     result <- response_json response ;;
     if negb (ok response) then
       (responseText <- stringify result ;;
        ret (VObj [("success", VBool false);
                   ("data", result);
                   ("error", VStr ("Resend API returned " ++ dec (status response)));
                   ("responseText", VStr responseText)]))
     else
       ret (VObj [("success", VBool true); ("data", result)]))
    (fun error =>
       ret (VObj [("success", VBool false);
                  ("error", VStr (message error));
                  ("stack", VStr (stack error))])).

Definition json_headers : list (string * string) :=
  [("Content-Type", "application/json")].

Definition fetch (request : Request) (env : Env) : M Response :=
  if String.eqb (req_method request) "GET" then
    ret (mkResponse 200 json_headers
           (JsonBody (JSON_doc
              (VObj [("message", VStr "Worker is running");
                     ("hasResendKey", present (RESEND_API_KEY env));
                     ("resendKeyPrefix",
                      or_else (opt_substring (RESEND_API_KEY env) 10) (VStr "NO KEY"));
                     ("hasAnthropicKey", present (ANTHROPIC_API_KEY env));
                     ("anthropicKeyPrefix",
                      or_else (opt_substring (ANTHROPIC_API_KEY env) 10) (VStr "NO KEY"))]))))
  else if negb (String.eqb (req_method request) "POST") then
    ret (mkResponse 405 [] (TextBody "Method not allowed"))
  else
    try_catch
      (webhookData <- request_json request ;;
       formData <- lift (get webhookData "data") ;;
       formType <- lift (determineFormType formData) ;;
       let analysis := VStr "Test analysis - Claude API skipped for debugging" in
       emailResult <- sendEmail formData analysis formType (RESEND_API_KEY env) ;;
       emailSent <- lift (get emailResult "success") ;;
       emailError <- lift (get emailResult "error") ;;
       emailResponseText <- lift (get emailResult "responseText") ;;
       emailData <- lift (get emailResult "data") ;;
       ret (mkResponse 200 json_headers
              (JsonBody (JSON_doc
                 (VObj [("success", VBool true);
                        ("formType", formType);
                        ("emailSent", emailSent);
                        ("emailError", or_else emailError VNull);
                        ("emailResponseText", or_else emailResponseText VNull);
                        ("emailData", emailData);
                        ("debugInfo",
                         VObj [("hasResendKey", present (RESEND_API_KEY env));
                               ("resendKeyPrefix", opt_substring (RESEND_API_KEY env) 10);
                               ("hasAnthropicKey", present (ANTHROPIC_API_KEY env))])])))))
      (fun error =>
         ret (mkResponse 500 json_headers
                (JsonBody (JSON_doc (VObj [("success", VBool false);
                                           ("error", VStr (message error));
                                           ("stack", VStr (stack error))]))))).

End Ada.

(* ================================================================ *)
(** ** Vocabulary of the properties *)
(* ================================================================ *)

(** [m] always resolves. *)
Definition never_throws {A} (m : M A) : Prop :=
  forall w, exists a, fst (m w) = Ok a.

(** Whatever [m] does to the world stays within [R]. *)
Definition keeps (R : World -> World -> Prop) {A} (m : M A) : Prop :=
  forall w, R w (snd (m w)).

(** Started in worlds related by [E], [m] ends the same way in both and
    leaves them related. *)
Definition lockstep (E : World -> World -> Prop) {A} (m : M A) : Prop :=
  forall w1 w2, E w1 w2 ->
    fst (m w1) = fst (m w2) /\ E (snd (m w1)) (snd (m w2)).

(** When [m] resolves, its value satisfies [Q]. *)
Definition yields {A} (Q : A -> Prop) (m : M A) : Prop :=
  forall w, match fst (m w) with Ok a => Q a | Throw _ => True end.

(** The collaborators and the platform are the same. *)
Definition same_collaborators (w w' : World) : Prop :=
  collab w' = collab w /\ builtins w' = builtins w.

(** Nothing was said to Supabase: the store is as it was, and so are the
    collaborators. *)
Definition store_untouched (w w' : World) : Prop :=
  store w' = store w /\ same_collaborators w w'.

(** Nothing left the worker at all. *)
Definition silent (w w' : World) : Prop :=
  store_untouched w w' /\ http_log w' = http_log w.

Definition is_email (rq : FetchReq) : Prop := endpoint rq = ResendEmails.

(** The requests sent between [w] and [w']. *)
Definition sent_between (w w' : World) (sent : list FetchReq) : Prop :=
  http_log w' = (http_log w ++ sent)%list.

(** A property of a JSON response body. *)
Definition field (k : string) (r : Response) : Value :=
  match r_body r with
  | JsonBody (VObj fs) => lookup k fs
  | _ => VUndef
  end.

Definition has_field (k : string) (r : Response) : bool :=
  match r_body r with
  | JsonBody (VObj fs) => existsb (fun kv => String.eqb (fst kv) k) fs
  | _ => false
  end.

Definition with_store (st : Store) (w : World) : World :=
  mkWorld st (collab w) (builtins w) (now w) (ticks w) (http_log w).

(** Two worlds that offer the same collaborators and the same platform;
    stores, clocks and request logs may differ. *)
Definition same_env (w1 w2 : World) : Prop :=
  collab w1 = collab w2 /\ builtins w1 = builtins w2.

(** *** What a store write can do *)

(** The tables and the credentials are as they were; the fault schedule
    may have advanced. *)
Definition same_tables (st st' : Store) : Prop :=
  executions st' = executions st /\ conversations st' = conversations st /\
  next_id st' = next_id st /\ transitions st' = transitions st /\
  store_url st' = store_url st /\ store_key st' = store_key st.

(** One row was inserted into [agent_executions], in the running state. *)
Definition started (st st' : Store) (row : ExecutionRecord) : Prop :=
  e_id row = id_of (next_id st) /\ e_status row = VStr "running" /\
  executions st' = (executions st ++ [row])%list /\
  conversations st' = conversations st /\
  next_id st' = S (next_id st) /\
  transitions st' = (transitions st ++ [mkTransition (e_id row) None (VStr "running")])%list /\
  store_url st' = store_url st /\ store_key st' = store_key st.

(** The rows whose id is [id] were updated with the document [fs]. *)
Definition updated (id : string) (fs : list (string * Value)) (st st' : Store) : Prop :=
  executions st' = patch_rows id fs (executions st) /\
  conversations st' = conversations st /\
  next_id st' = next_id st /\
  transitions st' = (transitions st ++ patch_log id fs (executions st))%list /\
  store_url st' = store_url st /\ store_key st' = store_key st.

Definition complete_doc (output durationMs : Value) : list (string * Value) :=
  [("output", output); ("status", VStr "success"); ("duration_ms", durationMs)].

Definition error_doc (errorMessage durationMs : Value) : list (string * Value) :=
  [("status", VStr "error"); ("error_message", errorMessage); ("duration_ms", durationMs)].

(** The store answers requests made with these bindings, and the next [n]
    of them without a fault. *)
Definition reachable_with (supabaseUrl supabaseKey : Binding) (st : Store) : Prop :=
  tpl supabaseUrl = store_url st /\ tpl supabaseKey = store_key st.


(** How logExecutionStart can end: with [null] and nothing written, or
    with one running row written and either its id or [null]. *)
Definition start_outcome (w w' : World) (v : Value) : Prop :=
  same_collaborators w w' /\
  ((same_tables (store w) (store w') /\ v = VNull) \/
   (exists row, started (store w) (store w') row /\
                (v = VNull \/ v = VStr (e_id row)))).

(** A text that a URL carries unchanged wherever it is pasted: letters,
    digits and the marks - . _ ~ @ only. *)
Definition is_unreserved (c : ascii) : bool :=
  let n := nat_of_ascii c in
  (Nat.leb 48 n && Nat.leb n 57) || (Nat.leb 64 n && Nat.leb n 90)
  || (Nat.leb 97 n && Nat.leb n 122)
  || Nat.eqb n 45 || Nat.eqb n 46 || Nat.eqb n 95 || Nat.eqb n 126.

Fixpoint url_plain (s : string) : bool :=
  match s with
  | EmptyString => true
  | String c rest => is_unreserved c && url_plain rest
  end.

(** The row key the store reads when a closing write pastes
    [executionId] into its URL; none when the id cannot be converted to
    a string, and the request is not sent. *)
Definition row_key (executionId : Value) : option string :=
  match String_of executionId with
  | Ok pasted => Some (read_last pasted)
  | Throw _ => None
  end.

(** How logExecutionComplete and logExecutionError can end for the
    document [fs] they send. *)
Definition update_outcome (executionId : Value) (fs : list (string * Value))
  (w w' : World) : Prop :=
  same_collaborators w w' /\
  (same_tables (store w) (store w') \/
   (truthy executionId = true /\
    exists id, row_key executionId = Some id /\
               updated id fs (store w) (store w'))).

(** The store is at the address and takes the key the worker was given,
    and no fault awaits the next request. *)
Definition answers (supabaseUrl supabaseKey : Binding) (st : Store) : Prop :=
  reachable_with supabaseUrl supabaseKey st /\ hd Up (faults st) = Up.

(** If the store answers, logExecutionStart writes a running row and
    returns its id. *)
Definition start_answered (supabaseUrl supabaseKey : Binding) (w w' : World) (v : Value)
  : Prop :=
  answers supabaseUrl supabaseKey (store w) ->
  exists row, started (store w) (store w') row /\ v = VStr (e_id row) /\
              faults (store w') = tl (faults (store w)).

(** If the store answers and the id is not the sentinel, the update is
    applied. *)
Definition update_answered (supabaseUrl supabaseKey : Binding) (executionId : Value)
  (fs : list (string * Value)) (w w' : World) : Prop :=
  answers supabaseUrl supabaseKey (store w) -> truthy executionId = true ->
  forall id, row_key executionId = Some id ->
  updated id fs (store w) (store w').

(** Time has not gone back. *)
Definition clock_forward (w w' : World) : Prop := (now w <= now w')%Z.

(** *** Nova's POST path, statement by statement *)

(** What the try block does before it calls the logger: parse the body and
    take it apart. *)
Definition parse_input (request : Request) : Result (Value * Value * Value) :=
  match req_body request with
  | None => Throw (SyntaxError "Unexpected end of JSON input")
  | Some parsed =>
      topic <~ destructure parsed "topic" ;;
      platform <~ destructure parsed "platform" ;;
      style <~ destructure parsed "style" ;;
      Ok (topic, platform, style)
  end.

Definition nova_success (output executionId timestamp : Value) : Response :=
  mkResponse 200 Nova.json_headers
    (JsonBody (JSON_doc (VObj [("success", VBool true);
                               ("output", output);
                               ("error", VNull);
                               ("metadata", Nova.metadata executionId timestamp)]))).

Definition nova_failure (e : JsError) (executionId timestamp : Value) : Response :=
  mkResponse 500 Nova.json_headers
    (JsonBody (JSON_doc (VObj [("success", VBool false);
                               ("output", VNull);
                               ("error", VStr (message e));
                               ("metadata", Nova.metadata executionId timestamp)]))).

(** The three ways a POST to Nova can go, with the worlds in between:
    [w] at entry, [w1] after logExecutionStart, [w2] after the domain
    logic, [w'] at exit. *)
Inductive nova_run (request : Request) (env : Env) (w : World)
  : Response -> World -> Prop :=
| run_rejected e timestamp w' :
    parse_input request = Throw e ->
    same_tables (store w) (store w') ->
    same_collaborators w w' ->
    nova_run request env w (nova_failure e VNull timestamp) w'
| run_completed topic platform style executionId output d timestamp w1 w2 w' :
    parse_input request = Ok (topic, platform, style) ->
    start_outcome w w1 executionId ->
    start_answered (SUPABASE_URL env) (SUPABASE_KEY env) w w1 executionId ->
    fst (Nova.domain_logic env topic platform style w) = Ok output ->
    store_untouched w1 w2 ->
    (0 <= d)%Z ->
    update_outcome executionId (complete_doc output (VNum d)) w2 w' ->
    update_answered (SUPABASE_URL env) (SUPABASE_KEY env) executionId
      (complete_doc output (VNum d)) w2 w' ->
    nova_run request env w (nova_success output executionId timestamp) w'
| run_failed topic platform style executionId e d timestamp w1 w2 w' :
    parse_input request = Ok (topic, platform, style) ->
    start_outcome w w1 executionId ->
    start_answered (SUPABASE_URL env) (SUPABASE_KEY env) w w1 executionId ->
    fst (Nova.domain_logic env topic platform style w) = Throw e ->
    store_untouched w1 w2 ->
    (0 <= d)%Z ->
    update_outcome executionId (error_doc (VStr (message e)) (VNum d)) w2 w' ->
    update_answered (SUPABASE_URL env) (SUPABASE_KEY env) executionId
      (error_doc (VStr (message e)) (VNum d)) w2 w' ->
    nova_run request env w (nova_failure e executionId timestamp) w'.

(** [w'] differs from [w] by at most [n] requests, all of them e-mails
    handed to Resend; Supabase was not contacted. *)
Definition sends (n : nat) (w w' : World) : Prop :=
  store_untouched w w' /\
  exists sent, sent_between w w' sent /\ List.length sent <= n /\ Forall is_email sent.

(** [binding?.substring(0, 10) || 'NO KEY'] *)
Definition key_prefix (b : Binding) : Value :=
  or_else (opt_substring b 10) (VStr "NO KEY").

(** The body of Nova's answer to GET. *)
Definition nova_probe (env : Env) : Value :=
  VObj [("message", VStr "Nova is running");
        ("hasAnthropicKey", present (ANTHROPIC_API_KEY env));
        ("hasNotionToken", present (NOTION_TOKEN env));
        ("hasNotionDatabase", present (NOTION_DATABASE_ID env));
        ("hasSupabaseUrl", present (SUPABASE_URL env));
        ("hasSupabaseKey", present (SUPABASE_KEY env))].

(** The body of Ada's answer to GET. *)
Definition ada_probe (env : Env) : Value :=
  VObj [("message", VStr "Worker is running");
        ("hasResendKey", present (RESEND_API_KEY env));
        ("resendKeyPrefix", key_prefix (RESEND_API_KEY env));
        ("hasAnthropicKey", present (ANTHROPIC_API_KEY env));
        ("anthropicKeyPrefix", key_prefix (ANTHROPIC_API_KEY env))].

(** A worker deployed with none of its variables set. *)
Definition unset_env : Env := mkEnv None None None None None None.

(** *** Concrete worlds for the examples *)

Definition plain_builtins : Builtins :=
  mkBuiltins (fun _ => "<json>") (fun t => dec t)
    (fun _ => "<date and time>") (fun _ => "<date>") (fun _ => "<time>").

Definition empty_store : Store := mkStore "https://db.example" "service-key" [] [] 0 [] [].

(** Collaborators that all answer: Anthropic with a draft, Resend with a
    receipt, Notion with no results. *)
Definition friendly (rq : FetchReq) : NetResult :=
  match endpoint rq with
  | AnthropicMessages =>
      NetReply (mkResp 200 "<json>"
                  (Some (VObj [("content", VArr [VObj [("text", VStr "hello")]])])))
  | ResendEmails => NetReply (mkResp 200 "<json>" (Some (VObj [("id", VStr "em-1")])))
  | _ => NetReply (mkResp 200 "<json>" (Some (VObj [("results", VArr [])])))
  end.

Definition calm_world : World :=
  mkWorld empty_store friendly plain_builtins 1000 [5%N; 7%N; 11%N] [].

Definition live_env : Env :=
  mkEnv (Some "sk-ant") (Some "secret-notion") (Some "voice-db")
    (Some "https://db.example") (Some "service-key") (Some "re-key").

Definition pricing_post : Request :=
  mkRequest "POST" (Some (VObj [("topic", VStr "pricing"); ("platform", VStr "LinkedIn")])).

(** *** The lifecycle of an execution record *)

(** The two kinds of entries a legal history is made of. *)
Definition created (id : string) : Transition :=
  mkTransition id None (VStr "running").

Definition finished (id : string) (s : string) : Transition :=
  mkTransition id (Some (VStr "running")) (VStr s).

(** The writes made to the status of the row [id], oldest first. *)
Definition history (id : string) (ts : list Transition) : list Transition :=
  filter (fun t => String.eqb (tr_id t) id) ts.

Definition terminal (s : string) : Prop := s = "success" \/ s = "error".

(** running, or running -> success, or running -> error: the history
    [h] of a row and the status the row holds now. *)
Definition lifecycle (id : string) (h : list Transition) (status : Value) : Prop :=
  (h = [created id] /\ status = VStr "running") \/
  (exists s, terminal s /\ h = [created id; finished id s] /\ status = VStr s).

(** Ids are the store's own and distinct, every logged write belongs to a
    row, and every row has lived a legal life so far. *)
Definition lifecycle_inv (st : Store) : Prop :=
  NoDup (map e_id (executions st)) /\
  (forall row, In row (executions st) ->
     exists n, e_id row = id_of n /\ n < next_id st) /\
  (forall t, In t (transitions st) -> In (tr_id t) (map e_id (executions st))) /\
  (forall row, In row (executions st) ->
     lifecycle (e_id row) (history (e_id row) (transitions st)) (e_status row)).

(** [st'] is [st], or [st] with one more row that has a legal history [h]
    of its own; no other row and no other history is touched. *)
Definition grows (st st' : Store) : Prop :=
  same_tables st st' \/
  exists row h,
    e_id row = id_of (next_id st) /\
    executions st' = (executions st ++ [row])%list /\
    conversations st' = conversations st /\
    next_id st' = S (next_id st) /\
    transitions st' = (transitions st ++ h)%list /\
    store_url st' = store_url st /\ store_key st' = store_key st /\
    lifecycle (e_id row) h (e_status row).

(** *** Invocations in sequence *)

Inductive Agent : Type := AgentNova | AgentAda.

Definition invoke (a : Agent) (request : Request) (env : Env) : M Response :=
  match a with
  | AgentNova => Nova.fetch request env
  | AgentAda => Ada.fetch request env
  end.

(** One invocation after the other, each starting in the world the last
    one left. *)
Fixpoint serve (calls : list (Agent * Request * Env)) (w : World) : World :=
  match calls with
  | [] => w
  | (a, request, env) :: rest => serve rest (snd (invoke a request env w))
  end.

(** What the caller sees of a response: the transport status and the
    three fields of the envelope that say how the work went. *)
Definition primary (r : Response) : Z * Value * Value * Value :=
  (r_status r, field "success" r, field "output" r, field "error" r).

(** Two worlds that differ in nothing but the Supabase store. *)
Definition same_but_store (w1 w2 : World) : Prop :=
  collab w1 = collab w2 /\ builtins w1 = builtins w2 /\
  now w1 = now w2 /\ ticks w1 = ticks w2 /\ http_log w1 = http_log w2.

(** Anthropic answers 429 to everything; the others are friendly. *)
Definition rate_limited (rq : FetchReq) : NetResult :=
  match endpoint rq with
  | AnthropicMessages =>
      NetReply (mkResp 429 "<json>" (Some (VObj [("error", VStr "rate limited")])))
  | _ => friendly rq
  end.

(** The store cannot be reached for the next two requests. *)
Definition outage_store : Store :=
  mkStore "https://db.example" "service-key" [] [] 0
    [Down (TypeError "fetch failed"); Down (TypeError "fetch failed")] [].

Definition outage_world : World :=
  mkWorld outage_store friendly plain_builtins 1000 [5%N; 7%N; 11%N] [].

Definition failing_world : World :=
  mkWorld empty_store rate_limited plain_builtins 1000 [5%N; 7%N; 11%N] [].

Definition failing_outage_world : World :=
  mkWorld outage_store rate_limited plain_builtins 1000 [5%N; 7%N; 11%N] [].

Definition sample_calls : list (Agent * Request * Env) :=
  [(AgentNova, pricing_post, live_env);
   (AgentAda, mkRequest "POST" (Some (VObj [])), live_env);
   (AgentNova, pricing_post, live_env)].

(** *** What the Notion lookups hand to the prompt builder *)

Definition example_ok (ex : Value) : Prop :=
  exists content tags platform,
    ex = VObj [("content", content); ("tags", VArr tags); ("platform", platform)].

Definition doc_ok (d : Value) : Prop :=
  exists title content, d = VObj [("title", title); ("content", VStr content)].

Definition examples_shape (v : Value) : Prop :=
  exists items, v = VArr items /\ Forall example_ok items.

Definition docs_shape (v : Value) : Prop :=
  exists items, v = VArr items /\ Forall doc_ok items.

(** [data.content[0].text] *)
Definition draft_of (data : Value) : Result Value :=
  content <~ get data "content" ;;
  item <~ index content 0 ;;
  get item "text".


(** The draft of a successful call. *)
Definition llm_draft (res : NetResult) : option Value :=
  match res with
  | NetError _ => None
  | NetReply r =>
      match json r with
      | None => None
      | Some data =>
          if ok r then match draft_of data with Ok d => Some d | Throw _ => None end
          else None
      end
  end.

Definition is_notion (ep : Endpoint) : bool :=
  match ep with
  | NotionDatabaseQuery _ | NotionSearch | NotionBlockChildren _ => true
  | _ => false
  end.

(** Every request to Notion is rejected or answered with a non-2xx status. *)
Definition notion_fails (w : World) : Prop :=
  forall rq, is_notion (endpoint rq) = true ->
    match collab w rq with
    | NetError _ => True
    | NetReply r => ok r = false
    end.

(** Anthropic gives the same answer to whatever it is asked. *)
Definition anthropic_answers (w : World) (res : NetResult) : Prop :=
  forall rq, endpoint rq = AnthropicMessages -> collab w rq = res.

(** Notion is unreachable, the others are friendly. *)
Definition notion_down (rq : FetchReq) : NetResult :=
  if is_notion (endpoint rq) then NetError (TypeError "fetch failed") else friendly rq.

Definition notion_down_world : World :=
  mkWorld empty_store notion_down plain_builtins 1000 [5%N; 7%N; 11%N] [].

(** How generateContent ends for an answer of Anthropic. *)
Definition llm_result (b : Builtins) (res : NetResult) : Result Value :=
  match res with
  | NetError e => Throw e
  | NetReply r =>
      match json r with
      | None => Throw (Error_ ("Failed to parse Anthropic response: " ++ text r))
      | Some data =>
          if ok r then draft_of data
          else Throw (Error_ ("Claude API error (" ++ dec (status r) ++ "): "
                                ++ JSON_stringify b data))
      end
  end.

(** The two prompts generateContent writes before it calls the model. *)
Definition prompts (topic platform style voiceExamples contextDocs : Value)
  : Result (string * string) :=
  systemPrompt <~ Nova.buildSystemPrompt platform voiceExamples contextDocs ;;
  userPrompt <~ Nova.buildUserPrompt topic platform style ;;
  Ok (systemPrompt, userPrompt).

(** The topic, platform and style of a request can be written into a
    prompt: each converts to a string. *)
Definition prompt_prints (topic platform style : Value) : Prop :=
  exists userPrompt, Nova.buildUserPrompt topic platform style = Ok userPrompt.

(** How generateContent ends: as the prompts do when they fail, as the
    call to the model does otherwise. *)
Definition generate_result (b : Builtins) (res : NetResult)
  (topic platform style voiceExamples contextDocs : Value) : Result Value :=
  match prompts topic platform style voiceExamples contextDocs with
  | Ok _ => llm_result b res
  | Throw e => Throw e
  end.

Definition nova_output (draft : Value) (voiceExamplesUsed contextDocsUsed : nat) : Value :=
  VObj [("draft", draft);
        ("voiceExamplesUsed", VNum (Z.of_nat voiceExamplesUsed));
        ("contextDocsUsed", VNum (Z.of_nat contextDocsUsed))].

(** A Tally webhook delivery of the "Request for Help" form. *)
Definition tally_post : Request :=
  mkRequest "POST"
    (Some (VObj [("eventType", VStr "FORM_RESPONSE");
                 ("data",
                  VObj [("formName", VStr "Request for Help");
                        ("createdAt", VStr "2025-10-26T12:00:00.000Z");
                        ("fields",
                         VArr [VObj [("key", VStr "question_1");
                                     ("label", VStr "First Name");
                                     ("value", VStr "Al")];
                               VObj [("key", VStr "question_GKK09Z");
                                     ("label", VStr "Details");
                                     ("value", VStr "A leaking tap")]])])])).

(** The envelope of the shared contract: success with an output and no
    error, or failure with an error and no output. *)
Definition envelope (r : Response) : Prop :=
  (field "success" r = VBool true /\ (exists fs, field "output" r = VObj fs) /\
   field "error" r = VNull) \/
  (field "success" r = VBool false /\ field "output" r = VNull /\
   exists msg, field "error" r = VStr msg).

(* ================================================================ *)
(** ** Vocabulary of the further properties *)
(* ================================================================ *)


Definition to_supabase (rq : FetchReq) : bool :=
  match supabase_base (endpoint rq) with Some _ => true | None => false end.

Definition to_notion (rq : FetchReq) : bool := is_notion (endpoint rq).

Definition to_anthropic (rq : FetchReq) : bool :=
  match endpoint rq with AnthropicMessages => true | _ => false end.

Definition to_resend (rq : FetchReq) : bool :=
  match endpoint rq with ResendEmails => true | _ => false end.












(** *** Counting outbound requests *)

(** How many requests an operation may send to each service. *)
Record Budget : Type := mkBudget {
  supabase_calls : nat;
  notion_calls : nat;
  anthropic_calls : nat;
  resend_calls : nat
}.

Definition budget_add (a b : Budget) : Budget :=
  mkBudget (supabase_calls a + supabase_calls b) (notion_calls a + notion_calls b)
    (anthropic_calls a + anthropic_calls b) (resend_calls a + resend_calls b).

Definition budget_scale (n : nat) (a : Budget) : Budget :=
  mkBudget (n * supabase_calls a) (n * notion_calls a)
    (n * anthropic_calls a) (n * resend_calls a).

Definition budget_le (a b : Budget) : Prop :=
  supabase_calls a <= supabase_calls b /\ notion_calls a <= notion_calls b /\
  anthropic_calls a <= anthropic_calls b /\ resend_calls a <= resend_calls b.

Definition no_calls : Budget := mkBudget 0 0 0 0.

(** The requests of [sent], counted by service. *)
Definition spent (sent : list FetchReq) : Budget :=
  mkBudget (List.length (filter to_supabase sent)) (List.length (filter to_notion sent))
    (List.length (filter to_anthropic sent)) (List.length (filter to_resend sent)).

(** The budget one request uses. *)
Definition cost (rq : FetchReq) : Budget := spent [rq].

(** Between [w] and [w'] no more was sent than [b] allows. *)
Definition within (b : Budget) (w w' : World) : Prop :=
  exists sent, sent_between w w' sent /\ budget_le (spent sent) b.

(** Every request sent between [w] and [w'] satisfies [P]. *)
Definition emits (P : FetchReq -> Prop) (w w' : World) : Prop :=
  exists sent, sent_between w w' sent /\ Forall P sent.

Definition one_supabase : Budget := mkBudget 1 0 0 0.
Definition one_notion : Budget := mkBudget 0 1 0 0.
Definition one_anthropic : Budget := mkBudget 0 0 1 0.
Definition one_resend : Budget := mkBudget 0 0 0 1.

(** What one POST to Nova may send: the start write and one closing
    write, the voice-example query, the search and three page reads, and
    one completion. *)
Definition nova_budget : Budget := mkBudget 2 5 1 0.

(** *** Ada *)

(** What Ada's try block does before it sends the e-mail: parse the body,
    take the submission out of it and classify the form. *)
Definition ada_input (request : Request) : Result (Value * Value) :=
  match req_body request with
  | None => Throw (SyntaxError "Unexpected end of JSON input")
  | Some webhookData =>
      formData <~ get webhookData "data" ;;
      formType <~ Ada.determineFormType formData ;;
      Ok (formData, formType)
  end.

(** The response of Ada's catch block. *)
Definition ada_failure (e : JsError) : Response :=
  mkResponse 500 Ada.json_headers
    (JsonBody (JSON_doc (VObj [("success", VBool false);
                               ("error", VStr (message e));
                               ("stack", VStr (stack e))]))).

(** An e-mail handed to Resend for the coordinator, copied to the two
    fixed addresses, whatever its subject and text. *)
Definition to_coordinator (rq : FetchReq) : Prop :=
  endpoint rq = ResendEmails /\ method rq = "POST" /\
  exists subject html,
    body rq =
      VObj [("from", VStr "Ada (Jacob's AI Assistant) <noreply@agent.jacobbrain.com>");
            ("to", VStr "joel0954@comcast.net");
            ("cc", VArr [VStr "jbrainiv@gmail.com"; VStr "jacob.brain@mvccfrederick.com"]);
            ("subject", subject);
            ("html", html)].

(** Resend accepted the one request sent between [w] and [w']: it
    answered with an ok status and a JSON body. *)
Definition delivered (w w' : World) : Prop :=
  exists rq r doc, sent_between w w' [rq] /\ endpoint rq = ResendEmails /\
                   collab w rq = NetReply r /\ ok r = true /\ json r = Some doc.

(** *** Rows and conversations *)



(** The lookup request of getOrCreateConversation. *)
Definition conversation_query (supabaseUrl supabaseKey : Binding) (user : string)
  : FetchReq :=
  mkReq (SupabaseActiveConversation supabaseUrl user) "GET"
    [("apikey", tpl supabaseKey); ("Authorization", "Bearer " ++ tpl supabaseKey)] VUndef.

(** A store that answers the lookup, processes the insert but loses its
    reply, and answers again afterwards. *)
Definition lossy_store : Store :=
  mkStore "https://db.example" "service-key" [] [] 0
    [Up; Lost (TypeError "fetch failed"); Up] [].

Definition lossy_world : World :=
  mkWorld lossy_store friendly plain_builtins 1000 [5%N; 7%N; 11%N] [].

(** *** What Nova reads from Notion *)

(** A voice example the prompt can quote: it has a text. *)
Definition usable_example (ex : Value) : Prop :=
  exists content tags platform,
    ex = VObj [("content", content); ("tags", VArr tags); ("platform", platform)] /\
    truthy content = true.

(** The query getVoiceExamples sends. *)
Definition is_voice_query (databaseId : Binding) (rq : FetchReq) : Prop :=
  endpoint rq = NotionDatabaseQuery (tpl databaseId) /\ method rq = "POST".

(** A POST with the empty object for a body. *)
Definition empty_post : Request := mkRequest "POST" (Some (VObj [])).

(** The fields of a submission that gives a first name and nothing else. *)
Definition name_only : list Value :=
  [VObj [("key", VStr "question_1"); ("label", VStr "First Name"); ("value", VStr "Al")]].

(** *** Credentials *)

(** The headers of [rq] that carry a credential. *)
Definition credentials (rq : FetchReq) : list (string * string) :=
  filter (fun h => String.eqb (fst h) "Authorization" || String.eqb (fst h) "apikey"
                   || String.eqb (fst h) "x-api-key")
    (headers rq).

(** [rq] goes to one of Nova's three services, at the configured address
    where there is one, and carries that service's credential and no
    other. *)
Definition keyed_for (env : Env) (rq : FetchReq) : Prop :=
  match endpoint rq with
  | NotionDatabaseQuery _ | NotionSearch | NotionBlockChildren _ =>
      credentials rq = [("Authorization", "Bearer " ++ tpl (NOTION_TOKEN env))]
  | AnthropicMessages =>
      credentials rq = [("x-api-key", tpl (ANTHROPIC_API_KEY env))]
  | SupabaseExecutions b | SupabaseExecutionById b _ =>
      b = SUPABASE_URL env /\
      credentials rq = [("apikey", tpl (SUPABASE_KEY env));
                        ("Authorization", "Bearer " ++ tpl (SUPABASE_KEY env))]
  | _ => False
  end.

(** *** The text of Ada's e-mail *)

(** The expression buildRequestEmail computes [details] with: the value
    of the field whose key is question_GKK09Z, or a placeholder. *)
Definition request_details (fields : Value) : Result Value :=
  fs <~ array_method fields "find" ;;
  field <~ find_result
             (fun f => k <~ get f "key" ;; Ok (strict_eq k (VStr "question_GKK09Z"))) fs ;;
  value <~ opt_get field "value" ;;
  Ok (or_else value (VStr "No details provided")).

(** A submission of the request form whose details hold markup. *)
Definition markup_form : Value :=
  VObj [("formName", VStr "Request for Help");
        ("createdAt", VStr "2025-10-26T12:00:00.000Z");
        ("fields",
         VArr [VObj [("key", VStr "question_GKK09Z");
                     ("label", VStr "Details");
                     ("value", VStr "<img src=x onerror=alert(1)>")]])].

(** An error document of the REST layer. *)
Definition error_document (msg : string) : Value := VObj [("message", VStr msg)].

(** A store that holds an active conversation of the user, refuses the
    next request with an error document and answers the one after. *)
Definition busy_store : Store :=
  mkStore "https://db.example" "service-key" []
    [mkConversation "id-0" (VStr "jacob@jacobbrain.com") (VStr "active") (VStr "1005")]
    1 [Refuse (Some (error_document "Service Unavailable")); Up] [].

Definition busy_world : World :=
  mkWorld busy_store friendly plain_builtins 2000 [5%N; 7%N; 11%N] [].

(* ================================================================ *)
(** ** Reasoning about computations *)
(* ================================================================ *)

Lemma run_bind {A B} (m : M A) (k : A -> M B) w a w' :
  m w = (Ok a, w') -> bind m k w = k a w'.
Proof. intros H; unfold bind; now rewrite H. Qed.

Lemma run_bind_throw {A B} (m : M A) (k : A -> M B) w e w' :
  m w = (Throw e, w') -> bind m k w = (Throw e, w').
Proof. intros H; unfold bind; now rewrite H. Qed.

Lemma bind_lift_ok {A B} (a : A) (k : A -> M B) w : bind (lift (Ok a)) k w = k a w.
Proof. reflexivity. Qed.

Lemma bind_lift_throw {A B} e (k : A -> M B) w :
  bind (lift (Throw e)) k w = (Throw e, w).
Proof. reflexivity. Qed.

Lemma bind_ret {A B} (a : A) (k : A -> M B) w : bind (ret a) k w = k a w.
Proof. reflexivity. Qed.

Lemma run_pair {A} (m : M A) w a : fst (m w) = Ok a -> m w = (Ok a, snd (m w)).
Proof. intros H. rewrite <- H. apply surjective_pairing. Qed.

Lemma run_try_ok {A} (m : M A) h w a w' :
  m w = (Ok a, w') -> try_catch m h w = (Ok a, w').
Proof. intros H; unfold try_catch; now rewrite H. Qed.

Lemma run_try_throw {A} (m : M A) h w e w' :
  m w = (Throw e, w') -> try_catch m h w = h e w'.
Proof. intros H; unfold try_catch; now rewrite H. Qed.

Lemma never_throws_try {A} (m : M A) h :
  (forall e, never_throws (h e)) -> never_throws (try_catch m h).
Proof.
  intros Hh w; unfold try_catch.
  destruct (m w) as [[a | e] w']; [now exists a | apply Hh].
Qed.

Lemma never_throws_ret {A} (a : A) : never_throws (ret a).
Proof. intros w; now exists a. Qed.

Section Keeps.
Variable R : World -> World -> Prop.
Hypothesis R_refl : forall w, R w w.
Hypothesis R_trans : forall w1 w2 w3, R w1 w2 -> R w2 w3 -> R w1 w3.

Lemma keeps_ret {A} (a : A) : keeps R (ret a).
Proof. intros w; apply R_refl. Qed.

Lemma keeps_throw {A} e : keeps R (@throw A e).
Proof. intros w; apply R_refl. Qed.

Lemma keeps_lift {A} (r : Result A) : keeps R (lift r).
Proof. intros w; apply R_refl. Qed.

Lemma keeps_stringify v : keeps R (stringify v).
Proof. intros w; apply R_refl. Qed.

Lemma keeps_date_format f v : keeps R (date_format f v).
Proof. intros w; apply R_refl. Qed.

Lemma keeps_response_json r : keeps R (response_json r).
Proof. intros w; apply R_refl. Qed.

Lemma keeps_response_text r : keeps R (response_text r).
Proof. intros w; apply R_refl. Qed.

Lemma keeps_request_json r : keeps R (request_json r).
Proof. intros w; apply R_refl. Qed.

Lemma keeps_bind {A B} (m : M A) (k : A -> M B) :
  keeps R m -> (forall a, keeps R (k a)) -> keeps R (bind m k).
Proof.
  intros Hm Hk w; unfold bind.
  specialize (Hm w). destruct (m w) as [[a | e] w']; simpl in *; [|assumption].
  eapply R_trans; [eassumption | apply Hk].
Qed.

Lemma keeps_try_catch {A} (m : M A) h :
  keeps R m -> (forall e, keeps R (h e)) -> keeps R (try_catch m h).
Proof.
  intros Hm Hh w; unfold try_catch.
  specialize (Hm w). destruct (m w) as [[a | e] w']; simpl in *; [assumption|].
  eapply R_trans; [eassumption | apply Hh].
Qed.

Lemma keeps_attempt {A} (m : M A) : keeps R m -> keeps R (Nova.attempt m).
Proof.
  intros Hm w; unfold Nova.attempt. specialize (Hm w).
  destruct (m w) as [r w']; exact Hm.
Qed.

Lemma keeps_mapM {A B} (f : A -> M B) l :
  (forall a, keeps R (f a)) -> keeps R (mapM f l).
Proof.
  intros Hf; induction l as [|x l IH]; simpl.
  - apply keeps_ret.
  - apply keeps_bind; [apply Hf|]; intros y.
    apply keeps_bind; [apply IH|]; intros ys. apply keeps_ret.
Qed.
End Keeps.

Section Yields.
Context {A : Type} (Q : A -> Prop).

Lemma yields_ret a : Q a -> yields Q (ret a).
Proof. intros H w; exact H. Qed.

Lemma yields_throw e : yields Q (throw e).
Proof. intros w; exact I. Qed.

Lemma yields_lift (r : Result A) : (forall a, r = Ok a -> Q a) -> yields Q (lift r).
Proof. intros H w; simpl. destruct r; auto. Qed.

Lemma yields_bind {B} (m : M B) (k : B -> M A) :
  (forall b, yields Q (k b)) -> yields Q (bind m k).
Proof.
  intros Hk w; unfold bind. destruct (m w) as [[b | e] w']; simpl; [apply Hk | exact I].
Qed.

Lemma yields_try_catch (m : M A) h :
  yields Q m -> (forall e, yields Q (h e)) -> yields Q (try_catch m h).
Proof.
  intros Hm Hh w; unfold try_catch. specialize (Hm w).
  destruct (m w) as [[a | e] w']; simpl in *; [assumption | apply Hh].
Qed.
End Yields.

Section Lockstep.
Variable E : World -> World -> Prop.

Lemma lockstep_ret {A} (a : A) : lockstep E (ret a).
Proof. intros w1 w2 H; split; [reflexivity | exact H]. Qed.

Lemma lockstep_throw {A} e : lockstep E (@throw A e).
Proof. intros w1 w2 H; split; [reflexivity | exact H]. Qed.

Lemma lockstep_lift {A} (r : Result A) : lockstep E (lift r).
Proof. intros w1 w2 H; split; [reflexivity | exact H]. Qed.

Lemma lockstep_response_json r : lockstep E (response_json r).
Proof. apply lockstep_lift. Qed.

Lemma lockstep_response_text r : lockstep E (response_text r).
Proof. apply lockstep_ret. Qed.

Lemma lockstep_bind {A B} (m : M A) (k : A -> M B) :
  lockstep E m -> (forall a, lockstep E (k a)) -> lockstep E (bind m k).
Proof.
  intros Hm Hk w1 w2 H; unfold bind.
  destruct (Hm w1 w2 H) as [Hr Hw].
  destruct (m w1) as [[a1 | e1] w1'], (m w2) as [[a2 | e2] w2'];
    simpl in *; try discriminate.
  - injection Hr as ->. now apply Hk.
  - injection Hr as ->. now split.
Qed.

Lemma lockstep_try_catch {A} (m : M A) h :
  lockstep E m -> (forall e, lockstep E (h e)) -> lockstep E (try_catch m h).
Proof.
  intros Hm Hh w1 w2 H; unfold try_catch.
  destruct (Hm w1 w2 H) as [Hr Hw].
  destruct (m w1) as [[a1 | e1] w1'], (m w2) as [[a2 | e2] w2'];
    simpl in *; try discriminate.
  - injection Hr as ->. now split.
  - injection Hr as ->. now apply Hh.
Qed.

Lemma lockstep_mapM {A B} (f : A -> M B) l :
  (forall a, lockstep E (f a)) -> lockstep E (mapM f l).
Proof.
  intros Hf; induction l as [|x l IH]; simpl.
  - apply lockstep_ret.
  - apply lockstep_bind; [apply Hf|]; intros y.
    apply lockstep_bind; [apply IH|]; intros ys. apply lockstep_ret.
Qed.
End Lockstep.

(** *** The primitives *)

Lemma same_collaborators_refl w : same_collaborators w w.
Proof. now split. Qed.

Lemma same_collaborators_trans w1 w2 w3 :
  same_collaborators w1 w2 -> same_collaborators w2 w3 -> same_collaborators w1 w3.
Proof. intros [H1 H2] [H3 H4]; split; congruence. Qed.

Lemma store_untouched_refl w : store_untouched w w.
Proof. split; [reflexivity | apply same_collaborators_refl]. Qed.

Lemma store_untouched_trans w1 w2 w3 :
  store_untouched w1 w2 -> store_untouched w2 w3 -> store_untouched w1 w3.
Proof.
  intros [H1 H2] [H3 H4]; split; [congruence|].
  eapply same_collaborators_trans; eassumption.
Qed.

Lemma silent_refl w : silent w w.
Proof. split; [apply store_untouched_refl | reflexivity]. Qed.

Lemma silent_trans w1 w2 w3 : silent w1 w2 -> silent w2 w3 -> silent w1 w3.
Proof.
  intros [H1 H2] [H3 H4]; split; [|congruence].
  eapply store_untouched_trans; eassumption.
Qed.

Lemma fetch_keeps_collaborators rq : keeps same_collaborators (fetch rq).
Proof.
  intros w; unfold fetch.
  destruct (supabase_base (endpoint rq)).
  - destruct (supabase _ _ _ _) as [[e | r] st']; now split.
  - destruct (collab w rq); now split.
Qed.

Lemma fetch_collab_untouched rq :
  supabase_base (endpoint rq) = None -> keeps store_untouched (fetch rq).
Proof.
  intros H w; unfold fetch; rewrite H.
  destruct (collab w rq); repeat split.
Qed.

Lemma Date_now_silent : keeps silent Date_now.
Proof. intros w; repeat split. Qed.

Lemma Date_toISOString_silent : keeps silent Date_toISOString.
Proof. intros w; repeat split. Qed.

Lemma silent_untouched {A} (m : M A) : keeps silent m -> keeps store_untouched m.
Proof. intros H w; apply H. Qed.

Lemma untouched_collaborators {A} (m : M A) :
  keeps store_untouched m -> keeps same_collaborators m.
Proof. intros H w; apply H. Qed.

Lemma fetch_collab_lockstep rq :
  supabase_base (endpoint rq) = None -> lockstep same_env (fetch rq).
Proof.
  intros H w1 w2 [Hc Hb]; unfold fetch; rewrite H, Hc.
  destruct (collab w2 rq); simpl; repeat split; assumption.
Qed.

Lemma stringify_lockstep v : lockstep same_env (stringify v).
Proof. intros w1 w2 [Hc Hb]; unfold stringify; simpl; rewrite Hb; repeat split; assumption. Qed.

(** Walks a computation built from the combinators, for a relation given
    by its reflexivity and transitivity proofs and a tactic for the
    primitives. *)
Ltac keeps_walk refl trans prim :=
  repeat first
    [ apply (keeps_ret _ refl)
    | apply (keeps_throw _ refl)
    | apply (keeps_lift _ refl)
    | apply (keeps_stringify _ refl)
    | apply (keeps_date_format _ refl)
    | apply (keeps_response_json _ refl)
    | apply (keeps_response_text _ refl)
    | apply (keeps_request_json _ refl)
    | prim
    | apply (keeps_bind _ trans); [| intros ?]
    | apply (keeps_try_catch _ trans); [| intros ?]
    | apply (keeps_mapM _ refl trans); intros ?
    | match goal with
      | |- keeps _ (if ?c then _ else _) => destruct c
      | |- keeps _ (match ?x with _ => _ end) => destruct x
      end ].

Ltac untouched_prim :=
  first [ apply silent_untouched, Date_now_silent
        | apply silent_untouched, Date_toISOString_silent
        | apply fetch_collab_untouched; reflexivity ].

Ltac untouched := keeps_walk store_untouched_refl store_untouched_trans untouched_prim.

Ltac lockstep_walk :=
  repeat first
    [ apply lockstep_ret
    | apply lockstep_throw
    | apply lockstep_lift
    | apply lockstep_response_json
    | apply lockstep_response_text
    | apply stringify_lockstep
    | apply fetch_collab_lockstep; reflexivity
    | apply lockstep_bind; [| intros ?]
    | apply lockstep_try_catch; [| intros ?]
    | apply lockstep_mapM; intros ?
    | match goal with
      | |- lockstep _ (if ?c then _ else _) => destruct c
      | |- lockstep _ (match ?x with _ => _ end) => destruct x
      end ].

(** *** Nova's domain logic never talks to Supabase *)

Lemma getVoiceExamples_untouched notionToken databaseId platform :
  keeps store_untouched (Nova.getVoiceExamples notionToken databaseId platform).
Proof. unfold Nova.getVoiceExamples; untouched. Qed.

Lemma page_document_untouched notionToken page :
  keeps store_untouched (Nova.page_document notionToken page).
Proof. unfold Nova.page_document; untouched. Qed.

Lemma searchNotionWorkspace_untouched notionToken topic platform :
  keeps store_untouched (Nova.searchNotionWorkspace notionToken topic platform).
Proof.
  unfold Nova.searchNotionWorkspace; untouched.
Qed.

Lemma generateContent_untouched topic platform style voiceExamples contextDocs apiKey :
  keeps store_untouched
    (Nova.generateContent topic platform style voiceExamples contextDocs apiKey).
Proof. unfold Nova.generateContent; untouched. Qed.

Lemma domain_logic_untouched env topic platform style :
  keeps store_untouched (Nova.domain_logic env topic platform style).
Proof.
  unfold Nova.domain_logic.
  repeat (apply (keeps_bind _ store_untouched_trans); [| intros ?]);
    first [ apply getVoiceExamples_untouched
          | apply searchNotionWorkspace_untouched
          | apply generateContent_untouched
          | untouched ].
Qed.

(** *** ... and its outcome depends on the collaborators alone *)

Lemma getVoiceExamples_lockstep notionToken databaseId platform :
  lockstep same_env (Nova.getVoiceExamples notionToken databaseId platform).
Proof. unfold Nova.getVoiceExamples; lockstep_walk. Qed.

Lemma page_document_lockstep notionToken page :
  lockstep same_env (Nova.page_document notionToken page).
Proof. unfold Nova.page_document; lockstep_walk. Qed.

Lemma searchNotionWorkspace_lockstep notionToken topic platform :
  lockstep same_env (Nova.searchNotionWorkspace notionToken topic platform).
Proof.
  unfold Nova.searchNotionWorkspace; lockstep_walk.
Qed.

Lemma generateContent_lockstep topic platform style voiceExamples contextDocs apiKey :
  lockstep same_env
    (Nova.generateContent topic platform style voiceExamples contextDocs apiKey).
Proof. unfold Nova.generateContent; lockstep_walk. Qed.

Lemma domain_logic_lockstep env topic platform style :
  lockstep same_env (Nova.domain_logic env topic platform style).
Proof.
  unfold Nova.domain_logic.
  repeat (apply lockstep_bind; [| intros ?]);
    first [ apply getVoiceExamples_lockstep
          | apply searchNotionWorkspace_lockstep
          | apply generateContent_lockstep
          | lockstep_walk ].
Qed.

(* ================================================================ *)
(** ** Texts pasted into a URL *)
(* ================================================================ *)

Lemma unreserved_char c :
  is_unreserved c = true ->
  is_line_break c = false /\ is_blank c = false /\ ends_value c = false /\
  Nat.eqb (nat_of_ascii c) 37 = false /\ Nat.eqb (nat_of_ascii c) 35 = false.
Proof.
  destruct c as [[] [] [] [] [] [] [] []]; intros H;
    solve [discriminate H | repeat split].
Qed.

(** A plain text is read back as it was pasted. *)
Lemma url_plain_read s :
  url_plain s = true ->
  read_param s = s /\ read_last s = s /\ cuts_query s = false.
Proof.
  intros H.
  assert (H1 : drop_line_breaks s = s /\ value_part s = s /\ percent_decode s = s /\
               strip_end s = s /\ cuts_query s = false).
  { induction s as [|c s IH]; [repeat split|].
    cbn [url_plain] in H. apply andb_prop in H as [Hc Hs].
    destruct (unreserved_char c Hc) as (L & B & E & P & Q).
    destruct (IH Hs) as (I1 & I2 & I3 & I4 & I5).
    cbn [drop_line_breaks value_part percent_decode strip_end cuts_query].
    rewrite L, E, P, Q, I1, I2, I3, I4, I5, B. repeat split.
    now destruct s. }
  destruct H1 as (D & V & P & S & C).
  unfold read_last, read_param. rewrite S, D, V, P. repeat split. exact C.
Qed.

Lemma uint_plain d : url_plain (NilEmpty.string_of_uint d) = true.
Proof. induction d; simpl; auto. Qed.

Lemma id_of_plain n : url_plain (id_of n) = true.
Proof. unfold id_of. simpl. apply uint_plain. Qed.

(** The ids the store hands out are read back as they are. *)
Lemma row_key_id n : row_key (VStr (id_of n)) = Some (id_of n).
Proof.
  unfold row_key. cbn [String_of].
  now rewrite (proj1 (proj2 (url_plain_read _ (id_of_plain n)))).
Qed.

Lemma row_key_plain s : url_plain s = true -> row_key (VStr s) = Some s.
Proof.
  intros H. unfold row_key. cbn [String_of].
  now rewrite (proj1 (proj2 (url_plain_read _ H))).
Qed.

(* ================================================================ *)
(** ** The execution logger *)
(* ================================================================ *)

Ltac collaborators_prim :=
  first [ apply untouched_collaborators, silent_untouched, Date_now_silent
        | apply untouched_collaborators, silent_untouched, Date_toISOString_silent
        | apply fetch_keeps_collaborators ].

Ltac collaborators :=
  keeps_walk same_collaborators_refl same_collaborators_trans collaborators_prim.

Lemma logExecutionStart_never_throws supabaseUrl supabaseKey conversationId agentId input :
  never_throws (Supabase.logExecutionStart supabaseUrl supabaseKey conversationId agentId input).
Proof. apply never_throws_try; intros e; apply never_throws_ret. Qed.

Lemma nova_logExecutionStart_never_throws supabaseUrl supabaseKey conversationId agentId input :
  never_throws (Nova.logExecutionStart supabaseUrl supabaseKey conversationId agentId input).
Proof. apply never_throws_try; intros e; apply never_throws_ret. Qed.

Lemma logExecutionComplete_never_throws supabaseUrl supabaseKey executionId output durationMs :
  never_throws (Supabase.logExecutionComplete supabaseUrl supabaseKey executionId output durationMs).
Proof.
  unfold Supabase.logExecutionComplete. destruct (negb (truthy executionId)).
  - apply never_throws_ret.
  - apply never_throws_try; intros e; apply never_throws_ret.
Qed.

Lemma logExecutionError_never_throws supabaseUrl supabaseKey executionId errorMessage durationMs :
  never_throws (Supabase.logExecutionError supabaseUrl supabaseKey executionId errorMessage durationMs).
Proof.
  unfold Supabase.logExecutionError. destruct (negb (truthy executionId)).
  - apply never_throws_ret.
  - apply never_throws_try; intros e; apply never_throws_ret.
Qed.

Lemma logExecutionStart_collaborators supabaseUrl supabaseKey conversationId agentId input :
  keeps same_collaborators
    (Supabase.logExecutionStart supabaseUrl supabaseKey conversationId agentId input).
Proof. unfold Supabase.logExecutionStart; collaborators. Qed.

Lemma nova_logExecutionStart_collaborators supabaseUrl supabaseKey conversationId agentId input :
  keeps same_collaborators
    (Nova.logExecutionStart supabaseUrl supabaseKey conversationId agentId input).
Proof. unfold Nova.logExecutionStart; collaborators. Qed.

Lemma logExecutionComplete_collaborators supabaseUrl supabaseKey executionId output durationMs :
  keeps same_collaborators
    (Supabase.logExecutionComplete supabaseUrl supabaseKey executionId output durationMs).
Proof. unfold Supabase.logExecutionComplete; collaborators. Qed.

Lemma logExecutionError_collaborators supabaseUrl supabaseKey executionId errorMessage durationMs :
  keeps same_collaborators
    (Supabase.logExecutionError supabaseUrl supabaseKey executionId errorMessage durationMs).
Proof. unfold Supabase.logExecutionError; collaborators. Qed.

(** *** What the store does with the three requests *)

Lemma same_tables_refl st : same_tables st st.
Proof. repeat split. Qed.

Lemma same_tables_set_faults fs st : same_tables st (set_faults fs st).
Proof. repeat split. Qed.

(** An insert into [agent_executions]: either nothing is written, or one
    running row is, and then the reply, if it arrives intact, names it. *)
Lemma supabase_insert stringify base key fs st :
  lookup "status" fs = VStr "running" ->
  let rq := mkReq (SupabaseExecutions base) "POST"
              (supabase_headers key ++ [("Prefer", "return=representation")])%list
              (VObj fs) in
  let res := supabase stringify base rq st in
  (same_tables st (snd res) /\
   match fst res with NetReply r => ok r = false | NetError _ => True end)
  \/
  (exists row, started st (snd res) row /\
     match fst res with
     | NetReply r => json r = None \/ json r = Some (VArr [execution_json row])
     | NetError _ => True
     end).
Proof.
  intros Hst rq res. subst res. unfold supabase.
  destruct (negb (String.eqb (tpl base) (store_url st))); simpl.
  { left; split; [apply same_tables_refl | exact I]. }
  assert (Hproc :
    let p := store_process stringify rq (set_faults (tl (faults st)) st) in
    (same_tables st (snd p) /\ ok (fst p) = false) \/
    (exists row, started st (snd p) row /\
                 json (fst p) = Some (VArr [execution_json row]))).
  { unfold store_process. subst rq. unfold header; simpl.
    destruct (negb (String.eqb (tpl key) (store_key st))); simpl.
    - left; split; [apply same_tables_set_faults | reflexivity].
    - right. eexists; split; [|reflexivity].
      unfold started, new_execution, column; simpl. rewrite Hst.
      repeat split. }
  destruct (hd Up (faults st)); simpl.
  - destruct (store_process _ _ _) as [r st'] eqn:E; simpl in *.
    destruct Hproc as [[H1 H2] | [row [H1 H2]]]; [left | right]; eauto.
  - left; split; [apply same_tables_set_faults | exact I].
  - left; split; [apply same_tables_set_faults | reflexivity].
  - destruct (store_process _ _ _) as [r st'] eqn:E; simpl in *.
    destruct Hproc as [[H1 H2] | [row [H1 H2]]]; [left | right].
    + split; [assumption|]. unfold ok in *; simpl. exact H2.
    + exists row; split; [assumption | now left].
  - destruct (store_process _ _ _) as [r st'] eqn:E; simpl in *.
    destruct Hproc as [[H1 H2] | [row [H1 H2]]]; [left | right]; eauto.
Qed.

Lemma truthy_id n : truthy (VStr (id_of n)) = true.
Proof. reflexivity. Qed.

Lemma started_truthy st st' row : started st st' row -> truthy (VStr (e_id row)) = true.
Proof. intros [H _]; rewrite H; apply truthy_id. Qed.

Lemma started_key st st' row :
  started st st' row -> row_key (VStr (e_id row)) = Some (e_id row).
Proof. intros [H _]; rewrite H; apply row_key_id. Qed.

Ltac start_done :=
  do 2 eexists; split; [reflexivity|]; split; [now split|].

Ltac start_run supabaseKey :=
  unfold try_catch, bind, Date_toISOString, Date_now, bind, ret, fetch; simpl;
  match goal with |- context [supabase ?s ?b (mkReq _ _ _ (VObj ?fs)) ?st] =>
    generalize (supabase_insert s b supabaseKey fs st eq_refl) end;
  simpl;
  destruct (supabase _ _ _ _) as [[e | r] st']; simpl; intros H;
  [ start_done;
    destruct H as [[H _] | [row [H _]]];
    [left; now split | right; exists row; split; [exact H | now left]]
  | destruct H as [[H Hok] | [row [H [Hj | Hj]]]];
    [ rewrite Hok; simpl; start_done; left; now split
    | destruct (ok r); simpl; unfold response_json, lift; rewrite ?Hj; simpl;
      start_done; right; exists row; (split; [exact H | now left])
    | destruct (ok r); simpl; unfold response_json, lift; rewrite ?Hj; simpl;
      unfold or_else; rewrite ?(started_truthy _ _ _ H);
      start_done; right; exists row; (split; [exact H | auto]) ] ].

Lemma logExecutionStart_outcome supabaseUrl supabaseKey conversationId agentId input w :
  exists v w',
    Supabase.logExecutionStart supabaseUrl supabaseKey conversationId agentId input w
      = (Ok v, w') /\ start_outcome w w' v.
Proof. unfold Supabase.logExecutionStart; start_run supabaseKey. Qed.

Lemma nova_logExecutionStart_outcome supabaseUrl supabaseKey conversationId agentId input w :
  exists v w',
    Nova.logExecutionStart supabaseUrl supabaseKey conversationId agentId input w
      = (Ok v, w') /\ start_outcome w w' v.
Proof. unfold Nova.logExecutionStart; start_run supabaseKey. Qed.

(** An update by id: either nothing is written, or the rows of that id are
    patched. *)
Lemma supabase_patch stringify base key pasted fs st :
  let rq := mkReq (SupabaseExecutionById base pasted) "PATCH" (supabase_headers key)
              (VObj fs) in
  let res := supabase stringify base rq st in
  same_tables st (snd res) \/ updated (read_last pasted) fs st (snd res).
Proof.
  intros rq res. subst res. unfold supabase.
  destruct (negb (String.eqb (tpl base) (store_url st))); simpl.
  { left; apply same_tables_refl. }
  assert (Hproc :
    let p := store_process stringify rq (set_faults (tl (faults st)) st) in
    same_tables st (snd p) \/ updated (read_last pasted) fs st (snd p)).
  { unfold store_process. subst rq. unfold header; simpl.
    destruct (negb (String.eqb (tpl key) (store_key st))); simpl.
    - left; apply same_tables_set_faults.
    - right; repeat split. }
  destruct (hd Up (faults st)); simpl;
    try (left; apply same_tables_set_faults);
    destruct (store_process _ _ _) as [r st'] eqn:E; simpl in *; exact Hproc.
Qed.

Ltac update_run supabaseKey :=
  match goal with |- context [negb (truthy ?id)] =>
    destruct (truthy id) eqn:Ht; simpl;
    [ unfold try_catch, bind, lift, ret;
      destruct (String_of id) as [pasted | e0] eqn:Hs; simpl;
      [ unfold fetch; simpl;
        match goal with
        | |- context [supabase ?s ?b (mkReq (SupabaseExecutionById _ ?i) _ _ (VObj ?fs)) ?st] =>
            generalize (supabase_patch s b supabaseKey i fs st)
        end;
        simpl;
        destruct (supabase _ _ _ _) as [[e | r] st']; simpl; intros H;
        [| destruct (ok r); simpl ];
        (eexists; split; [reflexivity|]; split; [now split|];
         destruct H as [H | H];
         [ now left
         | right; split; [exact Ht|]; exists (read_last pasted);
           split; [unfold row_key; now rewrite Hs | exact H] ])
      | eexists; split; [reflexivity|]; split; [now split | left; apply same_tables_refl] ]
    | eexists; split; [reflexivity|]; split; [now split | left; apply same_tables_refl] ]
  end.

Lemma logExecutionComplete_outcome supabaseUrl supabaseKey executionId output durationMs w :
  exists w',
    Supabase.logExecutionComplete supabaseUrl supabaseKey executionId output durationMs w
      = (Ok tt, w') /\
    update_outcome executionId (complete_doc output durationMs) w w'.
Proof. unfold Supabase.logExecutionComplete; update_run supabaseKey. Qed.

Lemma logExecutionError_outcome supabaseUrl supabaseKey executionId errorMessage durationMs w :
  exists w',
    Supabase.logExecutionError supabaseUrl supabaseKey executionId errorMessage durationMs w
      = (Ok tt, w') /\
    update_outcome executionId (error_doc errorMessage durationMs) w w'.
Proof. unfold Supabase.logExecutionError; update_run supabaseKey. Qed.

(** *** When the store answers *)

Lemma supabase_insert_up stringify base key fs st :
  lookup "status" fs = VStr "running" ->
  answers base key st ->
  let rq := mkReq (SupabaseExecutions base) "POST"
              (supabase_headers key ++ [("Prefer", "return=representation")])%list
              (VObj fs) in
  exists row st',
    supabase stringify base rq st
      = (NetReply (mkResp 201 (stringify (VArr [execution_json row]))
                     (Some (VArr [execution_json row]))), st') /\
    started st st' row /\ faults st' = tl (faults st).
Proof.
  intros Hst [[Hu Hk] Hup] rq. unfold supabase.
  rewrite Hu, String.eqb_refl, Hup. simpl.
  unfold store_process. subst rq. unfold header; simpl.
  rewrite Hk, String.eqb_refl. simpl.
  do 2 eexists. split; [reflexivity|].
  unfold started, new_execution, column; simpl. rewrite Hst. repeat split.
Qed.

Lemma supabase_patch_up stringify base key pasted fs st :
  answers base key st ->
  let rq := mkReq (SupabaseExecutionById base pasted) "PATCH" (supabase_headers key)
              (VObj fs) in
  updated (read_last pasted) fs st (snd (supabase stringify base rq st)).
Proof.
  intros [[Hu Hk] Hup] rq. unfold supabase.
  rewrite Hu, String.eqb_refl, Hup. simpl.
  unfold store_process. subst rq. unfold header; simpl.
  rewrite Hk, String.eqb_refl. simpl. repeat split.
Qed.

Ltac start_up supabaseKey Hans :=
  intros Hans;
  unfold try_catch, bind, Date_toISOString, Date_now, bind, ret, fetch; simpl;
  match goal with |- context [supabase ?s ?b (mkReq _ _ _ (VObj ?fs)) ?st] =>
    destruct (supabase_insert_up s b supabaseKey fs st eq_refl Hans)
      as (row & st' & Hrun & Hstart & Hf);
    simpl in Hrun; rewrite Hrun; simpl;
    unfold or_else; rewrite (started_truthy _ _ _ Hstart);
    exists row; eexists; split; [reflexivity | now split]
  end.

Lemma logExecutionStart_up supabaseUrl supabaseKey conversationId agentId input w :
  answers supabaseUrl supabaseKey (store w) ->
  exists row w',
    Supabase.logExecutionStart supabaseUrl supabaseKey conversationId agentId input w
      = (Ok (VStr (e_id row)), w') /\
    started (store w) (store w') row /\ faults (store w') = tl (faults (store w)).
Proof. unfold Supabase.logExecutionStart; start_up supabaseKey Hans. Qed.

Lemma nova_logExecutionStart_up supabaseUrl supabaseKey conversationId agentId input w :
  answers supabaseUrl supabaseKey (store w) ->
  exists row w',
    Nova.logExecutionStart supabaseUrl supabaseKey conversationId agentId input w
      = (Ok (VStr (e_id row)), w') /\
    started (store w) (store w') row /\ faults (store w') = tl (faults (store w)).
Proof. unfold Nova.logExecutionStart; start_up supabaseKey Hans. Qed.

Ltac update_up supabaseKey :=
  intros Hans Ht id Hk;
  unfold row_key in Hk;
  match goal with |- context [negb (truthy ?v)] =>
    rewrite Ht; simpl;
    destruct (String_of v) as [pasted | e0] eqn:Hs; [| discriminate];
    injection Hk as <-;
    unfold try_catch, bind, lift; simpl;
    unfold ret, fetch; simpl;
    match goal with
    | |- context [supabase ?s ?b (mkReq (SupabaseExecutionById _ ?i) _ _ (VObj ?fs)) ?st] =>
        generalize (supabase_patch_up s b supabaseKey i fs st Hans)
    end;
    simpl;
    destruct (supabase _ _ _ _) as [[e | r] st']; simpl; intros H;
    [| destruct (ok r); simpl ]; exact H
  end.

Lemma logExecutionComplete_up supabaseUrl supabaseKey executionId output durationMs w :
  answers supabaseUrl supabaseKey (store w) -> truthy executionId = true ->
  forall id, row_key executionId = Some id ->
  updated id (complete_doc output durationMs) (store w)
    (store (snd (Supabase.logExecutionComplete supabaseUrl supabaseKey executionId
                   output durationMs w))).
Proof. unfold Supabase.logExecutionComplete; update_up supabaseKey. Qed.

Lemma logExecutionError_up supabaseUrl supabaseKey executionId errorMessage durationMs w :
  answers supabaseUrl supabaseKey (store w) -> truthy executionId = true ->
  forall id, row_key executionId = Some id ->
  updated id (error_doc errorMessage durationMs) (store w)
    (store (snd (Supabase.logExecutionError supabaseUrl supabaseKey executionId
                   errorMessage durationMs w))).
Proof. unfold Supabase.logExecutionError; update_up supabaseKey. Qed.

(* ================================================================ *)
(** ** Nova's POST path *)
(* ================================================================ *)

Lemma clock_forward_refl w : clock_forward w w.
Proof. unfold clock_forward; lia. Qed.

Lemma clock_forward_trans w1 w2 w3 :
  clock_forward w1 w2 -> clock_forward w2 w3 -> clock_forward w1 w3.
Proof. unfold clock_forward; lia. Qed.

Lemma Date_now_forward : keeps clock_forward Date_now.
Proof. intros w; unfold clock_forward; simpl; lia. Qed.

Lemma Date_toISOString_forward : keeps clock_forward Date_toISOString.
Proof. intros w; unfold clock_forward; simpl; lia. Qed.

Lemma fetch_forward rq : keeps clock_forward (fetch rq).
Proof.
  intros w; unfold fetch, clock_forward.
  destruct (supabase_base (endpoint rq)).
  - destruct (supabase _ _ _ _) as [[e | r] st']; simpl; lia.
  - destruct (collab w rq); simpl; lia.
Qed.

Ltac forward_prim :=
  first [ apply Date_now_forward | apply Date_toISOString_forward | apply fetch_forward ].

Ltac forward := keeps_walk clock_forward_refl clock_forward_trans forward_prim.

Lemma nova_logExecutionStart_forward supabaseUrl supabaseKey conversationId agentId input :
  keeps clock_forward
    (Nova.logExecutionStart supabaseUrl supabaseKey conversationId agentId input).
Proof. unfold Nova.logExecutionStart; forward. Qed.

Lemma domain_logic_forward env topic platform style :
  keeps clock_forward (Nova.domain_logic env topic platform style).
Proof. unfold Nova.domain_logic; forward. Qed.

(** The first half of the try block. *)
Lemma accept_run request env w :
  match parse_input request with
  | Throw e => Nova.accept request env w = (Throw e, w)
  | Ok (topic, platform, style) =>
      exists executionId w1,
        Nova.accept request env w = (Ok (topic, platform, style, executionId), w1) /\
        start_outcome w w1 executionId /\ clock_forward w w1 /\
        start_answered (SUPABASE_URL env) (SUPABASE_KEY env) w w1 executionId
  end.
Proof.
  unfold parse_input, Nova.accept, request_json.
  destruct (req_body request) as [parsed|]; [|reflexivity].
  rewrite bind_lift_ok.
  destruct (destructure parsed "topic") as [topic|e]; [|reflexivity].
  rewrite bind_lift_ok.
  destruct (destructure parsed "platform") as [platform|e]; [|reflexivity].
  rewrite bind_lift_ok.
  destruct (destructure parsed "style") as [style|e]; [|reflexivity].
  rewrite bind_lift_ok. simpl.
  destruct (nova_logExecutionStart_outcome (SUPABASE_URL env) (SUPABASE_KEY env)
              VNull (VStr "nova")
              (VObj [("topic", topic); ("platform", platform);
                     ("style", or_else style VNull)]) w)
    as (id & w1 & Hrun & Hout).
  pose proof (nova_logExecutionStart_forward (SUPABASE_URL env) (SUPABASE_KEY env)
                VNull (VStr "nova")
                (VObj [("topic", topic); ("platform", platform);
                       ("style", or_else style VNull)]) w) as Hfw.
  rewrite Hrun in Hfw; simpl in Hfw.
  exists id, w1. unfold bind. rewrite Hrun. simpl.
  split; [reflexivity|]. split; [exact Hout|]. split; [exact Hfw|].
  intros Hans.
  destruct (nova_logExecutionStart_up (SUPABASE_URL env) (SUPABASE_KEY env)
              VNull (VStr "nova")
              (VObj [("topic", topic); ("platform", platform);
                     ("style", or_else style VNull)]) w Hans)
    as (row & w'' & Hrun' & Hs & Hf).
  rewrite Hrun in Hrun'. injection Hrun' as -> ->. exists row; auto.
Qed.

Lemma update_outcome_between executionId fs w w0 w1 w' :
  silent w w0 -> update_outcome executionId fs w0 w1 -> silent w1 w' ->
  update_outcome executionId fs w w'.
Proof.
  intros [[Hs [Hc Hb]] _] [[Hc1 Hb1] Hu] [[Hs2 [Hc2 Hb2]] _].
  split; [split; congruence|].
  rewrite Hs2, <- Hs. exact Hu.
Qed.

Lemma update_answered_between supabaseUrl supabaseKey executionId fs w w0 w1 w' :
  silent w w0 -> update_answered supabaseUrl supabaseKey executionId fs w0 w1 ->
  silent w1 w' -> update_answered supabaseUrl supabaseKey executionId fs w w'.
Proof.
  intros [[Hs _] _] Hu [[Hs2 _] _] Hans Ht.
  rewrite Hs2, <- Hs. apply Hu; [now rewrite Hs | exact Ht].
Qed.

(** The catch block. *)
Lemma on_error_run env startTime executionId e w :
  (startTime <= now w)%Z ->
  exists d timestamp w',
    Nova.on_error env startTime executionId e w
      = (Ok (nova_failure e executionId timestamp), w') /\
    (0 <= d)%Z /\
    update_outcome executionId (error_doc (VStr (message e)) (VNum d)) w w' /\
    update_answered (SUPABASE_URL env) (SUPABASE_KEY env) executionId
      (error_doc (VStr (message e)) (VNum d)) w w'.
Proof.
  intros Hle. unfold Nova.on_error, Nova.logExecutionError.
  erewrite run_bind; [| unfold Date_now; reflexivity].
  match goal with
  | |- context [bind (Supabase.logExecutionError ?a ?b ?c ?m ?x) ?k ?W] =>
      destruct (logExecutionError_outcome a b c m x W) as (w1 & Hrun & Hout);
      pose proof (logExecutionError_up a b c m x W) as Hup
  end.
  rewrite Hrun in Hup. simpl in Hup.
  erewrite run_bind; [| exact Hrun].
  erewrite run_bind; [| unfold Date_toISOString, Date_now, bind, ret; reflexivity].
  unfold ret. do 3 eexists. split; [reflexivity|]. split; [|split].
  2: { eapply update_outcome_between; [| exact Hout |]; repeat split. }
  2: { eapply update_answered_between; [| exact Hup |]; repeat split. }
  lia.
Qed.

(** The second half of the try block, once the domain logic has an output. *)
Lemma on_success_run env startTime executionId output w :
  (startTime <= now w)%Z ->
  exists d timestamp w',
    (t <- Date_now ;;
     Nova.logExecutionComplete (SUPABASE_URL env) (SUPABASE_KEY env) executionId
       output (VNum (t - startTime)) ;;;
     timestamp <- Date_toISOString ;;
     ret (nova_success output executionId timestamp)) w
      = (Ok (nova_success output executionId timestamp), w') /\
    (0 <= d)%Z /\
    update_outcome executionId (complete_doc output (VNum d)) w w' /\
    update_answered (SUPABASE_URL env) (SUPABASE_KEY env) executionId
      (complete_doc output (VNum d)) w w'.
Proof.
  intros Hle. unfold Nova.logExecutionComplete.
  erewrite run_bind; [| unfold Date_now; reflexivity].
  match goal with
  | |- context [bind (Supabase.logExecutionComplete ?a ?b ?c ?m ?x) ?k ?W] =>
      destruct (logExecutionComplete_outcome a b c m x W) as (w1 & Hrun & Hout);
      pose proof (logExecutionComplete_up a b c m x W) as Hup
  end.
  rewrite Hrun in Hup. simpl in Hup.
  erewrite run_bind; [| exact Hrun].
  erewrite run_bind; [| unfold Date_toISOString, Date_now, bind, ret; reflexivity].
  unfold ret. do 3 eexists. split; [reflexivity|]. split; [|split].
  2: { eapply update_outcome_between; [| exact Hout |]; repeat split. }
  2: { eapply update_answered_between; [| exact Hup |]; repeat split. }
  lia.
Qed.

Lemma fetch_post request env :
  req_method request = "POST" ->
  Nova.fetch request env =
    (startTime <- Date_now ;;
     started <- Nova.attempt (Nova.accept request env) ;;
     match started with
     | Throw error => Nova.on_error env startTime VNull error
     | Ok (topic, platform, style, executionId) =>
         try_catch
           (output <- Nova.domain_logic env topic platform style ;;
            t <- Date_now ;;
            Nova.logExecutionComplete (SUPABASE_URL env) (SUPABASE_KEY env) executionId
              output (VNum (t - startTime)) ;;;
            timestamp <- Date_toISOString ;;
            ret (nova_success output executionId timestamp))
           (Nova.on_error env startTime executionId)
     end).
Proof. intros H; unfold Nova.fetch; rewrite H; reflexivity. Qed.

Lemma same_env_of_collaborators w w' : same_collaborators w w' -> same_env w' w.
Proof. intros [H1 H2]; now split. Qed.

Lemma start_outcome_after_clock w w0 w1 v :
  silent w w0 -> start_outcome w0 w1 v -> start_outcome w w1 v.
Proof.
  intros [[Hs [Hc Hb]] _] [[Hc1 Hb1] H].
  split; [split; congruence|]. rewrite <- Hs. exact H.
Qed.

Lemma start_answered_after_clock supabaseUrl supabaseKey w w0 w1 v :
  silent w w0 -> start_answered supabaseUrl supabaseKey w0 w1 v ->
  start_answered supabaseUrl supabaseKey w w1 v.
Proof. intros [[Hs _] _] H. unfold start_answered in *. now rewrite <- Hs. Qed.

(** Every POST to Nova resolves, in one of the three ways of [nova_run]. *)
Lemma nova_post request env w :
  req_method request = "POST" ->
  exists resp w',
    Nova.fetch request env w = (Ok resp, w') /\ nova_run request env w resp w'.
Proof.
  intros Hm. rewrite (fetch_post request env Hm).
  erewrite run_bind; [| unfold Date_now; reflexivity].
  set (w0 := mkWorld (store w) (collab w) (builtins w)
               (now w + Z.of_N (hd 0%N (ticks w))) (tl (ticks w)) (http_log w)).
  assert (Hsil : silent w w0) by (repeat split).
  pose proof (accept_run request env w0) as Ha.
  destruct (parse_input request) as [[[topic platform] style] | e] eqn:Hp.
  - destruct Ha as (id & w1 & Hrun & Hstart & Hfw & Hsa).
    erewrite run_bind; [| unfold Nova.attempt; rewrite Hrun; reflexivity].
    pose proof (domain_logic_untouched env topic platform style w1) as Hun.
    pose proof (domain_logic_forward env topic platform style w1) as Hfw2.
    assert (Henv : same_env w1 w).
    { apply same_env_of_collaborators.
      eapply same_collaborators_trans; [apply Hsil | apply Hstart]. }
    destruct (domain_logic_lockstep env topic platform style w1 w Henv) as [Hres _].
    destruct (Nova.domain_logic env topic platform style w1) as [[output | e] w2] eqn:Hd;
      simpl in Hun, Hfw2, Hres.
    + destruct (on_success_run env (now w0) id output w2) as (d & ts & w' & Hrun2 & Hd0 & Hout & Hua).
      { unfold clock_forward in *; lia. }
      exists (nova_success output id ts), w'. split.
      * apply run_try_ok. erewrite run_bind; [| exact Hd]. exact Hrun2.
      * eapply run_completed;
          eauto using start_outcome_after_clock, start_answered_after_clock.
    + destruct (on_error_run env (now w0) id e w2) as (d & ts & w' & Hrun2 & Hd0 & Hout & Hua).
      { unfold clock_forward in *; lia. }
      exists (nova_failure e id ts), w'. split.
      * erewrite run_try_throw; [exact Hrun2 |].
        erewrite run_bind_throw; [reflexivity | exact Hd].
      * eapply run_failed;
          eauto using start_outcome_after_clock, start_answered_after_clock.
  - erewrite run_bind; [| unfold Nova.attempt; rewrite Ha; reflexivity].
    destruct (on_error_run env (now w0) VNull e w0) as (d & ts & w' & Hrun2 & Hd0 & Hout & Hua).
    { unfold w0; simpl; lia. }
    exists (nova_failure e VNull ts), w'. split; [exact Hrun2|].
    destruct Hout as [Hc [Ht | [Ht _]]]; [| discriminate].
    apply run_rejected; [exact Hp | |].
    + destruct Hsil as [[Hs _] _]. rewrite <- Hs. exact Ht.
    + eapply same_collaborators_trans; [apply Hsil | exact Hc].
Qed.

(* ================================================================ *)
(** ** Ada's effects *)
(* ================================================================ *)

Lemma silent_sends w w' : silent w w' -> sends 0 w w'.
Proof.
  intros [Hu Hl]; split; [exact Hu|]. exists []; split; [|split].
  - unfold sent_between. now rewrite app_nil_r.
  - simpl; lia.
  - constructor.
Qed.

Lemma sends_compose a b w1 w2 w3 :
  sends a w1 w2 -> sends b w2 w3 -> sends (a + b) w1 w3.
Proof.
  intros [Hu1 (s1 & Hs1 & Hl1 & Hf1)] [Hu2 (s2 & Hs2 & Hl2 & Hf2)].
  split; [eapply store_untouched_trans; eassumption|].
  exists (s1 ++ s2)%list; split; [|split].
  - unfold sent_between in *. now rewrite Hs2, Hs1, app_assoc.
  - rewrite length_app; lia.
  - apply Forall_app; now split.
Qed.

Lemma sends_bind_after {A B} n (m : M A) (k : A -> M B) :
  keeps silent m -> (forall a, keeps (sends n) (k a)) -> keeps (sends n) (bind m k).
Proof.
  intros Hm Hk w; unfold bind. specialize (Hm w).
  destruct (m w) as [[a | e] w']; simpl in *.
  - change n with (0 + n). eapply sends_compose; [apply silent_sends, Hm | apply Hk].
  - destruct (silent_sends _ _ Hm) as [Hu (s & Hs & Hl & Hf)].
    split; [exact Hu|]. exists s; split; [|split]; auto. lia.
Qed.

Lemma sends_bind_before {A B} n (m : M A) (k : A -> M B) :
  keeps (sends n) m -> (forall a, keeps silent (k a)) -> keeps (sends n) (bind m k).
Proof.
  intros Hm Hk w; unfold bind. specialize (Hm w).
  destruct (m w) as [[a | e] w']; simpl in *; [|exact Hm].
  replace n with (n + 0) by lia.
  eapply sends_compose; [exact Hm | apply silent_sends, Hk].
Qed.

Lemma sends_try_catch {A} n (m : M A) h :
  keeps (sends n) m -> (forall e, keeps silent (h e)) -> keeps (sends n) (try_catch m h).
Proof.
  intros Hm Hh w; unfold try_catch. specialize (Hm w).
  destruct (m w) as [[a | e] w']; simpl in *; [exact Hm|].
  replace n with (n + 0) by lia.
  eapply sends_compose; [exact Hm | apply silent_sends, Hh].
Qed.

Lemma fetch_email_sends rq : endpoint rq = ResendEmails -> keeps (sends 1) (fetch rq).
Proof.
  intros H w. split.
  - apply fetch_collab_untouched. now rewrite H.
  - exists [rq]. unfold fetch; rewrite H; simpl.
    destruct (collab w rq); simpl; (split; [reflexivity | split; [lia | now repeat constructor]]).
Qed.

Ltac silent_prim := first [ apply Date_now_silent | apply Date_toISOString_silent ].
Ltac quiet := keeps_walk silent_refl silent_trans silent_prim.

Lemma buildRequestEmail_silent formData analysis :
  keeps silent (Ada.buildRequestEmail formData analysis).
Proof. unfold Ada.buildRequestEmail, Ada.submission_date; quiet. Qed.

Lemma buildHelperEmail_silent formData analysis :
  keeps silent (Ada.buildHelperEmail formData analysis).
Proof. unfold Ada.buildHelperEmail, Ada.submission_date; quiet. Qed.

Lemma sendEmail_sends formData analysis formType apiKey :
  keeps (sends 1) (Ada.sendEmail formData analysis formType apiKey).
Proof.
  unfold Ada.sendEmail. apply sends_try_catch; [| intros e; quiet].
  apply sends_bind_after.
  { destruct (strict_eq formType (VStr "request"));
      [apply buildRequestEmail_silent | apply buildHelperEmail_silent]. }
  intros emailConfig.
  apply sends_bind_after; [quiet|]; intros subject.
  apply sends_bind_after; [quiet|]; intros html.
  apply sends_bind_before; [apply fetch_email_sends; reflexivity|].
  intros response; quiet.
Qed.

Lemma sendEmail_never_throws formData analysis formType apiKey :
  never_throws (Ada.sendEmail formData analysis formType apiKey).
Proof. apply never_throws_try; intros e; apply never_throws_ret. Qed.

Lemma ada_fetch_sends request env : keeps (sends 1) (Ada.fetch request env).
Proof.
  unfold Ada.fetch.
  destruct (String.eqb (req_method request) "GET").
  { intros w. apply (sends_compose 0 1 w w w); apply silent_sends || idtac.
    - apply silent_refl.
    - split; [apply store_untouched_refl|]. exists []; split; [|split].
      + unfold sent_between. now rewrite app_nil_r.
      + simpl; lia.
      + constructor. }
  destruct (negb (String.eqb (req_method request) "POST")).
  { intros w. split; [apply store_untouched_refl|]. exists []; split; [|split].
    - unfold sent_between. now rewrite app_nil_r.
    - simpl; lia.
    - constructor. }
  apply sends_try_catch; [| intros e; quiet].
  apply sends_bind_after; [quiet|]; intros webhookData.
  apply sends_bind_after; [quiet|]; intros formData.
  apply sends_bind_after; [quiet|]; intros formType.
  apply sends_bind_before; [apply sendEmail_sends|].
  intros emailResult; quiet.
Qed.

Lemma ada_fetch_never_throws request env : never_throws (Ada.fetch request env).
Proof.
  unfold Ada.fetch.
  destruct (String.eqb (req_method request) "GET"); [apply never_throws_ret|].
  destruct (negb (String.eqb (req_method request) "POST")); [apply never_throws_ret|].
  apply never_throws_try; intros e; apply never_throws_ret.
Qed.

(** *** Ada does not look at the store *)

Lemma fetch_collab_blind rq :
  supabase_base (endpoint rq) = None -> lockstep same_but_store (fetch rq).
Proof.
  intros H w1 w2 (Hc & Hb & Hn & Ht & Hl); unfold fetch; rewrite H, Hc, Hl.
  destruct (collab w2 rq); simpl; repeat split; assumption.
Qed.

Lemma Date_now_blind : lockstep same_but_store Date_now.
Proof.
  intros w1 w2 (Hc & Hb & Hn & Ht & Hl); unfold Date_now; simpl.
  rewrite Hn, Ht. repeat split; assumption.
Qed.

Lemma Date_toISOString_blind : lockstep same_but_store Date_toISOString.
Proof.
  intros w1 w2 (Hc & Hb & Hn & Ht & Hl); unfold Date_toISOString, Date_now, bind, ret; simpl.
  rewrite Hn, Ht, Hb. repeat split; assumption.
Qed.

Lemma stringify_blind v : lockstep same_but_store (stringify v).
Proof.
  intros w1 w2 (Hc & Hb & Hn & Ht & Hl); unfold stringify; simpl.
  rewrite Hb. repeat split; assumption.
Qed.

Lemma date_format_blind f v : lockstep same_but_store (date_format f v).
Proof.
  intros w1 w2 (Hc & Hb & Hn & Ht & Hl); unfold date_format; simpl.
  rewrite Hb. repeat split; assumption.
Qed.

Ltac blind_walk :=
  repeat first
    [ apply lockstep_ret
    | apply lockstep_throw
    | apply lockstep_lift
    | apply lockstep_response_json
    | apply lockstep_response_text
    | apply stringify_blind
    | apply date_format_blind
    | apply Date_now_blind
    | apply Date_toISOString_blind
    | apply fetch_collab_blind; reflexivity
    | apply lockstep_bind; [| intros ?]
    | apply lockstep_try_catch; [| intros ?]
    | match goal with
      | |- lockstep _ (if ?c then _ else _) => destruct c
      | |- lockstep _ (match ?x with _ => _ end) => destruct x
      | |- lockstep _ (let '(_, _) := ?x in _) => destruct x
      end ].

Lemma buildRequestEmail_blind formData analysis :
  lockstep same_but_store (Ada.buildRequestEmail formData analysis).
Proof. unfold Ada.buildRequestEmail, Ada.submission_date; blind_walk. Qed.

Lemma buildHelperEmail_blind formData analysis :
  lockstep same_but_store (Ada.buildHelperEmail formData analysis).
Proof. unfold Ada.buildHelperEmail, Ada.submission_date; blind_walk. Qed.

Lemma sendEmail_blind formData analysis formType apiKey :
  lockstep same_but_store (Ada.sendEmail formData analysis formType apiKey).
Proof.
  unfold Ada.sendEmail. apply lockstep_try_catch; [| intros e; blind_walk].
  apply lockstep_bind.
  { destruct (strict_eq formType (VStr "request"));
      [apply buildRequestEmail_blind | apply buildHelperEmail_blind]. }
  intros emailConfig. blind_walk.
Qed.

Lemma ada_fetch_blind request env : lockstep same_but_store (Ada.fetch request env).
Proof.
  unfold Ada.fetch.
  destruct (String.eqb (req_method request) "GET"); [apply lockstep_ret|].
  destruct (negb (String.eqb (req_method request) "POST")); [apply lockstep_ret|].
  apply lockstep_try_catch; [| intros e; blind_walk].
  apply lockstep_bind; [blind_walk|]; intros webhookData.
  apply lockstep_bind; [blind_walk|]; intros formData.
  apply lockstep_bind; [blind_walk|]; intros formType.
  apply lockstep_bind; [apply sendEmail_blind|]; intros emailResult.
  blind_walk.
Qed.

(* ================================================================ *)
(** ** The lifecycle invariant *)
(* ================================================================ *)

Lemma id_of_inj n m : id_of n = id_of m -> n = m.
Proof.
  unfold id_of; intros H. injection H as H.
  assert (Some (Nat.to_uint n) = Some (Nat.to_uint m)) as E.
  { rewrite <- !NilEmpty.usu. now rewrite H. }
  injection E as E. rewrite <- (Unsigned.of_to n), <- (Unsigned.of_to m). now rewrite E.
Qed.

Lemma patch_rows_app id fs a b :
  patch_rows id fs (a ++ b) = (patch_rows id fs a ++ patch_rows id fs b)%list.
Proof. induction a as [|r a IH]; simpl; [reflexivity | now rewrite IH]. Qed.

Lemma patch_log_app id fs a b :
  patch_log id fs (a ++ b) = (patch_log id fs a ++ patch_log id fs b)%list.
Proof.
  induction a as [|r a IH]; simpl; [reflexivity|].
  destruct (String.eqb (e_id r) id); simpl; now rewrite IH.
Qed.

Lemma patch_fresh id fs rows :
  ~ In id (map e_id rows) ->
  patch_rows id fs rows = rows /\ patch_log id fs rows = [].
Proof.
  induction rows as [|r rows IH]; simpl; intros H; [now split|].
  destruct (String.eqb (e_id r) id) eqn:E.
  - apply String.eqb_eq in E. exfalso; apply H; now left.
  - destruct IH as [H1 H2]; [tauto|]. now rewrite H1, H2.
Qed.

Lemma history_app id a b :
  history id (a ++ b) = (history id a ++ history id b)%list.
Proof. apply filter_app. Qed.

Lemma history_none id ts :
  (forall t, In t ts -> tr_id t <> id) -> history id ts = [].
Proof.
  induction ts as [|t ts IH]; simpl; intros H; [reflexivity|].
  destruct (String.eqb (tr_id t) id) eqn:E.
  - apply String.eqb_eq in E. exfalso; eapply H; [now left | exact E].
  - apply IH; intros t' Ht'; apply H; now right.
Qed.

Lemma lifecycle_ids id h status t : lifecycle id h status -> In t h -> tr_id t = id.
Proof.
  intros [[-> _] | (s & _ & -> & _)] Hin; simpl in Hin;
    intuition (subst; reflexivity).
Qed.

Lemma lifecycle_history id h status :
  lifecycle id h status -> history id h = h.
Proof.
  intros [[-> _] | (s & _ & -> & _)]; unfold history; simpl;
    now rewrite !String.eqb_refl.
Qed.

Lemma inv_fresh st :
  lifecycle_inv st -> ~ In (id_of (next_id st)) (map e_id (executions st)).
Proof.
  intros (_ & Hb & _) Hin. apply in_map_iff in Hin as (r & Hr & Hin).
  destruct (Hb r Hin) as (n & Hn & Hlt). rewrite Hn in Hr.
  apply id_of_inj in Hr. lia.
Qed.

Lemma same_tables_inv st st' : same_tables st st' -> lifecycle_inv st -> lifecycle_inv st'.
Proof.
  intros (He & _ & Hn & Ht & _) H. unfold lifecycle_inv. now rewrite He, Hn, Ht.
Qed.

(** The invariant is inductive along [grows], and rows already there stay
    as they are. *)
Lemma grows_inv st st' :
  lifecycle_inv st -> grows st st' ->
  lifecycle_inv st' /\ incl (executions st) (executions st').
Proof.
  intros Hinv [Hs | (row & h & Hid & He & _ & Hn & Ht & _ & _ & Hl)].
  { split; [eapply same_tables_inv; eassumption|].
    destruct Hs as [He _]; rewrite He; apply incl_refl. }
  pose proof (inv_fresh st Hinv) as Hfresh. rewrite <- Hid in Hfresh.
  destruct Hinv as (Ha & Hb & Hc & Hd).
  split; [| rewrite He; apply incl_appl, incl_refl].
  unfold lifecycle_inv. rewrite He, Hn, Ht, map_app. simpl.
  repeat split.
  - apply NoDup_app; [exact Ha | repeat constructor; intros [] | ].
    intros a Hin [<- | []]. contradiction.
  - intros r Hin. apply in_app_or in Hin as [Hin | [<- | []]].
    + destruct (Hb r Hin) as (n & H1 & H2). exists n; split; [exact H1 | lia].
    + exists (next_id st); split; [exact Hid | lia].
  - intros t Hin. apply in_or_app. apply in_app_or in Hin as [Hin | Hin].
    + left; now apply Hc.
    + right; left. symmetry. eapply lifecycle_ids; eassumption.
  - intros r Hin. rewrite history_app.
    apply in_app_or in Hin as [Hin | [<- | []]].
    + rewrite (history_none (e_id r) h), app_nil_r; [now apply Hd|].
      intros t Ht' Heq. rewrite (lifecycle_ids _ _ _ _ Hl Ht') in Heq.
      apply Hfresh. rewrite Heq. now apply in_map.
    + rewrite (history_none (e_id row) (transitions st)); simpl.
      * now rewrite (lifecycle_history _ _ _ Hl).
      * intros t Ht' Heq. apply Hfresh. rewrite <- Heq. now apply Hc.
Qed.

Lemma same_tables_trans st1 st2 st3 :
  same_tables st1 st2 -> same_tables st2 st3 -> same_tables st1 st3.
Proof.
  intros (A1 & A2 & A3 & A4 & A5 & A6) (B1 & B2 & B3 & B4 & B5 & B6).
  repeat split; congruence.
Qed.

Lemma patched_status fs old s : lookup "status" fs = VStr s -> patched "status" fs old = VStr s.
Proof. intros H; unfold patched; now rewrite H. Qed.

(** A start followed by at most one update of the row just started, with
    a terminal status, makes the store grow. *)
Lemma log_pair_grows st st1 st' executionId fs s :
  lifecycle_inv st ->
  ((same_tables st st1 /\ executionId = VNull) \/
   (exists row, started st st1 row /\
                (executionId = VNull \/ executionId = VStr (e_id row)))) ->
  (same_tables st1 st' \/
   (truthy executionId = true /\
    exists id, row_key executionId = Some id /\ updated id fs st1 st')) ->
  lookup "status" fs = VStr s -> terminal s ->
  grows st st'.
Proof.
  intros Hinv Hstart Hupd Hfs Hs.
  assert (Hkeep : forall row, started st st1 row -> same_tables st1 st' -> grows st st').
  { intros row (Hid & Hst & He & Hc & Hn & Ht & Hu & Hk) (E1 & E2 & E3 & E4 & E5 & E6).
    right. exists row, [created (e_id row)]. unfold created.
    repeat (split; [congruence|]). left; now split. }
  destruct Hstart as [[Hsame ->] | (row & Hrow & Hid)].
  - destruct Hupd as [Hupd | [Ht _]]; [| discriminate].
    left; eapply same_tables_trans; eassumption.
  - destruct Hupd as [Hupd | [Htr (id & Hkey & Hupd)]]; [now apply (Hkeep row)|].
    destruct Hid as [-> | ->]; [discriminate|].
    destruct Hrow as (Hid & Hst & He & Hc & Hn & Ht & Hu & Hk).
    rewrite Hid, row_key_id in Hkey. injection Hkey as <-. rewrite <- Hid in Hupd.
    destruct Hupd as (E1 & E2 & E3 & E4 & E5 & E6).
    pose proof (inv_fresh st Hinv) as Hfresh. rewrite <- Hid in Hfresh.
    destruct (patch_fresh (e_id row) fs (executions st) Hfresh) as [P1 P2].
    rewrite He, patch_rows_app, P1 in E1.
    rewrite He, patch_log_app, P2, Ht in E4. simpl in E1, E4.
    rewrite String.eqb_refl in E1, E4.
    rewrite Hst, (patched_status fs _ s Hfs), <- app_assoc in E4. simpl in E4.
    right. exists (patch_execution fs row), [created (e_id row); finished (e_id row) s].
    unfold created, finished. simpl.
    repeat (split; [congruence|]).
    right. exists s. split; [exact Hs|]. split; [reflexivity|]. now apply patched_status.
Qed.

Lemma nova_run_grows request env w resp w' :
  lifecycle_inv (store w) -> nova_run request env w resp w' ->
  grows (store w) (store w').
Proof.
  intros Hinv Hrun. destruct Hrun.
  - now left.
  - destruct H0 as [_ Hstart]. destruct H3 as [Heq _]. destruct H5 as [_ Hupd].
    rewrite Heq in Hupd.
    eapply (log_pair_grows _ _ _ _ _ "success"); eauto; reflexivity || now left.
  - destruct H0 as [_ Hstart]. destruct H3 as [Heq _]. destruct H5 as [_ Hupd].
    rewrite Heq in Hupd.
    eapply (log_pair_grows _ _ _ _ _ "error"); eauto; reflexivity || now right.
Qed.

Lemma grows_refl st : grows st st.
Proof. left; apply same_tables_refl. Qed.

(** Whatever the method, one call to Nova makes the store grow. *)
Lemma nova_grows request env w :
  lifecycle_inv (store w) ->
  grows (store w) (store (snd (Nova.fetch request env w))).
Proof.
  intros Hinv.
  destruct (String.eqb (req_method request) "POST") eqn:Hp.
  - apply String.eqb_eq in Hp.
    destruct (nova_post request env w Hp) as (resp & w' & Hrun & Hnr).
    rewrite Hrun. simpl. eapply nova_run_grows; eassumption.
  - unfold Nova.fetch. rewrite Hp.
    destruct (String.eqb (req_method request) "OPTIONS"); [apply grows_refl|].
    destruct (String.eqb (req_method request) "GET"); apply grows_refl.
Qed.

Lemma ada_grows request env w :
  grows (store w) (store (snd (Ada.fetch request env w))).
Proof.
  destruct (ada_fetch_sends request env w) as [[Hs _] _].
  rewrite Hs. apply grows_refl.
Qed.

Lemma invoke_inv a request env w :
  lifecycle_inv (store w) ->
  lifecycle_inv (store (snd (invoke a request env w))) /\
  incl (executions (store w)) (executions (store (snd (invoke a request env w)))).
Proof.
  intros Hinv. apply grows_inv; [exact Hinv|].
  destruct a; simpl; [now apply nova_grows | apply ada_grows].
Qed.

Lemma serve_inv calls : forall w,
  lifecycle_inv (store w) ->
  lifecycle_inv (store (serve calls w)) /\
  incl (executions (store w)) (executions (store (serve calls w))).
Proof.
  induction calls as [|[[a request] env] calls IH]; intros w Hinv; simpl.
  - split; [exact Hinv | apply incl_refl].
  - destruct (invoke_inv a request env w Hinv) as [H1 H2].
    destruct (IH _ H1) as [H3 H4].
    split; [exact H3 | eapply incl_tran; eassumption].
Qed.

Lemma updated_fresh st st1 st' row fs :
  lifecycle_inv st -> started st st1 row -> updated (e_id row) fs st1 st' ->
  executions st' = (executions st ++ [patch_execution fs row])%list.
Proof.
  intros Hinv (Hid & _ & He & _) (E1 & _).
  pose proof (inv_fresh st Hinv) as Hfresh. rewrite <- Hid in Hfresh.
  destruct (patch_fresh (e_id row) fs (executions st) Hfresh) as [P1 _].
  rewrite He, patch_rows_app, P1 in E1. simpl in E1.
  now rewrite String.eqb_refl in E1.
Qed.

Lemma grows_at_most_one st st' :
  grows st st' ->
  exists new, executions st' = (executions st ++ new)%list /\ List.length new <= 1.
Proof.
  intros [(He & _) | (row & h & _ & He & _)].
  - exists []. rewrite app_nil_r. split; [exact He | simpl; lia].
  - exists [row]. split; [exact He | simpl; lia].
Qed.

Lemma started_answers supabaseUrl supabaseKey st st' row :
  answers supabaseUrl supabaseKey st -> started st st' row ->
  faults st' = tl (faults st) -> hd Up (tl (faults st)) = Up ->
  answers supabaseUrl supabaseKey st'.
Proof.
  intros [[Hu Hk] _] (_ & _ & _ & _ & _ & _ & Eu & Ek) Hf Hup.
  repeat split; [now rewrite Eu | now rewrite Ek | now rewrite Hf].
Qed.

(* ================================================================ *)
(** ** The conversation accessor *)
(* ================================================================ *)



Lemma latest_active_created user cs row :
  latest_active user cs = [] -> active_for user row = true ->
  latest_active user (cs ++ [row]) = [row].
Proof.
  unfold latest_active. rewrite filter_app. simpl.
  destruct (filter (active_for user) cs); [|discriminate].
  intros _ ->. reflexivity.
Qed.


(** The lookup of the active conversation, when the store answers. *)
Lemma supabase_query_up stringify base key user st :
  answers base key st ->
  url_plain user = true ->
  supabase stringify base
    (mkReq (SupabaseActiveConversation base user) "GET"
       [("apikey", tpl key); ("Authorization", "Bearer " ++ tpl key)] VUndef) st
  = (let doc := VArr (map conversation_json (latest_active user (conversations st))) in
     NetReply (mkResp 200 (stringify doc) (Some doc)),
     set_faults (tl (faults st)) st).
Proof.
  intros [[Hu Hk] Hup] Hplain. unfold supabase.
  destruct (url_plain_read user Hplain) as (Hread & _ & Hcut).
  rewrite Hu, String.eqb_refl, Hup. simpl.
  unfold store_process, header; simpl.
  now rewrite Hk, String.eqb_refl, Hread, Hcut.
Qed.

(** The insert of a conversation, when the store answers. *)
Lemma supabase_create_up stringify base key hs fs st :
  answers base key st ->
  header "apikey" (mkReq (SupabaseConversations base) "POST" hs (VObj fs)) = tpl key ->
  supabase stringify base (mkReq (SupabaseConversations base) "POST" hs (VObj fs)) st
  = (let row := mkConversation (id_of (next_id st)) (column "user_id" fs)
                  (column "status" fs) (column "created_at" fs) in
     let doc := VArr [conversation_json row] in
     NetReply (mkResp 201 (stringify doc) (Some doc)),
     set_tables (executions st)
       (conversations st ++ [mkConversation (id_of (next_id st)) (column "user_id" fs)
                               (column "status" fs) (column "created_at" fs)])
       (S (next_id st)) (transitions st) (set_faults (tl (faults st)) st)).
Proof.
  intros [[Hu Hk] Hup] Hh. unfold supabase.
  rewrite Hu, String.eqb_refl, Hup. simpl.
  unfold store_process. rewrite Hh. simpl.
  now rewrite Hk, String.eqb_refl.
Qed.

Lemma getOrCreate_found supabaseUrl supabaseKey user w c :
  answers supabaseUrl supabaseKey (store w) ->
  url_plain user = true ->
  latest_active user (conversations (store w)) = [c] ->
  exists w',
    Supabase.getOrCreateConversation supabaseUrl supabaseKey (VStr user) w
      = (Ok (conversation_json c), w') /\
    store w' = set_faults (tl (faults (store w))) (store w).
Proof.
  intros Hans Hplain Hl.
  unfold Supabase.getOrCreateConversation, try_catch, bind, fetch. simpl.
  rewrite (supabase_query_up _ _ _ _ _ Hans Hplain). simpl. rewrite Hl. simpl.
  eexists; split; reflexivity.
Qed.



(* ================================================================ *)
(** ** Collaborator failures *)
(* ================================================================ *)

Lemma yields_mapM {A B} (Q : B -> Prop) (f : A -> M B) l :
  (forall a, yields Q (f a)) -> yields (Forall Q) (mapM f l).
Proof.
  intros Hf; induction l as [|x l IH]; intros w; simpl; [constructor|].
  unfold bind. specialize (Hf x w).
  destruct (f x w) as [[y | e] w1]; simpl in *; [|exact I].
  specialize (IH w1). destruct (mapM f l w1) as [[ys | e] w2]; simpl in *; [|exact I].
  now constructor.
Qed.

Lemma map_result_Forall {A B} (Q : B -> Prop) (f : A -> Result B) l ys :
  (forall a b, f a = Ok b -> Q b) -> map_result f l = Ok ys -> Forall Q ys.
Proof.
  intros Hf; revert ys; induction l as [|x l IH]; simpl; intros ys H.
  - injection H as <-; constructor.
  - destruct (f x) as [y|] eqn:E; simpl in H; [|discriminate].
    destruct (map_result f l) as [ys'|]; simpl in H; [|discriminate].
    injection H as <-. constructor; [eapply Hf; eassumption | now apply IH].
Qed.

Lemma Forall_filter {A} (Q : A -> Prop) p (l : list A) :
  Forall Q l -> Forall Q (filter p l).
Proof.
  intros H. apply Forall_forall. intros x Hin. apply filter_In in Hin as [Hin _].
  eapply Forall_forall; eassumption.
Qed.

Ltac and_then_step H :=
  match type of H with
  | and_then ?r _ = Ok _ =>
      let E := fresh "E" in
      destruct r eqn:E; simpl in H; [|discriminate]
  end.

Lemma voice_example_ok page ex : Nova.voice_example page = Ok ex -> example_ok ex.
Proof.
  unfold Nova.voice_example. intros H.
  repeat and_then_step H.
  injection H as <-. unfold example_ok.
  match goal with
  | E : (if nullish ?m then _ else _) = Ok _ |- _ =>
      destruct (nullish m);
      [ injection E as <- | repeat and_then_step E; injection E as <- ]
  end; now do 3 eexists.
Qed.

Lemma empty_examples : examples_shape (VArr []).
Proof. exists []; split; [reflexivity | constructor]. Qed.

Lemma empty_docs : docs_shape (VArr []).
Proof. exists []; split; [reflexivity | constructor]. Qed.

Lemma getVoiceExamples_shape notionToken databaseId platform :
  yields examples_shape (Nova.getVoiceExamples notionToken databaseId platform).
Proof.
  unfold Nova.getVoiceExamples.
  apply yields_try_catch; [| intros e; apply yields_ret, empty_examples].
  apply yields_bind; intros response.
  destruct (negb (ok response)).
  - apply yields_bind; intros t. apply yields_ret, empty_examples.
  - apply yields_bind; intros data. apply yields_lift. intros v H.
    repeat and_then_step H. injection H as <-.
    eexists; split; [reflexivity|].
    apply Forall_filter. eapply map_result_Forall; [| eassumption].
    apply voice_example_ok.
Qed.

Lemma page_document_shape notionToken page :
  yields (fun v => v = VNull \/ doc_ok v) (Nova.page_document notionToken page).
Proof.
  unfold Nova.page_document.
  apply yields_try_catch; [| intros e; apply yields_ret; now left].
  apply yields_bind; intros page_id.
  apply yields_bind; intros pageContent.
  apply yields_bind; intros blocks.
  apply yields_lift. intros v H.
  repeat and_then_step H. injection H as <-.
  right. now do 2 eexists.
Qed.

Lemma truthy_docs pages :
  Forall (fun v => v = VNull \/ doc_ok v) pages -> Forall doc_ok (filter truthy pages).
Proof.
  intros H. apply Forall_forall. intros x Hin.
  apply filter_In in Hin as [Hin Ht].
  destruct (proj1 (Forall_forall _ _) H x Hin) as [-> | Hd]; [discriminate | exact Hd].
Qed.

Lemma searchNotionWorkspace_shape notionToken topic platform :
  yields docs_shape (Nova.searchNotionWorkspace notionToken topic platform).
Proof.
  unfold Nova.searchNotionWorkspace.
  apply yields_try_catch; [| intros e; apply yields_ret, empty_docs].
  apply yields_bind; intros response.
  destruct (negb (ok response)).
  - apply yields_bind; intros t. apply yields_ret, empty_docs.
  - apply yields_bind; intros data.
    apply yields_bind; intros results.
    intros w. unfold bind.
    pose proof (yields_mapM _ (Nova.page_document notionToken) (firstn 3 results)
                  (page_document_shape notionToken) w) as Hp.
    destruct (mapM _ _ w) as [[pages | e] w1]; simpl in *; [|exact I].
    eexists; split; [reflexivity | now apply truthy_docs].
Qed.

Lemma getVoiceExamples_resolves notionToken databaseId platform :
  never_throws (Nova.getVoiceExamples notionToken databaseId platform).
Proof. apply never_throws_try; intros e; apply never_throws_ret. Qed.

Lemma searchNotionWorkspace_resolves notionToken topic platform :
  never_throws (Nova.searchNotionWorkspace notionToken topic platform).
Proof. apply never_throws_try; intros e; apply never_throws_ret. Qed.

(** *** Conversions to a string *)

Lemma Value_nested_ind (P : Value -> Prop) :
  P VUndef -> P VNull -> (forall b, P (VBool b)) -> (forall n, P (VNum n)) ->
  (forall s, P (VStr s)) ->
  (forall l, Forall P l -> P (VArr l)) ->
  (forall fs, P (VObj fs)) ->
  forall v, P v.
Proof.
  intros H1 H2 H3 H4 H5 H6 H7. fix IH 1.
  intros [| | b | n | s | l | fs];
    [apply H1 | apply H2 | apply H3 | apply H4 | apply H5 | | apply H7].
  apply H6. induction l as [|x l IHl]; constructor; [apply IH | exact IHl].
Qed.

Lemma map_result_throws {A B} (P : JsError -> Prop) (f : A -> Result B) l e :
  Forall (fun x => forall e, f x = Throw e -> P e) l ->
  map_result f l = Throw e -> P e.
Proof.
  induction 1 as [|x l Hx _ IH]; simpl; [discriminate|].
  destruct (f x) as [y | e1] eqn:E; simpl; [| intros H; injection H as <-; eauto].
  destruct (map_result f l) as [ys | e2]; simpl; [discriminate|].
  intros H; injection H as <-. now apply IH.
Qed.

(** The one way a conversion to a string fails. *)
Lemma String_of_throws v : forall e, String_of v = Throw e -> e = cannot_convert.
Proof.
  induction v as [| | b | n | s | l IH | fs] using Value_nested_ind;
    intros e; cbn [String_of]; try discriminate.
  - destruct b; discriminate.
  - destruct (map_result _ l) as [parts | e1] eqn:E; simpl; [discriminate|].
    intros H; injection H as <-.
    eapply (map_result_throws (fun e => e = cannot_convert)); [| exact E].
    eapply Forall_impl; [| exact IH].
    intros x Hx e. destruct x; try discriminate; apply Hx.
  - destruct (has_own "toString" fs); [| discriminate].
    intros H; now injection H as <-.
Qed.

Lemma js_join_throws sep l e : js_join sep l = Throw e -> e = cannot_convert.
Proof.
  unfold js_join. destruct (map_result join_item l) as [parts | e1] eqn:E; simpl;
    [discriminate|].
  intros H; injection H as <-.
  eapply (map_result_throws (fun e => e = cannot_convert)); [| exact E].
  apply Forall_forall. intros x _ e. unfold join_item.
  destruct (nullish x); [discriminate | apply String_of_throws].
Qed.

Ltac prints_step H :=
  match type of H with
  | and_then ?r _ = Throw _ =>
      let E := fresh "E" in
      destruct r eqn:E; cbn [and_then] in H;
      [| injection H as <-;
         first [ eapply String_of_throws; eassumption
               | eapply js_join_throws; eassumption
               | idtac ] ]
  end.

(** On what the lookups return, building the prompt fails only where a
    value cannot be converted to a string. *)
Lemma example_lines_throws l : Forall example_ok l ->
  forall i e, Nova.example_lines i l = Throw e -> e = cannot_convert.
Proof.
  induction 1 as [|ex l (c & tags & p & ->) _ IH]; intros i e; cbn [Nova.example_lines];
    [discriminate|].
  cbn [get lookup String.eqb Ascii.eqb Bool.eqb and_then array_method].
  intros H. prints_step H. prints_step H. prints_step H; [discriminate | eauto].
Qed.

Lemma doc_lines_throws l : Forall doc_ok l ->
  forall e, Nova.doc_lines l = Throw e -> e = cannot_convert.
Proof.
  induction 1 as [|d l (t & c & ->) _ IH]; intros e; cbn [Nova.doc_lines];
    [discriminate|].
  cbn [get lookup String.eqb Ascii.eqb Bool.eqb and_then String_of].
  intros H. prints_step H. prints_step H; [discriminate | eauto].
Qed.

Lemma Forall_firstn {A} (Q : A -> Prop) n (l : list A) :
  Forall Q l -> Forall Q (firstn n l).
Proof.
  intros H; revert n; induction H as [|x l Hx _ IH]; intros [|n]; simpl;
    constructor; auto.
Qed.

Lemma buildSystemPrompt_throws platform voiceExamples contextDocs e :
  examples_shape voiceExamples -> docs_shape contextDocs ->
  Nova.buildSystemPrompt platform voiceExamples contextDocs = Throw e ->
  e = cannot_convert.
Proof.
  intros (exs & -> & Hex) (docs & -> & Hdocs).
  unfold Nova.buildSystemPrompt.
  cbn [get String.eqb Ascii.eqb Bool.eqb and_then array_method].
  intros H. prints_step H.
  destruct (gt_zero (VNum (Z.of_nat (List.length exs)))); cbn [and_then] in H.
  - destruct (Nova.example_lines 0 (firstn 5 exs)) as [body | e1] eqn:E1; cbn [and_then] in H.
    + destruct (gt_zero (VNum (Z.of_nat (List.length docs)))); cbn [and_then] in H;
        [| discriminate].
      destruct (Nova.doc_lines docs) as [b2 | e2] eqn:E2; cbn [and_then] in H;
        [discriminate|].
      injection H as <-. eapply doc_lines_throws; eassumption.
    + injection H as <-.
      eapply (example_lines_throws _ (Forall_firstn _ 5 _ Hex)); eassumption.
  - destruct (gt_zero (VNum (Z.of_nat (List.length docs)))); cbn [and_then] in H;
      [| discriminate].
    destruct (Nova.doc_lines docs) as [b2 | e2] eqn:E2; cbn [and_then] in H;
      [discriminate|].
    injection H as <-. eapply doc_lines_throws; eassumption.
Qed.

Lemma buildUserPrompt_throws topic platform style e :
  Nova.buildUserPrompt topic platform style = Throw e -> e = cannot_convert.
Proof.
  unfold Nova.buildUserPrompt. intros H. prints_step H. prints_step H.
  destruct (truthy style); cbn [and_then] in H.
  - destruct (String_of style) as [notes | e3] eqn:E3; cbn [and_then] in H;
      [| injection H as <-; eapply String_of_throws; eassumption].
    destruct (strict_eq platform (VStr "LinkedIn")); [discriminate|].
    destruct (strict_eq platform (VStr "Substack")); discriminate.
  - destruct (strict_eq platform (VStr "LinkedIn")); [discriminate|].
    destruct (strict_eq platform (VStr "Substack")); discriminate.
Qed.

Lemma prompts_throws topic platform style voiceExamples contextDocs e :
  examples_shape voiceExamples -> docs_shape contextDocs ->
  prompts topic platform style voiceExamples contextDocs = Throw e ->
  e = cannot_convert.
Proof.
  intros Hex Hdocs. unfold prompts.
  destruct (Nova.buildSystemPrompt _ _ _) as [sp | e1] eqn:E1; cbn [and_then].
  - destruct (Nova.buildUserPrompt _ _ _) as [up | e2] eqn:E2; cbn [and_then];
      [discriminate|].
    intros H; injection H as <-. eapply buildUserPrompt_throws; eassumption.
  - intros H; injection H as <-. eapply buildSystemPrompt_throws; eassumption.
Qed.

(** With nothing from Notion, the prompts are written whenever the
    request's own values can be. *)
Lemma prompts_of_request topic platform style :
  prompt_prints topic platform style ->
  exists p, prompts topic platform style (VArr []) (VArr []) = Ok p.
Proof.
  intros [up Hup]. unfold prompts. rewrite Hup.
  unfold Nova.buildUserPrompt in Hup. unfold Nova.buildSystemPrompt.
  destruct (String_of (or_else platform (VStr "social media"))) as [medium | e];
    [| discriminate].
  cbn. now eexists.
Qed.

Lemma prompts_need_request topic platform style voiceExamples contextDocs p :
  prompts topic platform style voiceExamples contextDocs = Ok p ->
  prompt_prints topic platform style.
Proof.
  unfold prompts, prompt_prints.
  destruct (Nova.buildSystemPrompt _ _ _); cbn [and_then]; [| discriminate].
  destruct (Nova.buildUserPrompt _ _ _); cbn [and_then]; [| discriminate].
  intros _. now eexists.
Qed.


Lemma llm_draft_result b res d : llm_draft res = Some d -> llm_result b res = Ok d.
Proof.
  unfold llm_draft, llm_result. destruct res as [e0 | r]; [congruence|].
  destruct (json r) as [data|]; [|congruence].
  destruct (ok r); [|congruence].
  destruct (draft_of data); congruence.
Qed.

(** generateContent ends as its prompts and the answer of Anthropic
    dictate. *)
Lemma generateContent_outcome topic platform style voiceExamples contextDocs apiKey w res :
  anthropic_answers w res ->
  fst (Nova.generateContent topic platform style voiceExamples contextDocs apiKey w)
    = generate_result (builtins w) res topic platform style voiceExamples contextDocs.
Proof.
  intros Hres. unfold generate_result, prompts, Nova.generateContent.
  destruct (Nova.buildSystemPrompt platform voiceExamples contextDocs) as [sp | e1];
    [rewrite bind_lift_ok | reflexivity].
  destruct (Nova.buildUserPrompt topic platform style) as [up | e2];
    [rewrite bind_lift_ok | reflexivity].
  cbn [and_then].
  unfold bind at 1, fetch. simpl.
  match goal with |- context [collab w ?rq] => rewrite (Hres rq eq_refl) end.
  destruct res as [e | r]; simpl; [reflexivity|].
  unfold bind, response_text, ret, try_catch, lift, throw, Nova.JSON_parse_body, stringify.
  simpl. destruct (json r) as [data|]; simpl; [|reflexivity].
  destruct (ok r); simpl; [|reflexivity].
  unfold draft_of. now destruct (and_then _ _).
Qed.

Lemma getVoiceExamples_absorbs notionToken databaseId platform w :
  notion_fails w ->
  fst (Nova.getVoiceExamples notionToken databaseId platform w) = Ok (VArr []).
Proof.
  intros Hn. unfold Nova.getVoiceExamples, try_catch, bind, fetch. simpl.
  match goal with |- context [collab w ?rq] => specialize (Hn rq eq_refl) end.
  destruct (collab w _) as [e | r]; simpl; [reflexivity|].
  now rewrite Hn.
Qed.

Lemma searchNotionWorkspace_absorbs notionToken topic platform w :
  notion_fails w ->
  fst (Nova.searchNotionWorkspace notionToken topic platform w) = Ok (VArr []).
Proof.
  intros Hn. unfold Nova.searchNotionWorkspace, try_catch, bind, fetch. simpl.
  match goal with |- context [collab w ?rq] => specialize (Hn rq eq_refl) end.
  destruct (collab w _) as [e | r]; simpl; [reflexivity|].
  now rewrite Hn.
Qed.

Lemma anthropic_answers_later w w' res :
  same_collaborators w w' -> anthropic_answers w res -> anthropic_answers w' res.
Proof. intros [Hc _] H rq Hrq. rewrite Hc. now apply H. Qed.

Lemma notion_fails_later w w' :
  same_collaborators w w' -> notion_fails w -> notion_fails w'.
Proof. intros [Hc _] H rq Hrq. rewrite Hc. now apply H. Qed.

(** The domain logic ends as generateContent does: Notion decides only
    what the system prompt quotes and how many examples and documents are
    counted. *)
Lemma domain_logic_outcome env topic platform style w res :
  anthropic_answers w res ->
  exists examples docs : list Value,
    fst (Nova.domain_logic env topic platform style w)
      = match generate_result (builtins w) res topic platform style
                (VArr examples) (VArr docs) with
        | Ok draft => Ok (nova_output draft (List.length examples) (List.length docs))
        | Throw e => Throw e
        end /\
    Forall example_ok examples /\ Forall doc_ok docs /\
    (notion_fails w -> examples = [] /\ docs = []).
Proof.
  intros Hres. unfold Nova.domain_logic.
  destruct (getVoiceExamples_resolves (NOTION_TOKEN env) (NOTION_DATABASE_ID env) platform w)
    as [ve Hve].
  pose proof (getVoiceExamples_shape (NOTION_TOKEN env) (NOTION_DATABASE_ID env) platform w) as Hs1.
  pose proof (getVoiceExamples_untouched (NOTION_TOKEN env) (NOTION_DATABASE_ID env) platform w)
    as [_ Hc1].
  pose proof (getVoiceExamples_absorbs (NOTION_TOKEN env) (NOTION_DATABASE_ID env) platform w)
    as Ha1.
  rewrite Hve in Hs1, Ha1. apply run_pair in Hve.
  set (w1 := snd (Nova.getVoiceExamples _ _ _ w)) in *.
  erewrite run_bind; [| exact Hve].
  destruct Hs1 as (exs & -> & Hex).
  cbn [get String.eqb Ascii.eqb Bool.eqb]. rewrite bind_lift_ok.
  destruct (searchNotionWorkspace_resolves (NOTION_TOKEN env) topic platform w1) as [cd Hcd].
  pose proof (searchNotionWorkspace_shape (NOTION_TOKEN env) topic platform w1) as Hs2.
  pose proof (searchNotionWorkspace_untouched (NOTION_TOKEN env) topic platform w1) as [_ Hc2].
  pose proof (searchNotionWorkspace_absorbs (NOTION_TOKEN env) topic platform w1) as Ha2.
  rewrite Hcd in Hs2, Ha2. apply run_pair in Hcd.
  set (w2 := snd (Nova.searchNotionWorkspace _ _ _ w1)) in *.
  erewrite run_bind; [| exact Hcd].
  destruct Hs2 as (docs & -> & Hdocs).
  cbn [get String.eqb Ascii.eqb Bool.eqb]. rewrite bind_lift_ok.
  assert (Hc : same_collaborators w w2) by (eapply same_collaborators_trans; eassumption).
  pose proof (generateContent_outcome topic platform style (VArr exs) (VArr docs)
                (ANTHROPIC_API_KEY env) w2 res
                (anthropic_answers_later _ _ _ Hc Hres)) as Hg.
  destruct Hc as [_ Hb]. rewrite Hb in Hg.
  exists exs, docs. split; [| split; [exact Hex | split; [exact Hdocs|]]].
  - unfold bind at 1.
    destruct (Nova.generateContent _ _ _ _ _ _ w2) as [[draft | e] w3]; simpl in Hg;
      rewrite <- Hg; reflexivity.
  - intros Hn. split.
    + specialize (Ha1 Hn). now injection Ha1.
    + assert (Hn1 : notion_fails w1) by (eapply notion_fails_later; eassumption).
      specialize (Ha2 Hn1). now injection Ha2.
Qed.

(* ================================================================ *)
(** ** The properties of the specification *)
(* ================================================================ *)

Lemma start_outcome_identifier w w' v :
  start_outcome w w' v ->
  v = VNull \/
  exists row, In row (executions (store w')) /\ v = VStr (e_id row) /\
              e_status row = VStr "running".
Proof.
  intros [_ [[_ Hv] | (row & Hs & [Hv | Hv])]]; auto.
  right. exists row. destruct Hs as (_ & Hst & Hex & _).
  rewrite Hex. split; [apply in_or_app; right; now left | now split].
Qed.

(** C1. None of the three logger operations lets a transport or storage
    failure reach its caller.  In every world (store reachable or not,
    whatever faults lie ahead) and for all arguments, logExecutionStart,
    in the library and in Nova's copy, resolves to [null] or to the
    identifier of a row that is now in the store in the running state, and
    logExecutionComplete and logExecutionError resolve normally. *)
Theorem logger_never_propagates
  (supabaseUrl supabaseKey : Binding)
  (conversationId agentId input executionId output errorMessage durationMs : Value)
  (w : World) :
  (exists v w',
     Supabase.logExecutionStart supabaseUrl supabaseKey conversationId agentId input w
       = (Ok v, w') /\
     (v = VNull \/
      exists row, In row (executions (store w')) /\ v = VStr (e_id row) /\
                  e_status row = VStr "running")) /\
  (exists v w',
     Nova.logExecutionStart supabaseUrl supabaseKey conversationId agentId input w
       = (Ok v, w') /\
     (v = VNull \/
      exists row, In row (executions (store w')) /\ v = VStr (e_id row) /\
                  e_status row = VStr "running")) /\
  (exists w',
     Supabase.logExecutionComplete supabaseUrl supabaseKey executionId output durationMs w
       = (Ok tt, w')) /\
  (exists w',
     Supabase.logExecutionError supabaseUrl supabaseKey executionId errorMessage durationMs w
       = (Ok tt, w')).
Proof.
  repeat split.
  - destruct (logExecutionStart_outcome supabaseUrl supabaseKey conversationId agentId input w)
      as (v & w' & Hrun & Hout).
    exists v, w'; split; [exact Hrun | eapply start_outcome_identifier; exact Hout].
  - destruct (nova_logExecutionStart_outcome supabaseUrl supabaseKey conversationId agentId input w)
      as (v & w' & Hrun & Hout).
    exists v, w'; split; [exact Hrun | eapply start_outcome_identifier; exact Hout].
  - destruct (logExecutionComplete_outcome supabaseUrl supabaseKey executionId output durationMs w)
      as (w' & Hrun & _).
    now exists w'.
  - destruct (logExecutionError_outcome supabaseUrl supabaseKey executionId errorMessage durationMs w)
      as (w' & Hrun & _).
    now exists w'.
Qed.

(** C10. Ada never writes to the execution log.  For every request, of
    any method and however the work ends, the handler resolves to a
    response, the Supabase store is exactly as it was, and the requests it
    sent are at most one, addressed to the Resend e-mail endpoint. *)
Theorem ada_never_logs (request : Request) (env : Env) (w : World) :
  exists resp w',
    Ada.fetch request env w = (Ok resp, w') /\
    store w' = store w /\
    exists sent,
      http_log w' = (http_log w ++ sent)%list /\
      List.length sent <= 1 /\
      Forall (fun rq => endpoint rq = ResendEmails) sent.
Proof.
  destruct (ada_fetch_never_throws request env w) as [resp Hr].
  exists resp, (snd (Ada.fetch request env w)).
  split; [now apply run_pair|].
  destruct (ada_fetch_sends request env w) as [[Hs _] (sent & H1 & H2 & H3)].
  split; [exact Hs|]. exists sent. now repeat split.
Qed.

Lemma key_prefix_doc (b : Binding) :
  exists s, key_prefix b = VStr s.
Proof.
  unfold key_prefix, or_else. destruct b as [s|]; simpl; [|now eexists].
  destruct (negb (String.eqb (String.substring 0 10 s) "")); now eexists.
Qed.

Lemma nova_probe_doc env : JSON_doc (nova_probe env) = nova_probe env.
Proof. reflexivity. Qed.

Lemma ada_probe_doc env : JSON_doc (ada_probe env) = ada_probe env.
Proof.
  unfold ada_probe.
  destruct (key_prefix_doc (RESEND_API_KEY env)) as [s1 H1].
  destruct (key_prefix_doc (ANTHROPIC_API_KEY env)) as [s2 H2].
  rewrite H1, H2. reflexivity.
Qed.

(** C6, as the code has it.  A GET to either handler resolves to HTTP 200
    with a JSON body made of a [message] ("Nova is running", "Worker is
    running") and one boolean per credential telling whether it is set
    (Ada adds the first ten characters of two keys, or "NO KEY"); the
    world is left exactly as it was, so no domain work and no logging
    happen; and this holds for every environment: with a credential
    unset its flag is [false]. *)
Theorem probe_reports_credentials (request : Request) (env : Env) (w : World) :
  req_method request = "GET" ->
  Nova.fetch request env w
    = (Ok (mkResponse 200 Nova.json_headers (JsonBody (nova_probe env))), w) /\
  Ada.fetch request env w
    = (Ok (mkResponse 200 Ada.json_headers (JsonBody (ada_probe env))), w) /\
  present None = VBool false /\
  key_prefix None = VStr "NO KEY".
Proof.
  intros H. repeat split.
  - unfold Nova.fetch. rewrite H. reflexivity.
  - rewrite <- (ada_probe_doc env). unfold Ada.fetch. rewrite H. reflexivity.
Qed.

Lemma probe_reports_credentials_witness :
  Nova.fetch (mkRequest "GET" None) unset_env calm_world
    = (Ok (mkResponse 200 Nova.json_headers (JsonBody (nova_probe unset_env))), calm_world) /\
  Ada.fetch (mkRequest "GET" None) unset_env calm_world
    = (Ok (mkResponse 200 Ada.json_headers (JsonBody (ada_probe unset_env))), calm_world) /\
  present None = VBool false /\
  key_prefix None = VStr "NO KEY".
Proof. apply (probe_reports_credentials (mkRequest "GET" None) unset_env calm_world); reflexivity. Defined.

(** C6 as stated fails: the body of the probe has none of the fields
    [agentId], [status] and [requiredEnvVarsPresent], in Nova as in Ada. *)
Lemma probe_lacks_stated_fields :
  exists nova ada,
    fst (Nova.fetch (mkRequest "GET" None) unset_env calm_world) = Ok nova /\
    fst (Ada.fetch (mkRequest "GET" None) unset_env calm_world) = Ok ada /\
    r_status nova = 200%Z /\ r_status ada = 200%Z /\
    has_field "agentId" nova = false /\ has_field "agentId" ada = false /\
    has_field "status" nova = false /\ has_field "status" ada = false /\
    has_field "requiredEnvVarsPresent" nova = false /\
    has_field "requiredEnvVarsPresent" ada = false.
Proof. do 2 eexists. repeat split. Qed.

(** C7, as the code has it.  A request whose method is neither GET nor
    POST is rejected before any logging: the world is left exactly as it
    was, so no request is sent and no ExecutionRecord is created.  Ada
    answers it with HTTP 405 and the plain-text body "Method not
    allowed"; so does Nova, except for OPTIONS, which it answers as the
    cross-origin preflight with HTTP 200 and no body. *)
Theorem other_methods_rejected (request : Request) (env : Env) (w : World) :
  req_method request <> "GET" ->
  req_method request <> "POST" ->
  Ada.fetch request env w
    = (Ok (mkResponse 405 [] (TextBody "Method not allowed")), w) /\
  Nova.fetch request env w
    = (Ok (if String.eqb (req_method request) "OPTIONS"
           then mkResponse 200 Nova.corsHeaders NoBody
           else mkResponse 405 Nova.corsHeaders (TextBody "Method not allowed")), w).
Proof.
  intros Hg Hp. apply String.eqb_neq in Hg, Hp. split.
  - unfold Ada.fetch. now rewrite Hg, Hp.
  - unfold Nova.fetch. rewrite Hg, Hp.
    now destruct (String.eqb (req_method request) "OPTIONS").
Qed.

Lemma other_methods_rejected_witness :
  Ada.fetch (mkRequest "DELETE" None) live_env calm_world
    = (Ok (mkResponse 405 [] (TextBody "Method not allowed")), calm_world) /\
  Nova.fetch (mkRequest "DELETE" None) live_env calm_world
    = (Ok (mkResponse 405 Nova.corsHeaders (TextBody "Method not allowed")), calm_world).
Proof.
  apply (other_methods_rejected (mkRequest "DELETE" None) live_env calm_world);
    simpl; discriminate.
Defined.

(** C7 as stated fails: the 405 response carries a text body, not a JSON
    document, in Nova as in Ada. *)
Lemma rejection_body_is_not_json :
  exists nova ada,
    fst (Nova.fetch (mkRequest "DELETE" None) live_env calm_world) = Ok nova /\
    fst (Ada.fetch (mkRequest "DELETE" None) live_env calm_world) = Ok ada /\
    r_status nova = 405%Z /\ r_status ada = 405%Z /\
    (forall doc, r_body nova <> JsonBody doc) /\
    (forall doc, r_body ada <> JsonBody doc).
Proof. do 2 eexists. repeat split; intros doc; discriminate. Qed.

Lemma empty_store_inv : lifecycle_inv empty_store.
Proof.
  repeat split; simpl; try constructor; intros; contradiction.
Qed.

(** C5. Every ExecutionRecord obeys the lifecycle.  Starting from a store
    in which every row has a legal history (in particular an empty one),
    a single invocation of either handler leaves every existing row and
    its history untouched and adds at most one row, whose whole history
    is its own: inserted in the running state and then updated at most
    once, to success or to error.  Hence after any sequence of
    invocations every row's history is "created running", optionally
    followed by exactly one transition out of running into a terminal
    state, its status is the last one written, and every row that was
    ever present is still there, unchanged. *)
Theorem execution_records_follow_lifecycle
  (calls : list (Agent * Request * Env)) (w : World) :
  lifecycle_inv (store w) ->
  (forall a request env, grows (store w) (store (snd (invoke a request env w)))) /\
  (forall row, In row (executions (store (serve calls w))) ->
     lifecycle (e_id row)
       (history (e_id row) (transitions (store (serve calls w))))
       (e_status row)) /\
  incl (executions (store w)) (executions (store (serve calls w))) /\
  lifecycle_inv (store (serve calls w)).
Proof.
  intros Hinv. split.
  - intros a request env. destruct a; simpl; [now apply nova_grows | apply ada_grows].
  - destruct (serve_inv calls w Hinv) as [H1 H2].
    split; [apply H1 | split; assumption].
Qed.

Lemma execution_records_follow_lifecycle_witness :
  (forall a request env,
     grows (store failing_world) (store (snd (invoke a request env failing_world)))) /\
  (forall row, In row (executions (store (serve sample_calls failing_world))) ->
     lifecycle (e_id row)
       (history (e_id row) (transitions (store (serve sample_calls failing_world))))
       (e_status row)) /\
  incl (executions (store failing_world))
       (executions (store (serve sample_calls failing_world))) /\
  lifecycle_inv (store (serve sample_calls failing_world)).
Proof.
  apply (execution_records_follow_lifecycle sample_calls failing_world).
  repeat split; simpl; try constructor; intros; contradiction.
Defined.

(** C3, as the code has it.  When the domain logic of a POST to Nova
    raises a failure, the handler resolves to HTTP 500 with success=false,
    output=null and error equal to the failure's message, and it adds at
    most one record to the store, never two.  When the store answers the
    two log writes, exactly one record is added, in the error state, with
    errorMessage equal to the message and a durationMs that is not
    negative.  (When the store does not answer, the record may be missing
    or left running: logging is best effort.) *)
Theorem domain_failure_is_reported
  (request : Request) (env : Env) (w : World) (topic platform style : Value)
  (e : JsError) :
  req_method request = "POST" ->
  parse_input request = Ok (topic, platform, style) ->
  fst (Nova.domain_logic env topic platform style w) = Throw e ->
  lifecycle_inv (store w) ->
  exists resp w',
    Nova.fetch request env w = (Ok resp, w') /\
    r_status resp = 500%Z /\
    field "success" resp = VBool false /\
    field "output" resp = VNull /\
    field "error" resp = VStr (message e) /\
    (exists new, executions (store w') = (executions (store w) ++ new)%list /\
                 List.length new <= 1) /\
    (answers (SUPABASE_URL env) (SUPABASE_KEY env) (store w) ->
     hd Up (tl (faults (store w))) = Up ->
     exists row d,
       executions (store w') = (executions (store w) ++ [row])%list /\
       e_status row = VStr "error" /\
       e_error_message row = VStr (message e) /\
       e_duration_ms row = VNum d /\ (0 <= d)%Z).
Proof.
  intros Hm Hp Hd Hinv.
  destruct (nova_post request env w Hm) as (resp & w' & Hrun & Hnr).
  exists resp, w'. split; [exact Hrun|].
  pose proof (nova_run_grows _ _ _ _ _ Hinv Hnr) as Hg.
  destruct Hnr as [e0 ts w' Hp0 _ _
                  | t0 p0 s0 id out d ts w1 w2 w' Hp0 _ _ Hd0 _ _ _ _
                  | t0 p0 s0 id e0 d ts w1 w2 w' Hp0 Hso Hsa Hd0 Hun Hd1 Huo Hua];
    try congruence.
  rewrite Hp in Hp0. injection Hp0 as <- <- <-.
  rewrite Hd in Hd0. injection Hd0 as <-.
  repeat (split; [reflexivity|]).
  split; [now apply grows_at_most_one|].
  intros Hans Hup.
  destruct (Hsa Hans) as (row & Hst & -> & Hf).
  destruct Hun as [Heq _].
  assert (Hans2 : answers (SUPABASE_URL env) (SUPABASE_KEY env) (store w2)).
  { rewrite Heq. eapply started_answers; eassumption. }
  specialize (Hua Hans2 (started_truthy _ _ _ Hst) _ (started_key _ _ _ Hst)).
  rewrite Heq in Hua.
  exists (patch_execution (error_doc (VStr (message e)) (VNum d)) row), d.
  split; [eapply updated_fresh; eassumption|].
  repeat split; assumption || reflexivity.
Qed.

Lemma domain_failure_is_reported_witness :
  exists resp w',
    Nova.fetch pricing_post live_env failing_world = (Ok resp, w') /\
    r_status resp = 500%Z /\
    field "success" resp = VBool false /\
    field "output" resp = VNull /\
    field "error" resp = VStr "Claude API error (429): <json>" /\
    (exists new, executions (store w') = (executions (store failing_world) ++ new)%list /\
                 List.length new <= 1) /\
    (answers (SUPABASE_URL live_env) (SUPABASE_KEY live_env) (store failing_world) ->
     hd Up (tl (faults (store failing_world))) = Up ->
     exists row d,
       executions (store w') = (executions (store failing_world) ++ [row])%list /\
       e_status row = VStr "error" /\
       e_error_message row = VStr "Claude API error (429): <json>" /\
       e_duration_ms row = VNum d /\ (0 <= d)%Z).
Proof.
  apply (domain_failure_is_reported pricing_post live_env failing_world
           (VStr "pricing") (VStr "LinkedIn") VUndef
           (Error_ "Claude API error (429): <json>")).
  - reflexivity.
  - reflexivity.
  - vm_compute. reflexivity.
  - repeat split; simpl; try constructor; intros; contradiction.
Defined.

(** C3 as stated fails: with the store unreachable the domain failure is
    answered with HTTP 500 as it should, but no error-state record exists
    afterwards; the store has no record at all. *)
Lemma domain_failure_without_record :
  exists resp w',
    Nova.fetch pricing_post live_env failing_outage_world = (Ok resp, w') /\
    fst (Nova.domain_logic live_env (VStr "pricing") (VStr "LinkedIn") VUndef
           failing_outage_world)
      = Throw (Error_ "Claude API error (429): <json>") /\
    r_status resp = 500%Z /\
    field "error" resp = VStr "Claude API error (429): <json>" /\
    executions (store w') = [].
Proof. do 2 eexists. split; [vm_compute; reflexivity|]. repeat split. Qed.

Lemma primary_success output id1 ts1 id2 ts2 :
  primary (nova_success output id1 ts1) = primary (nova_success output id2 ts2).
Proof. destruct output; reflexivity. Qed.

Lemma primary_failure e id1 ts1 id2 ts2 :
  primary (nova_failure e id1 ts1) = primary (nova_failure e id2 ts2).
Proof. reflexivity. Qed.

Lemma nova_primary_same request env w1 w2 :
  same_env w1 w2 ->
  exists r1 r2,
    fst (Nova.fetch request env w1) = Ok r1 /\
    fst (Nova.fetch request env w2) = Ok r2 /\
    primary r1 = primary r2.
Proof.
  intros Henv.
  destruct (String.eqb (req_method request) "POST") eqn:Hp.
  - apply String.eqb_eq in Hp.
    destruct (nova_post request env w1 Hp) as (r1 & w1' & Hrun1 & Hnr1).
    destruct (nova_post request env w2 Hp) as (r2 & w2' & Hrun2 & Hnr2).
    exists r1, r2. rewrite Hrun1, Hrun2. do 2 (split; [reflexivity|]).
    destruct Hnr1 as [e1 ts1 w1' Hp1 _ _
                     | t1 p1 s1 id1 o1 d1 ts1 u1 v1 w1' Hp1 _ _ Hd1 _ _ _ _
                     | t1 p1 s1 id1 e1 d1 ts1 u1 v1 w1' Hp1 _ _ Hd1 _ _ _ _];
    destruct Hnr2 as [e2 ts2 w2' Hp2 _ _
                     | t2 p2 s2 id2 o2 d2 ts2 u2 v2 w2' Hp2 _ _ Hd2 _ _ _ _
                     | t2 p2 s2 id2 e2 d2 ts2 u2 v2 w2' Hp2 _ _ Hd2 _ _ _ _];
    rewrite Hp1 in Hp2; try discriminate;
    injection Hp2 as; subst;
    try (destruct (domain_logic_lockstep env t2 p2 s2 w1 w2 Henv) as [Heq _];
         rewrite Hd1, Hd2 in Heq; try discriminate; injection Heq as ->).
    + apply primary_failure.
    + apply primary_success.
    + apply primary_failure.
  - unfold Nova.fetch. rewrite Hp.
    destruct (String.eqb (req_method request) "OPTIONS"); [now do 2 eexists|].
    destruct (String.eqb (req_method request) "GET"); now do 2 eexists.
Qed.

(** C4. Logging failures are invisible to the caller.  Take two runs of
    the Nova handler on the same request and environment, with the same
    collaborators, in worlds whose logging stores differ in any way
    (reachable or not, any faults ahead, any contents; the clocks may
    differ too): both resolve, with the same HTTP status, the same
    success flag, the same output and the same error.  For Ada, which
    never logs, replacing the store by any other leaves the response the
    very same. *)
Theorem logging_is_invisible (request : Request) (env : Env) (w1 w2 : World) :
  same_env w1 w2 ->
  (exists r1 r2,
     fst (Nova.fetch request env w1) = Ok r1 /\
     fst (Nova.fetch request env w2) = Ok r2 /\
     primary r1 = primary r2) /\
  (forall st,
     fst (Ada.fetch request env (with_store st w1)) = fst (Ada.fetch request env w1)).
Proof.
  intros Henv. split.
  - now apply nova_primary_same.
  - intros st. apply ada_fetch_blind. repeat split.
Qed.

Lemma logging_is_invisible_witness :
  (exists r1 r2,
     fst (Nova.fetch pricing_post live_env calm_world) = Ok r1 /\
     fst (Nova.fetch pricing_post live_env outage_world) = Ok r2 /\
     primary r1 = primary r2) /\
  (forall st,
     fst (Ada.fetch pricing_post live_env (with_store st calm_world))
       = fst (Ada.fetch pricing_post live_env calm_world)).
Proof.
  apply (logging_is_invisible pricing_post live_env calm_world outage_world).
  split; reflexivity.
Defined.

Lemma active_for_created user created_at id :
  active_for user (mkConversation id (VStr user) (VStr "active") created_at) = true.
Proof. unfold active_for, text_is; simpl. now rewrite String.eqb_refl. Qed.




Lemma domain_logic_object env topic platform style :
  yields (fun v => exists fs, v = VObj fs) (Nova.domain_logic env topic platform style).
Proof.
  unfold Nova.domain_logic.
  repeat (apply yields_bind; intros ?).
  apply yields_ret. now eexists.
Qed.

(** Nova, for comparison, honours the envelope on every POST: HTTP 200
    with success, an output object and no error, or HTTP 500 with no
    output and the failure's message; and it never sends a stack. *)
Lemma nova_envelope request env w :
  req_method request = "POST" ->
  exists resp w',
    Nova.fetch request env w = (Ok resp, w') /\
    envelope resp /\
    (field "success" resp = VBool true <-> r_status resp = 200%Z) /\
    has_field "stack" resp = false.
Proof.
  intros Hm. destruct (nova_post request env w Hm) as (resp & w' & Hrun & Hnr).
  exists resp, w'. split; [exact Hrun|].
  destruct Hnr as [e ts w' _ _ _
                  | t p s id out d ts w1 w2 w' _ _ _ Hd _ _ _ _
                  | t p s id e d ts w1 w2 w' _ _ _ _ _ _ _ _].
  - split; [right; repeat split; now eexists|].
    split; [split; discriminate | reflexivity].
  - pose proof (domain_logic_object env t p s w) as Ho. rewrite Hd in Ho.
    destruct Ho as [fs ->].
    split; [left; repeat split; now eexists|].
    split; [split; reflexivity | reflexivity].
  - split; [right; repeat split; now eexists|].
    split; [split; discriminate | reflexivity].
Qed.

(** C2 fails on Ada.  A valid form submission is answered with
    success=true but the body has no [output], no [error] and no
    [metadata] field; a submission whose processing fails is answered with
    HTTP 500 and a body that has no [output] field and carries the raw
    [stack] of the exception. *)
Theorem ada_breaks_envelope :
  exists done failed,
    fst (Ada.fetch tally_post live_env calm_world) = Ok done /\
    r_status done = 200%Z /\
    field "success" done = VBool true /\
    has_field "output" done = false /\
    has_field "error" done = false /\
    has_field "metadata" done = false /\
    ~ envelope done /\
    fst (Ada.fetch (mkRequest "POST" (Some (VObj []))) live_env calm_world) = Ok failed /\
    r_status failed = 500%Z /\
    field "success" failed = VBool false /\
    has_field "output" failed = false /\
    field "stack" failed
      = VStr "TypeError: Cannot read properties of undefined (reading 'formName')" /\
    ~ envelope failed.
Proof.
  do 2 eexists. split; [vm_compute; reflexivity|].
  repeat (split; [reflexivity|]).
  split.
  { intros [(_ & [fs H] & _) | (H & _)]; discriminate. }
  split; [vm_compute; reflexivity|].
  repeat (split; [reflexivity|]).
  intros [(H & _) | (_ & H & _)]; discriminate.
Qed.




(* ================================================================ *)
(** ** Further properties of the handlers and helpers *)
(* ================================================================ *)

Lemma parse_input_accepts request parsed :
  req_body request = Some parsed -> nullish parsed = false ->
  exists topic platform style,
    parse_input request = Ok (topic, platform, style) /\
    get parsed "topic" = Ok topic /\ get parsed "platform" = Ok platform /\
    get parsed "style" = Ok style.
Proof.
  intros Hb Hn. unfold parse_input, destructure. rewrite Hb, Hn.
  destruct parsed; try discriminate; simpl; do 3 eexists; repeat split.
Qed.

(** X1. A POST to Nova whose body cannot be taken apart (it is not JSON, or it is the
    JSON value null) is answered with HTTP 500 and the parse failure's
    message, and nothing else happens: no request leaves the worker and
    the store is as it was. *)
Theorem nova_rejects_unreadable_body (request : Request) (env : Env) (w : World)
  (e : JsError) :
  req_method request = "POST" ->
  parse_input request = Throw e ->
  exists timestamp w',
    Nova.fetch request env w = (Ok (nova_failure e VNull timestamp), w') /\
    r_status (nova_failure e VNull timestamp) = 500%Z /\
    field "error" (nova_failure e VNull timestamp) = VStr (message e) /\
    store w' = store w /\ http_log w' = http_log w.
Proof.
  intros Hm Hp. rewrite (fetch_post request env Hm).
  erewrite run_bind; [| unfold Date_now; reflexivity].
  pose proof (accept_run request env
                (mkWorld (store w) (collab w) (builtins w)
                   (now w + Z.of_N (hd 0%N (ticks w))) (tl (ticks w)) (http_log w))) as Ha.
  rewrite Hp in Ha.
  erewrite run_bind; [| unfold Nova.attempt; rewrite Ha; reflexivity].
  unfold Nova.on_error, Nova.logExecutionError, Supabase.logExecutionError.
  simpl. unfold bind, Date_now, Date_toISOString, bind, ret. simpl.
  match goal with |- context [("timestamp", ?t)] => exists t end.
  eexists. split; [reflexivity|]. repeat split.
Qed.

Lemma nova_rejects_unreadable_body_witness :
  exists timestamp w',
    Nova.fetch (mkRequest "POST" None) live_env calm_world
      = (Ok (nova_failure (SyntaxError "Unexpected end of JSON input") VNull timestamp), w') /\
    r_status (nova_failure (SyntaxError "Unexpected end of JSON input") VNull timestamp)
      = 500%Z /\
    field "error" (nova_failure (SyntaxError "Unexpected end of JSON input") VNull timestamp)
      = VStr (message (SyntaxError "Unexpected end of JSON input")) /\
    store w' = store calm_world /\ http_log w' = http_log calm_world.
Proof.
  apply (nova_rejects_unreadable_body (mkRequest "POST" None) live_env calm_world);
    reflexivity.
Defined.


(** *** The log writes, when the store answers *)




















(* ================================================================ *)
(** ** Outbound requests *)
(* ================================================================ *)

Lemma spent_app a b : spent (a ++ b) = budget_add (spent a) (spent b).
Proof. unfold spent, budget_add; simpl. now rewrite !filter_app, !length_app. Qed.

Lemma budget_le_refl a : budget_le a a.
Proof. repeat split; lia. Qed.

Lemma budget_le_trans a b c : budget_le a b -> budget_le b c -> budget_le a c.
Proof. unfold budget_le; intros (?&?&?&?) (?&?&?&?); repeat split; lia. Qed.

Lemma budget_add_le a a' b b' :
  budget_le a a' -> budget_le b b' -> budget_le (budget_add a b) (budget_add a' b').
Proof. unfold budget_le, budget_add; simpl; intros (?&?&?&?) (?&?&?&?); repeat split; lia. Qed.

Lemma within_compose a b w1 w2 w3 :
  within a w1 w2 -> within b w2 w3 -> within (budget_add a b) w1 w3.
Proof.
  intros (s1 & H1 & L1) (s2 & H2 & L2). exists (s1 ++ s2)%list. split.
  - unfold sent_between in *. now rewrite H2, H1, app_assoc.
  - rewrite spent_app. now apply budget_add_le.
Qed.

Lemma within_weaken a b w w' : within a w w' -> budget_le a b -> within b w w'.
Proof. intros (s & H & L) Hle. exists s; split; [exact H | eapply budget_le_trans; eassumption]. Qed.

Lemma silent_within b w w' : silent w w' -> within b w w'.
Proof.
  intros [_ Hl]. exists []. split.
  - unfold sent_between. now rewrite app_nil_r.
  - unfold budget_le; simpl; repeat split; lia.
Qed.

Lemma within_quiet {A} b (m : M A) : keeps silent m -> keeps (within b) m.
Proof. intros H w. apply silent_within, H. Qed.

Lemma within_weak {A} a b (m : M A) :
  keeps (within a) m -> budget_le a b -> keeps (within b) m.
Proof. intros H Hle w. eapply within_weaken; [apply H | exact Hle]. Qed.

Lemma within_bind {A B} a b c (m : M A) (k : A -> M B) :
  keeps (within a) m -> (forall x, keeps (within b) (k x)) ->
  budget_le (budget_add a b) c -> keeps (within c) (bind m k).
Proof.
  intros Hm Hk Hle w; unfold bind. specialize (Hm w).
  destruct (m w) as [[x | e] w1]; simpl in *.
  - eapply within_weaken; [eapply within_compose; [exact Hm | apply Hk] | exact Hle].
  - eapply within_weaken; [eapply within_compose; [exact Hm | apply silent_within, silent_refl] | exact Hle].
Qed.

Lemma within_try_catch {A} a b c (m : M A) h :
  keeps (within a) m -> (forall e, keeps (within b) (h e)) ->
  budget_le (budget_add a b) c -> keeps (within c) (try_catch m h).
Proof.
  intros Hm Hh Hle w; unfold try_catch. specialize (Hm w).
  destruct (m w) as [[x | e] w1]; simpl in *.
  - eapply within_weaken; [eapply within_compose; [exact Hm | apply silent_within, silent_refl] | exact Hle].
  - eapply within_weaken; [eapply within_compose; [exact Hm | apply Hh] | exact Hle].
Qed.

(** A try block whose tail cannot throw: the handler runs only when the
    head threw, so the tail and the handler are never both paid for. *)
Lemma within_try_tail {A B} a b c (m : M A) (k : A -> M B) h :
  keeps (within a) m -> (forall x, keeps (within b) (k x)) ->
  (forall x, never_throws (k x)) -> (forall e, keeps (within b) (h e)) ->
  budget_le (budget_add a b) c -> keeps (within c) (try_catch (bind m k) h).
Proof.
  intros Hm Hk Hnt Hh Hle w; unfold try_catch, bind. specialize (Hm w).
  destruct (m w) as [[x | e] w1]; simpl in *.
  - specialize (Hk x w1). destruct (Hnt x w1) as [y Hy].
    destruct (k x w1) as [[y' | e] w2]; simpl in *; [| discriminate].
    eapply within_weaken; [eapply within_compose; eassumption | exact Hle].
  - eapply within_weaken; [eapply within_compose; [exact Hm | apply Hh] | exact Hle].
Qed.

Lemma within_fetch rq : keeps (within (cost rq)) (fetch rq).
Proof.
  intros w. exists [rq]. split; [| apply budget_le_refl].
  unfold sent_between, fetch.
  destruct (supabase_base (endpoint rq)).
  - destruct (supabase _ _ _ _) as [[e | r] st']; reflexivity.
  - destruct (collab w rq); reflexivity.
Qed.

Lemma within_attempt {A} b (m : M A) : keeps (within b) m -> keeps (within b) (Nova.attempt m).
Proof.
  intros Hm w; unfold Nova.attempt. specialize (Hm w).
  destruct (m w) as [r w']; exact Hm.
Qed.

Lemma within_mapM {A B} b (f : A -> M B) l :
  (forall a, keeps (within b) (f a)) ->
  keeps (within (budget_scale (List.length l) b)) (mapM f l).
Proof.
  intros Hf; induction l as [|x l IH]; simpl.
  - intros w. apply silent_within, silent_refl.
  - eapply within_bind; [apply Hf | intros y | ].
    + eapply (within_bind _ no_calls);
        [apply IH | intros ys; apply within_quiet, (keeps_ret _ silent_refl) |].
      apply budget_le_refl.
    + unfold budget_le, budget_add, budget_scale, no_calls; simpl; repeat split; lia.
Qed.

Ltac free := apply within_quiet; quiet.
Ltac tally :=
  unfold budget_le, budget_add, budget_scale, cost, spent, no_calls,
    one_supabase, one_notion, one_anthropic, one_resend, nova_budget;
  simpl; repeat split; lia.

Lemma never_throws_bind {A B} (m : M A) (k : A -> M B) :
  never_throws m -> (forall x, never_throws (k x)) -> never_throws (bind m k).
Proof.
  intros Hm Hk w. unfold bind. destruct (Hm w) as [a Ha].
  destruct (m w) as [[a' | e] w1]; simpl in Ha; [| discriminate].
  apply Hk.
Qed.

Lemma getVoiceExamples_budget notionToken databaseId platform :
  keeps (within one_notion) (Nova.getVoiceExamples notionToken databaseId platform).
Proof.
  unfold Nova.getVoiceExamples.
  eapply (within_try_catch _ no_calls);
    [ eapply (within_bind _ no_calls);
        [apply within_fetch | intros r; free | apply budget_le_refl]
    | intros e; free | tally ].
Qed.

Lemma page_document_budget notionToken page :
  keeps (within one_notion) (Nova.page_document notionToken page).
Proof.
  unfold Nova.page_document.
  eapply (within_try_catch _ no_calls);
    [ eapply (within_bind no_calls one_notion);
        [ free
        | intros id; eapply (within_bind _ no_calls);
            [apply within_fetch | intros r; free | tally]
        | apply budget_le_refl ]
    | intros e; free | tally ].
Qed.

Lemma searchNotionWorkspace_budget notionToken topic platform :
  keeps (within (mkBudget 0 4 0 0)) (Nova.searchNotionWorkspace notionToken topic platform).
Proof.
  unfold Nova.searchNotionWorkspace. cbv zeta.
  eapply (within_try_catch _ no_calls);
    [ eapply (within_bind _ (mkBudget 0 3 0 0));
        [apply within_fetch | intros r | apply budget_le_refl]
    | intros e; free | tally ].
  destruct (negb (ok r)); [free |].
  eapply (within_bind no_calls (mkBudget 0 3 0 0)); [free | intros data | tally].
  eapply (within_bind no_calls (mkBudget 0 3 0 0)); [free | intros results | tally].
  eapply (within_bind (mkBudget 0 3 0 0) no_calls); [| intros pages; free | tally].
  eapply within_weak; [apply within_mapM; intros p; apply page_document_budget |].
  pose proof (firstn_le_length 3 results).
  unfold budget_le, budget_scale, one_notion;
    cbn [supabase_calls notion_calls anthropic_calls resend_calls]; repeat split; lia.
Qed.

Lemma generateContent_budget topic platform style voiceExamples contextDocs apiKey :
  keeps (within one_anthropic)
    (Nova.generateContent topic platform style voiceExamples contextDocs apiKey).
Proof.
  unfold Nova.generateContent.
  eapply (within_bind no_calls one_anthropic); [free | intros sp | tally].
  eapply (within_bind no_calls one_anthropic); [free | intros up | tally].
  eapply (within_bind _ no_calls); [apply within_fetch | intros r; free | tally].
Qed.

Lemma domain_logic_budget env topic platform style :
  keeps (within (mkBudget 0 5 1 0)) (Nova.domain_logic env topic platform style).
Proof.
  unfold Nova.domain_logic.
  eapply (within_bind one_notion (mkBudget 0 4 1 0));
    [apply getVoiceExamples_budget | intros ve | tally].
  eapply (within_bind no_calls (mkBudget 0 4 1 0)); [free | intros n1 | tally].
  eapply (within_bind (mkBudget 0 4 0 0) one_anthropic);
    [apply searchNotionWorkspace_budget | intros cd | tally].
  eapply (within_bind no_calls one_anthropic); [free | intros n2 | tally].
  eapply (within_bind one_anthropic no_calls);
    [apply generateContent_budget | intros draft; free | tally].
Qed.

Lemma nova_logExecutionStart_budget supabaseUrl supabaseKey conversationId agentId input :
  keeps (within one_supabase)
    (Nova.logExecutionStart supabaseUrl supabaseKey conversationId agentId input).
Proof.
  unfold Nova.logExecutionStart.
  eapply (within_try_catch _ no_calls);
    [ eapply (within_bind no_calls one_supabase);
        [ free
        | intros created_at; cbv zeta; eapply (within_bind _ no_calls);
            [apply within_fetch | intros r; free | tally]
        | apply budget_le_refl ]
    | intros e; free | tally ].
Qed.

Lemma logExecutionStart_budget supabaseUrl supabaseKey conversationId agentId input :
  keeps (within one_supabase)
    (Supabase.logExecutionStart supabaseUrl supabaseKey conversationId agentId input).
Proof.
  unfold Supabase.logExecutionStart.
  eapply (within_try_catch _ no_calls);
    [ eapply (within_bind no_calls one_supabase);
        [ free
        | intros created_at; cbv zeta; eapply (within_bind _ no_calls);
            [apply within_fetch | intros r; free | tally]
        | apply budget_le_refl ]
    | intros e; free | tally ].
Qed.

Lemma logExecutionComplete_budget supabaseUrl supabaseKey executionId output durationMs :
  keeps (within one_supabase)
    (Supabase.logExecutionComplete supabaseUrl supabaseKey executionId output durationMs).
Proof.
  unfold Supabase.logExecutionComplete. destruct (negb (truthy executionId)); [free |].
  eapply (within_try_catch _ no_calls);
    [ eapply (within_bind no_calls one_supabase);
        [ free
        | intros id; eapply (within_bind _ no_calls);
            [apply within_fetch | intros r; free | tally]
        | apply budget_le_refl ]
    | intros e; free | tally ].
Qed.

Lemma logExecutionError_budget supabaseUrl supabaseKey executionId errorMessage durationMs :
  keeps (within one_supabase)
    (Supabase.logExecutionError supabaseUrl supabaseKey executionId errorMessage durationMs).
Proof.
  unfold Supabase.logExecutionError. destruct (negb (truthy executionId)); [free |].
  eapply (within_try_catch _ no_calls);
    [ eapply (within_bind no_calls one_supabase);
        [ free
        | intros id; eapply (within_bind _ no_calls);
            [apply within_fetch | intros r; free | tally]
        | apply budget_le_refl ]
    | intros e; free | tally ].
Qed.

Lemma accept_budget request env : keeps (within one_supabase) (Nova.accept request env).
Proof.
  unfold Nova.accept.
  eapply (within_bind no_calls one_supabase); [free | intros parsed | tally].
  eapply (within_bind no_calls one_supabase); [free | intros topic | tally].
  eapply (within_bind no_calls one_supabase); [free | intros platform | tally].
  eapply (within_bind no_calls one_supabase); [free | intros style | tally].
  eapply (within_bind one_supabase no_calls);
    [apply nova_logExecutionStart_budget | intros id; free | tally].
Qed.

Lemma on_error_budget env startTime executionId e :
  keeps (within one_supabase) (Nova.on_error env startTime executionId e).
Proof.
  unfold Nova.on_error, Nova.logExecutionError.
  eapply (within_bind no_calls one_supabase); [free | intros t | tally].
  eapply (within_bind one_supabase no_calls);
    [apply logExecutionError_budget | intros u; free | tally].
Qed.

(** *** What one request may send *)

(** X5. One request to Nova, whatever its method, body and environment and
    whatever the services answer, sends at most two requests to Supabase,
    five to Notion (one database query, one search, three page reads) and
    one to Anthropic, and none to Resend. *)
Theorem nova_request_budget (request : Request) (env : Env) (w : World) :
  exists sent,
    http_log (snd (Nova.fetch request env w)) = (http_log w ++ sent)%list /\
    List.length (filter to_supabase sent) <= 2 /\
    List.length (filter to_notion sent) <= 5 /\
    List.length (filter to_anthropic sent) <= 1 /\
    List.length (filter to_resend sent) = 0.
Proof.
  assert (H : keeps (within nova_budget) (Nova.fetch request env)).
  { unfold Nova.fetch.
    destruct (String.eqb (req_method request) "OPTIONS"); [free |].
    destruct (String.eqb (req_method request) "GET"); [free |].
    destruct (negb (String.eqb (req_method request) "POST")); [free |].
    eapply (within_bind no_calls nova_budget); [free | intros startTime | tally].
    eapply (within_bind one_supabase (mkBudget 1 5 1 0));
      [apply within_attempt, accept_budget | intros started | tally].
    destruct started as [[[[topic platform] style] executionId] | e].
    - eapply (within_try_tail (mkBudget 0 5 1 0) one_supabase);
        [ apply domain_logic_budget | intros output | intros output
        | intros e; apply on_error_budget | tally ].
      + eapply (within_bind no_calls one_supabase); [free | intros t | tally].
        eapply (within_bind one_supabase no_calls);
          [apply logExecutionComplete_budget | intros u; free | tally].
      + apply never_throws_bind; [intros w0; eexists; reflexivity | intros t].
        apply never_throws_bind; [apply logExecutionComplete_never_throws | intros u].
        apply never_throws_bind; [intros w0; eexists; reflexivity | intros ts].
        apply never_throws_ret.
    - eapply within_weak; [apply on_error_budget | tally]. }
  destruct (H w) as (sent & Hs & (H1 & H2 & H3 & H4)).
  exists sent. simpl in *. repeat split; try assumption. lia.
Qed.

(* ================================================================ *)
(** ** Ada's e-mail *)
(* ================================================================ *)

Section Emits.
Variable P : FetchReq -> Prop.

Lemma emits_refl w : emits P w w.
Proof. exists []. split; [unfold sent_between; now rewrite app_nil_r | constructor]. Qed.

Lemma emits_trans w1 w2 w3 : emits P w1 w2 -> emits P w2 w3 -> emits P w1 w3.
Proof.
  intros (s1 & H1 & F1) (s2 & H2 & F2). exists (s1 ++ s2)%list. split.
  - unfold sent_between in *. now rewrite H2, H1, app_assoc.
  - apply Forall_app; now split.
Qed.

Lemma emits_quiet {A} (m : M A) : keeps silent m -> keeps (emits P) m.
Proof.
  intros H w. destruct (H w) as [_ Hl]. exists []. split; [| constructor].
  unfold sent_between. now rewrite app_nil_r.
Qed.

Lemma fetch_emits rq : P rq -> keeps (emits P) (fetch rq).
Proof.
  intros HP w. exists [rq]. split; [| now repeat constructor].
  unfold sent_between, fetch.
  destruct (supabase_base (endpoint rq)).
  - destruct (supabase _ _ _ _) as [[e | r] st']; reflexivity.
  - destruct (collab w rq); reflexivity.
Qed.
End Emits.

Ltac coordinator_prim :=
  first [ apply emits_quiet, Date_now_silent
        | apply emits_quiet, Date_toISOString_silent
        | apply emits_quiet, buildRequestEmail_silent
        | apply emits_quiet, buildHelperEmail_silent
        | apply fetch_emits; split; [reflexivity | split; [reflexivity | now do 2 eexists]] ].

Lemma sendEmail_emits formData analysis formType apiKey :
  keeps (emits to_coordinator) (Ada.sendEmail formData analysis formType apiKey).
Proof.
  unfold Ada.sendEmail.
  keeps_walk (emits_refl to_coordinator) (emits_trans to_coordinator) coordinator_prim.
Qed.

(** X6. Whatever the form submission contains, the only request Ada ever
    sends is one POST to Resend from the fixed sender to the coordinator,
    copied to the two fixed addresses: no address is taken from the
    submission, and no request goes anywhere else. *)
Theorem ada_mail_goes_to_coordinator (request : Request) (env : Env) (w : World) :
  exists sent,
    http_log (snd (Ada.fetch request env w)) = (http_log w ++ sent)%list /\
    List.length sent <= 1 /\
    Forall to_coordinator sent.
Proof.
  assert (H : keeps (emits to_coordinator) (Ada.fetch request env)).
  { unfold Ada.fetch.
    keeps_walk (emits_refl to_coordinator) (emits_trans to_coordinator)
      ltac:(first [apply sendEmail_emits | coordinator_prim]). }
  destruct (H w) as (sent & Hs & Hf).
  destruct (ada_fetch_sends request env w) as [_ (sent' & Hs' & Hl & _)].
  unfold sent_between in *. rewrite Hs in Hs'. apply app_inv_head in Hs'. subst sent'.
  exists sent. repeat split; assumption.
Qed.

(** *** What a POST to Ada answers *)

Lemma determineFormType_range formData v :
  Ada.determineFormType formData = Ok v -> v = VStr "helper" \/ v = VStr "request".
Proof.
  unfold Ada.determineFormType. intros H.
  repeat and_then_step H.
  repeat match type of H with
         | (if ?c then _ else _) = Ok _ => destruct c
         end;
    repeat and_then_step H;
    repeat match type of H with
           | (if ?c then _ else _) = Ok _ => destruct c
           end;
    injection H as <-; auto.
Qed.

Lemma sendEmail_cases formData analysis formType apiKey w :
  exists res w',
    Ada.sendEmail formData analysis formType apiKey w = (Ok res, w') /\
    ((exists data, res = VObj [("success", VBool true); ("data", data)] /\ delivered w w') \/
     (exists data err text,
        res = VObj [("success", VBool false); ("data", data); ("error", VStr err);
                    ("responseText", VStr text)]) \/
     (exists err st,
        res = VObj [("success", VBool false); ("error", VStr err); ("stack", VStr st)])).
Proof.
  unfold Ada.sendEmail.
  set (build := if strict_eq formType (VStr "request")
                then Ada.buildRequestEmail formData analysis
                else Ada.buildHelperEmail formData analysis).
  assert (Hb : keeps silent build).
  { unfold build. destruct (strict_eq formType (VStr "request"));
      [apply buildRequestEmail_silent | apply buildHelperEmail_silent]. }
  specialize (Hb w). clearbody build.
  unfold try_catch, bind at 1.
  destruct (build w) as [[cfg | e] w1]; simpl in Hb.
  2: { do 2 eexists; split; [reflexivity|]. right; right; eauto. }
  destruct Hb as [[_ [Hc _]] Hl].
  unfold bind, lift.
  destruct (get cfg "subject") as [subject | e];
    [| do 2 eexists; split; [reflexivity|]; right; right; eauto].
  destruct (get cfg "body") as [html | e];
    [| do 2 eexists; split; [reflexivity|]; right; right; eauto].
  unfold fetch; simpl.
  match goal with
  | |- context [collab w1 ?rq] => destruct (collab w1 rq) as [e | r] eqn:Hr
  end;
    [do 2 eexists; split; [reflexivity|]; right; right; eauto |].
  unfold response_json, lift.
  destruct (json r) as [result |] eqn:Hj;
    [| do 2 eexists; split; [reflexivity|]; right; right; eauto].
  destruct (negb (ok r)) eqn:Hok; simpl.
  - do 2 eexists; split; [reflexivity|]. right; left; eauto.
  - do 2 eexists; split; [reflexivity|]. left. eexists; split; [reflexivity|].
    do 3 eexists. split; [| split; [| split; [| split]]].
    + unfold sent_between; simpl. now rewrite Hl.
    + reflexivity.
    + rewrite <- Hc. exact Hr.
    + now apply Bool.negb_false_iff.
    + exact Hj.
Qed.

(** X7. A POST to Ada whose body cannot be read as a form submission (it
    is not JSON, has no [data], or its form cannot be classified) is
    answered with status 500 and the message and the stack of the error,
    and nothing is sent: no e-mail, and the world is as it was. *)
Theorem ada_rejects_unreadable_form (request : Request) (env : Env) (w : World)
  (e : JsError) :
  req_method request = "POST" ->
  ada_input request = Throw e ->
  Ada.fetch request env w = (Ok (ada_failure e), w).
Proof.
  intros Hm Hin. unfold Ada.fetch. rewrite Hm. simpl.
  unfold ada_input in Hin. unfold try_catch, bind at 1, request_json, lift.
  destruct (req_body request) as [webhookData |].
  2: { injection Hin as <-. reflexivity. }
  unfold bind at 1.
  destruct (get webhookData "data") as [formData | e1]; simpl in Hin.
  2: { injection Hin as <-. reflexivity. }
  unfold bind at 1.
  destruct (Ada.determineFormType formData) as [formType | e2]; simpl in Hin.
  - discriminate.
  - injection Hin as <-. reflexivity.
Qed.

Lemma ada_rejects_unreadable_form_witness :
  Ada.fetch (mkRequest "POST" (Some (VObj [("eventType", VStr "FORM_RESPONSE")])))
    live_env calm_world
  = (Ok (ada_failure (TypeError "Cannot read properties of undefined (reading 'formName')")),
     calm_world).
Proof.
  apply (ada_rejects_unreadable_form
           (mkRequest "POST" (Some (VObj [("eventType", VStr "FORM_RESPONSE")])))
           live_env calm_world); reflexivity.
Defined.

(** X8. A POST to Ada whose form can be read is always answered with
    status 200 and [success: true], whether or not the e-mail went out;
    the form type reported is helper or request; and [emailSent] is a
    boolean that is true only if exactly one request was sent, to Resend,
    and Resend accepted it. *)
Theorem ada_reports_delivery (request : Request) (env : Env) (w : World)
  (formData formType : Value) :
  req_method request = "POST" ->
  ada_input request = Ok (formData, formType) ->
  (formType = VStr "helper" \/ formType = VStr "request") /\
  exists resp w',
    Ada.fetch request env w = (Ok resp, w') /\
    r_status resp = 200%Z /\
    field "success" resp = VBool true /\
    field "formType" resp = formType /\
    (field "emailSent" resp = VBool false \/
     (field "emailSent" resp = VBool true /\ delivered w w')).
Proof.
  intros Hm Hin. unfold ada_input in Hin.
  destruct (req_body request) as [webhookData |] eqn:Hb; [| discriminate].
  destruct (get webhookData "data") as [fd | e1] eqn:Hd; simpl in Hin; [| discriminate].
  destruct (Ada.determineFormType fd) as [ft | e2] eqn:Ht; simpl in Hin; [| discriminate].
  injection Hin as <- <-.
  pose proof (determineFormType_range _ _ Ht) as Hrange.
  split; [exact Hrange|].
  unfold Ada.fetch. rewrite Hm. simpl.
  unfold try_catch, bind at 1, request_json, lift. rewrite Hb.
  unfold bind at 1. rewrite Hd.
  unfold bind at 1. rewrite Ht.
  destruct (sendEmail_cases fd (VStr "Test analysis - Claude API skipped for debugging")
              ft (RESEND_API_KEY env) w) as (res & w' & Hrun & Hres).
  unfold bind at 1. rewrite Hrun.
  destruct Hres as [(data & -> & Hdel) | [(data & err & text & ->) | (err & st & ->)]];
    destruct Hrange as [-> | ->]; simpl;
    do 2 eexists; (split; [reflexivity|]);
    (split; [reflexivity|]); (split; [reflexivity|]); (split; [reflexivity|]);
    solve [left; reflexivity | right; split; [reflexivity | exact Hdel]].
Qed.

Lemma ada_reports_delivery_witness :
  exists formData formType,
    (formType = VStr "helper" \/ formType = VStr "request") /\
    exists resp w',
      Ada.fetch tally_post live_env calm_world = (Ok resp, w') /\
      r_status resp = 200%Z /\
      field "success" resp = VBool true /\
      field "formType" resp = formType /\
      (field "emailSent" resp = VBool false \/
       (field "emailSent" resp = VBool true /\ delivered calm_world w')) /\
      ada_input tally_post = Ok (formData, formType).
Proof.
  do 2 eexists.
  assert (H : ada_input tally_post = Ok _) by (vm_compute; reflexivity).
  destruct (ada_reports_delivery tally_post live_env calm_world _ _ eq_refl H)
    as (Hrange & resp & w' & Hrun & H1 & H2 & H3 & H4).
  split; [exact Hrange|]. exists resp, w'. repeat split; assumption.
Defined.

(** *** Reading a form *)

Lemma find_result_none p l :
  Forall (fun f => p f = Ok false) l -> find_result p l = Ok VUndef.
Proof.
  induction 1 as [|f l Hf _ IH]; simpl; [reflexivity|]. now rewrite Hf.
Qed.

Lemma find_result_first p l f rest :
  Forall (fun g => p g = Ok false) l -> p f = Ok true ->
  find_result p (l ++ f :: rest) = Ok f.
Proof.
  induction 1 as [|g l Hg _ IH]; simpl; intros Hf; [now rewrite Hf|].
  rewrite Hg. simpl. now apply IH.
Qed.

(** X17. How Ada reads a field by its label.  When no field's label
    contains the words looked for, getFieldValue gives null and
    getCheckboxText gives Not specified; otherwise the first field whose
    label contains them decides, and getFieldValue gives its value, or
    null when the value is empty, absent, zero or false. *)
Theorem fields_are_read_by_label (labelMatch : string) (before rest : list Value)
  (field : Value) :
  Forall (fun f => Ada.label_matches labelMatch f = Ok false) before ->
  (Ada.getFieldValue (VArr before) labelMatch = Ok VNull /\
   Ada.getCheckboxText (VArr before) labelMatch = Ok (VStr "Not specified")) /\
  (Ada.label_matches labelMatch field = Ok true ->
   forall value, opt_get field "value" = Ok value ->
     Ada.getFieldValue (VArr (before ++ field :: rest)) labelMatch
       = Ok (if truthy value then value else VNull)).
Proof.
  intros Hb. split; [split|].
  - unfold Ada.getFieldValue. simpl. now rewrite (find_result_none _ _ Hb).
  - unfold Ada.getCheckboxText. simpl. now rewrite (find_result_none _ _ Hb).
  - intros Hf value Hv. unfold Ada.getFieldValue. simpl.
    rewrite (find_result_first _ _ _ rest Hb Hf). simpl. now rewrite Hv.
Qed.

Lemma fields_are_read_by_label_witness :
  (Ada.getFieldValue (VArr name_only) "phone" = Ok VNull /\
   Ada.getCheckboxText (VArr name_only) "phone" = Ok (VStr "Not specified")) /\
  (Ada.label_matches "phone" (VObj [("label", VStr "Phone Number"); ("value", VStr "")])
     = Ok true ->
   forall value,
     opt_get (VObj [("label", VStr "Phone Number"); ("value", VStr "")]) "value" = Ok value ->
     Ada.getFieldValue
       (VArr (name_only ++ VObj [("label", VStr "Phone Number"); ("value", VStr "")] :: []))
       "phone"
     = Ok (if truthy value then value else VNull)).
Proof.
  apply (fields_are_read_by_label "phone" name_only []
           (VObj [("label", VStr "Phone Number"); ("value", VStr "")])).
  repeat constructor.
Defined.

(** *** Form text in the e-mail *)

Lemma prefix_app d b : String.prefix d (d ++ b) = true.
Proof.
  induction d as [|c d IH]; simpl; [now destruct b|].
  destruct (Ascii.ascii_dec c c); [exact IH | contradiction].
Qed.

Lemma includes_here d b : includes (d ++ b) d = true.
Proof.
  pose proof (prefix_app d b) as H.
  destruct (d ++ b); cbn [includes]; now rewrite H.
Qed.

Lemma includes_app_r a b sub : includes b sub = true -> includes (a ++ b) sub = true.
Proof.
  intros H. induction a as [|c a IH]; simpl; [exact H|].
  rewrite IH. apply Bool.orb_true_r.
Qed.

Lemma includes_cons c s sub : includes s sub = true -> includes (String c s) sub = true.
Proof. intros H. cbn [includes]. rewrite H. apply Bool.orb_true_r. Qed.

(** X19. Form text reaches the e-mail as it is.  In the e-mail built for
    a help request, the text of the details field of the submission
    stands verbatim in the HTML body: nothing escapes or strips markup
    the submitter typed. *)
Theorem request_details_are_not_escaped
  (formData analysis fields : Value) (details : string) (w w' : World) (cfg : Value) :
  get formData "fields" = Ok fields ->
  request_details fields = Ok (VStr details) ->
  Ada.buildRequestEmail formData analysis w = (Ok cfg, w') ->
  exists html, get cfg "body" = Ok (VStr html) /\ includes html details = true.
Proof.
  intros Hf Hd Hrun. unfold request_details in Hd.
  unfold Ada.buildRequestEmail, Ada.submission_date, date_format,
    Date_toISOString, Date_now, bind, lift, ret in Hrun.
  rewrite Hf in Hrun.
  destruct (Ada.contact fields) as [[[[name email] phone] isRegular] | e];
    [| discriminate].
  destruct (Ada.getCheckboxText fields "checkbox") as [helpType | e]; [| discriminate].
  rewrite Hd in Hrun.
  destruct (or_lazy _ _) as [financial | e]; [| discriminate].
  destruct (get formData "createdAt") as [createdAt | e]; [| discriminate].
  cbn [String_of] in Hrun.
  destruct (String_of helpType) as [helpType_s | e]; [| destruct (truthy createdAt); discriminate].
  destruct (String_of email) as [email_s | e]; [| destruct (truthy createdAt); discriminate].
  destruct (String_of phone) as [phone_s | e]; [| destruct (truthy createdAt); discriminate].
  destruct (String_of isRegular) as [isRegular_s | e];
    [| destruct (truthy createdAt); discriminate].
  destruct (String_of financial) as [financial_s | e];
    [| destruct (truthy createdAt); discriminate].
  destruct (truthy createdAt);
    [ destruct (String_of createdAt) as [date_s | e]; [| discriminate] | ];
    cbn [and_then] in Hrun;
    injection Hrun as <- _;
    (eexists; split; [cbn [get lookup String.eqb Ascii.eqb Bool.eqb]; reflexivity|]);
    repeat first [apply includes_here | apply includes_app_r | apply includes_cons].
Qed.

Lemma request_details_are_not_escaped_witness :
  exists html,
    get (match fst (Ada.buildRequestEmail markup_form VNull calm_world) with
         | Ok cfg => cfg
         | Throw _ => VUndef
         end) "body" = Ok (VStr html) /\
    includes html "<img src=x onerror=alert(1)>" = true.
Proof.
  destruct (Ada.buildRequestEmail markup_form VNull calm_world) as [[cfg | e] w'] eqn:Hrun;
    [| vm_compute in Hrun; discriminate].
  apply (request_details_are_not_escaped markup_form VNull
           (VArr [VObj [("key", VStr "question_GKK09Z");
                        ("label", VStr "Details");
                        ("value", VStr "<img src=x onerror=alert(1)>")]])
           "<img src=x onerror=alert(1)>" calm_world w' cfg);
    [reflexivity | reflexivity | exact Hrun].
Defined.

(* ================================================================ *)
(** ** The reach of a write *)
(* ================================================================ *)






(* ================================================================ *)
(** ** The conversation accessor under faults *)
(* ================================================================ *)

Lemma supabase_create_lost stringify base key hs fs st e :
  reachable_with base key st -> hd Up (faults st) = Lost e ->
  header "apikey" (mkReq (SupabaseConversations base) "POST" hs (VObj fs)) = tpl key ->
  supabase stringify base (mkReq (SupabaseConversations base) "POST" hs (VObj fs)) st
  = (NetError e,
     set_tables (executions st)
       (conversations st ++ [mkConversation (id_of (next_id st)) (column "user_id" fs)
                               (column "status" fs) (column "created_at" fs)])
       (S (next_id st)) (transitions st) (set_faults (tl (faults st)) st)).
Proof.
  intros [Hu Hk] Hf Hh. unfold supabase.
  rewrite Hu, String.eqb_refl, Hf. simpl.
  unfold store_process. rewrite Hh. simpl.
  now rewrite Hk, String.eqb_refl.
Qed.

(** X10. A lost reply does not duplicate a conversation.  For a user id
    that the query string carries unchanged: when the store creates the
    conversation but its reply never arrives, getOrCreateConversation
    returns null although the row exists; the next call for the same user
    finds that row and returns it, and creates nothing. *)
Theorem retry_after_lost_reply
  (supabaseUrl supabaseKey : Binding) (user : string) (w : World) (e : JsError) :
  reachable_with supabaseUrl supabaseKey (store w) ->
  url_plain user = true ->
  hd Up (faults (store w)) = Up ->
  hd Up (tl (faults (store w))) = Lost e ->
  hd Up (tl (tl (faults (store w)))) = Up ->
  latest_active user (conversations (store w)) = [] ->
  exists row w1 w2,
    Supabase.getOrCreateConversation supabaseUrl supabaseKey (VStr user) w
      = (Ok VNull, w1) /\
    conversations (store w1) = (conversations (store w) ++ [row])%list /\
    c_user_id row = VStr user /\ c_status row = VStr "active" /\
    Supabase.getOrCreateConversation supabaseUrl supabaseKey (VStr user) w1
      = (Ok (conversation_json row), w2) /\
    conversations (store w2) = conversations (store w1).
Proof.
  intros Hr Hplain Hup0 Hlost Hup2 Hl.
  assert (Hans : answers supabaseUrl supabaseKey (store w)) by (now split).
  assert (Hfirst : exists row w1,
    Supabase.getOrCreateConversation supabaseUrl supabaseKey (VStr user) w
      = (Ok VNull, w1) /\
    c_user_id row = VStr user /\ c_status row = VStr "active" /\
    store w1 = set_tables (executions (store w)) (conversations (store w) ++ [row])
                 (S (next_id (store w))) (transitions (store w))
                 (set_faults (tl (tl (faults (store w)))) (store w))).
  { unfold Supabase.getOrCreateConversation, try_catch, bind, fetch. simpl.
    rewrite (supabase_query_up _ _ _ _ _ Hans Hplain). simpl. rewrite Hl. simpl.
    unfold Date_toISOString, Date_now, bind, ret. simpl.
    erewrite (supabase_create_lost _ _ supabaseKey); [| exact Hr | exact Hlost | reflexivity].
    simpl. do 2 eexists. split; [reflexivity|]. split; [| split].
    3: reflexivity.
    all: reflexivity. }
  destruct Hfirst as (row & w1 & Hrun & Hu & Hs & Hst).
  assert (Hact : active_for user row = true).
  { destruct row as [i u s t]; simpl in Hu, Hs; subst. apply active_for_created. }
  assert (Hans1 : answers supabaseUrl supabaseKey (store w1)).
  { rewrite Hst. split; [exact Hr | exact Hup2]. }
  assert (Hl1 : latest_active user (conversations (store w1)) = [row]).
  { rewrite Hst; simpl. now apply latest_active_created. }
  destruct (getOrCreate_found _ _ _ _ _ Hans1 Hplain Hl1) as (w2 & Hrun2 & Hst2).
  exists row, w1, w2. repeat split; auto.
  - now rewrite Hst.
  - now rewrite Hst2.
Qed.

Lemma retry_after_lost_reply_witness :
  exists row w1 w2,
    Supabase.getOrCreateConversation (Some "https://db.example") (Some "service-key")
      (VStr "jacob@jacobbrain.com") lossy_world
      = (Ok VNull, w1) /\
    conversations (store w1) = (conversations (store lossy_world) ++ [row])%list /\
    c_user_id row = VStr "jacob@jacobbrain.com" /\ c_status row = VStr "active" /\
    Supabase.getOrCreateConversation (Some "https://db.example") (Some "service-key")
      (VStr "jacob@jacobbrain.com") w1
      = (Ok (conversation_json row), w2) /\
    conversations (store w2) = conversations (store w1).
Proof.
  apply (retry_after_lost_reply (Some "https://db.example") (Some "service-key")
           "jacob@jacobbrain.com" lossy_world (TypeError "fetch failed"));
    try reflexivity.
  split; reflexivity.
Defined.

(** X11. When the store cannot be reached (the address is not the
    store's, or the connection fails), getOrCreateConversation resolves
    to null, writes nothing, and has sent the one lookup request only. *)
Theorem getOrCreateConversation_unavailable
  (supabaseUrl supabaseKey : Binding) (userId : Value) (user : string) (w : World) :
  String_of userId = Ok user ->
  (tpl supabaseUrl <> store_url (store w) \/
   exists e, hd Up (faults (store w)) = Down e) ->
  exists w',
    Supabase.getOrCreateConversation supabaseUrl supabaseKey userId w = (Ok VNull, w') /\
    same_tables (store w) (store w') /\
    sent_between w w' [conversation_query supabaseUrl supabaseKey user].
Proof.
  intros Hs Hdown.
  unfold Supabase.getOrCreateConversation, try_catch, bind at 1, lift. rewrite Hs.
  unfold bind at 1, fetch. simpl. unfold supabase.
  destruct (String.eqb (tpl supabaseUrl) (store_url (store w))) eqn:Eu; simpl.
  2: { eexists; split; [reflexivity|]. split; [apply same_tables_refl | reflexivity]. }
  destruct Hdown as [Hne | [e He]].
  - apply String.eqb_eq in Eu. contradiction.
  - rewrite He. simpl.
    eexists; split; [reflexivity|]. split; [apply same_tables_set_faults | reflexivity].
Qed.

Lemma getOrCreateConversation_unavailable_witness :
  exists w',
    Supabase.getOrCreateConversation (Some "https://db.example") (Some "service-key")
      (VStr "jacob@jacobbrain.com") outage_world = (Ok VNull, w') /\
    same_tables (store outage_world) (store w') /\
    sent_between outage_world w'
      [conversation_query (Some "https://db.example") (Some "service-key")
         "jacob@jacobbrain.com"].
Proof.
  apply (getOrCreateConversation_unavailable (Some "https://db.example")
           (Some "service-key") (VStr "jacob@jacobbrain.com") "jacob@jacobbrain.com"
           outage_world); [reflexivity|].
  right. eexists. reflexivity.
Defined.

(** *** No test of the status *)

Lemma supabase_wrong_key stringify base key rq st :
  tpl base = store_url st -> hd Up (faults st) = Up ->
  header "apikey" rq = tpl key -> tpl key <> store_key st ->
  supabase stringify base rq st
  = (NetReply (refusal stringify 401 "Invalid API key"), set_faults (tl (faults st)) st).
Proof.
  intros Hu Hup Hh Hk. unfold supabase.
  rewrite Hu, String.eqb_refl, Hup. simpl.
  unfold store_process. rewrite Hh.
  destruct (String.eqb (tpl key) (store_key (set_faults (tl (faults st)) st)))
    eqn:E; simpl; [| reflexivity].
  apply String.eqb_eq in E. contradiction.
Qed.

(** X20. getOrCreateConversation does not test [response.ok].  With a key
    the store does not take, the lookup is refused with an error
    document, in which the function finds no conversation; it goes on to
    the insert, which is refused as well, and resolves to undefined, which
    is neither null nor a conversation.  Two requests were sent and
    nothing was written. *)
Theorem wrong_key_gives_undefined
  (supabaseUrl supabaseKey : Binding) (userId : Value) (user : string) (w : World) :
  String_of userId = Ok user ->
  tpl supabaseUrl = store_url (store w) ->
  tpl supabaseKey <> store_key (store w) ->
  hd Up (faults (store w)) = Up ->
  hd Up (tl (faults (store w))) = Up ->
  exists w' insert,
    Supabase.getOrCreateConversation supabaseUrl supabaseKey userId w = (Ok VUndef, w') /\
    same_tables (store w) (store w') /\
    sent_between w w' [conversation_query supabaseUrl supabaseKey user; insert] /\
    endpoint insert = SupabaseConversations supabaseUrl /\ method insert = "POST".
Proof.
  intros Hs Hu Hk Hup0 Hup1.
  unfold Supabase.getOrCreateConversation, try_catch, bind at 1, lift. rewrite Hs.
  unfold bind at 1, fetch. cbn [supabase_base endpoint].
  rewrite (supabase_wrong_key _ _ supabaseKey); [| exact Hu | exact Hup0 | reflexivity | exact Hk].
  cbn [json refusal response_json lift bind truthy get lookup String.eqb Ascii.eqb Bool.eqb
       gt_zero andb store collab builtins now ticks http_log].
  unfold Date_toISOString, Date_now, bind, ret, lift, response_json.
  cbn [store collab builtins now ticks http_log supabase_base endpoint].
  rewrite (supabase_wrong_key _ _ supabaseKey); [| exact Hu | exact Hup1 | reflexivity | exact Hk].
  cbn. do 2 eexists. split; [reflexivity|].
  split; [repeat split|].
  split; [unfold sent_between; cbn; rewrite <- app_assoc; reflexivity|].
  split; reflexivity.
Qed.

Lemma wrong_key_gives_undefined_witness :
  exists w' insert,
    Supabase.getOrCreateConversation (Some "https://db.example") (Some "stale-key")
      (VStr "jacob@jacobbrain.com") calm_world = (Ok VUndef, w') /\
    same_tables (store calm_world) (store w') /\
    sent_between calm_world w'
      [conversation_query (Some "https://db.example") (Some "stale-key")
         "jacob@jacobbrain.com"; insert] /\
    endpoint insert = SupabaseConversations (Some "https://db.example") /\
    method insert = "POST".
Proof.
  apply (wrong_key_gives_undefined (Some "https://db.example") (Some "stale-key")
           (VStr "jacob@jacobbrain.com") "jacob@jacobbrain.com" calm_world);
    try reflexivity.
  intros H. discriminate H.
Defined.

(** X21. A refused lookup is taken for an empty one.  When the store
    refuses the lookup with an error document (503) and answers the next
    request, getOrCreateConversation inserts and returns a new active
    conversation for the user, whether or not the user already has one:
    the rows that were there stay, and one is added. *)
Theorem refused_lookup_inserts
  (supabaseUrl supabaseKey : Binding) (user msg : string) (w : World) :
  reachable_with supabaseUrl supabaseKey (store w) ->
  hd Up (faults (store w)) = Refuse (Some (error_document msg)) ->
  hd Up (tl (faults (store w))) = Up ->
  exists row w',
    Supabase.getOrCreateConversation supabaseUrl supabaseKey (VStr user) w
      = (Ok (conversation_json row), w') /\
    conversations (store w') = (conversations (store w) ++ [row])%list /\
    c_user_id row = VStr user /\ c_status row = VStr "active".
Proof.
  intros Hr Hf Hup. pose proof Hr as [Hu _].
  unfold Supabase.getOrCreateConversation, try_catch, bind, fetch. simpl.
  unfold supabase at 1. rewrite Hu, String.eqb_refl, Hf. simpl.
  unfold Date_toISOString, Date_now, bind, ret. simpl.
  erewrite (supabase_create_up _ _ supabaseKey); [| | reflexivity].
  2: { split; [exact Hr | exact Hup]. }
  simpl. do 2 eexists. split; [reflexivity|]. repeat split.
Qed.

Lemma refused_lookup_inserts_witness :
  exists row w',
    Supabase.getOrCreateConversation (Some "https://db.example") (Some "service-key")
      (VStr "jacob@jacobbrain.com") busy_world
      = (Ok (conversation_json row), w') /\
    conversations (store w') = (conversations (store busy_world) ++ [row])%list /\
    c_user_id row = VStr "jacob@jacobbrain.com" /\ c_status row = VStr "active".
Proof.
  apply (refused_lookup_inserts (Some "https://db.example") (Some "service-key")
           "jacob@jacobbrain.com" "Service Unavailable" busy_world);
    try reflexivity.
  split; reflexivity.
Defined.

(* ================================================================ *)
(** ** Nova's prompt and its sources *)
(* ================================================================ *)

(** X12. The system prompt quotes the first five voice examples only:
    examples after the fifth never reach the model. *)
Theorem prompt_reads_five_examples (platform contextDocs : Value) (examples : list Value) :
  Nova.buildSystemPrompt platform (VArr examples) contextDocs
  = Nova.buildSystemPrompt platform (VArr (firstn 5 examples)) contextDocs.
Proof.
  assert (Hlen : gt_zero (VNum (Z.of_nat (List.length (firstn 5 examples))))
                 = gt_zero (VNum (Z.of_nat (List.length examples))))
    by (destruct examples; reflexivity).
  unfold Nova.buildSystemPrompt.
  cbn [get array_method String.eqb Ascii.eqb Bool.eqb and_then].
  rewrite Hlen, firstn_firstn. reflexivity.
Qed.

Lemma yields_bind_of {A B} (P : A -> Prop) (Q : B -> Prop) (m : M A) (k : A -> M B) :
  yields P m -> (forall a, P a -> yields Q (k a)) -> yields Q (bind m k).
Proof.
  intros Hm Hk w; unfold bind. specialize (Hm w).
  destruct (m w) as [[a | e] w1]; simpl in *; [apply Hk, Hm | exact I].
Qed.

Lemma mapM_length {A B} (f : A -> M B) l :
  yields (fun ys => List.length ys = List.length l) (mapM f l).
Proof.
  induction l as [|x l IH]; intros w; simpl; [reflexivity|].
  unfold bind. destruct (f x w) as [[y | e] w1]; simpl; [| exact I].
  specialize (IH w1). destruct (mapM f l w1) as [[ys | e] w2]; simpl in *; [| exact I].
  now rewrite IH.
Qed.

Lemma filter_length_le {A} (p : A -> bool) l : List.length (filter p l) <= List.length l.
Proof. induction l as [|x l IH]; simpl; [lia|]. destruct (p x); simpl; lia. Qed.

Lemma searchNotionWorkspace_few notionToken topic platform :
  yields (fun v => exists items, v = VArr items /\ List.length items <= 3)
    (Nova.searchNotionWorkspace notionToken topic platform).
Proof.
  unfold Nova.searchNotionWorkspace.
  apply yields_try_catch; [| intros e; apply yields_ret; exists []; split; [reflexivity | simpl; lia]].
  apply yields_bind; intros response.
  destruct (negb (ok response)).
  - apply yields_bind; intros t. apply yields_ret. exists []; split; [reflexivity | simpl; lia].
  - apply yields_bind; intros data.
    apply yields_bind; intros results.
    intros w. unfold bind.
    pose proof (firstn_le_length 3 results) as Hl.
    remember (firstn 3 results) as l eqn:El. clear El.
    pose proof (mapM_length (Nova.page_document notionToken) l w) as Hp.
    destruct (mapM _ _ w) as [[pages | e] w1]; simpl in *; [| exact I].
    eexists; split; [reflexivity|].
    pose proof (filter_length_le truthy pages). lia.
Qed.

(** X13. Nova does not validate its input: it rejects only what it
    cannot print.  Take a POST with any JSON body other than null (an
    object without a topic, an array, a number), Notion failing and the
    model answering with a draft.  If the topic, platform and style read
    from the body convert to strings (an absent one prints as
    "undefined"), the POST is answered with status 200, success=true and
    that draft; if one of them does not, it is answered with status 500
    and the conversion's error. *)
Theorem nova_takes_any_body
  (request : Request) (env : Env) (w : World) (parsed : Value) (res : NetResult)
  (draft : Value) :
  req_method request = "POST" ->
  req_body request = Some parsed ->
  nullish parsed = false ->
  anthropic_answers w res ->
  llm_draft res = Some draft ->
  notion_fails w ->
  exists resp w' topic platform style,
    Nova.fetch request env w = (Ok resp, w') /\
    get parsed "topic" = Ok topic /\
    get parsed "platform" = Ok platform /\
    get parsed "style" = Ok style /\
    (prompt_prints topic platform style ->
     r_status resp = 200%Z /\
     field "success" resp = VBool true /\
     field "output" resp = JSON_doc (nova_output draft 0 0) /\
     field "error" resp = VNull) /\
    (~ prompt_prints topic platform style ->
     r_status resp = 500%Z /\
     field "success" resp = VBool false /\
     field "error" resp = VStr (message cannot_convert)).
Proof.
  intros Hm Hb Hn Hres Hdr Hnf.
  destruct (parse_input_accepts request parsed Hb Hn)
    as (topic & platform & style & Hp & Ht & Hpl & Hst).
  destruct (nova_post request env w Hm) as (resp & w' & Hrun & Hnr).
  destruct (domain_logic_outcome env topic platform style w res Hres)
    as (exs & docs & Hout & _ & _ & Hnot).
  destruct (Hnot Hnf) as [-> ->].
  unfold generate_result in Hout.
  rewrite (llm_draft_result (builtins w) _ _ Hdr) in Hout.
  exists resp, w', topic, platform, style.
  repeat (split; [assumption|]).
  destruct (prompts topic platform style (VArr []) (VArr [])) as [p | e'] eqn:Hpr.
  - pose proof (prompts_need_request _ _ _ _ _ _ Hpr) as Hpp.
    split; [intros _ | intros Hno; contradiction].
    destruct Hnr as [e0 ts w' Hp0 _ _
                    | t0 p0 s0 id out d ts w1 w2 w' Hp0 _ _ Hd0 _ _ _ _
                    | t0 p0 s0 id e0 d ts w1 w2 w' Hp0 _ _ Hd0 _ _ _ _];
      try congruence.
    rewrite Hp in Hp0; injection Hp0 as <- <- <-; rewrite Hd0 in Hout.
    injection Hout as ->. repeat split.
  - assert (He' : e' = cannot_convert).
    { eapply prompts_throws; [apply empty_examples | apply empty_docs | exact Hpr]. }
    subst e'.
    split; [intros Hpp; destruct (prompts_of_request _ _ _ Hpp) as [p Hp']; congruence|].
    intros _.
    destruct Hnr as [e0 ts w' Hp0 _ _
                    | t0 p0 s0 id out d ts w1 w2 w' Hp0 _ _ Hd0 _ _ _ _
                    | t0 p0 s0 id e0 d ts w1 w2 w' Hp0 _ _ Hd0 _ _ _ _];
      try congruence.
    rewrite Hp in Hp0; injection Hp0 as <- <- <-; rewrite Hd0 in Hout.
    injection Hout as ->. repeat split.
Qed.

Lemma nova_takes_any_body_witness :
  exists resp w' topic platform style,
    Nova.fetch empty_post live_env notion_down_world = (Ok resp, w') /\
    get (VObj []) "topic" = Ok topic /\
    get (VObj []) "platform" = Ok platform /\
    get (VObj []) "style" = Ok style /\
    (prompt_prints topic platform style ->
     r_status resp = 200%Z /\
     field "success" resp = VBool true /\
     field "output" resp = JSON_doc (nova_output (VStr "hello") 0 0) /\
     field "error" resp = VNull) /\
    (~ prompt_prints topic platform style ->
     r_status resp = 500%Z /\
     field "success" resp = VBool false /\
     field "error" resp = VStr (message cannot_convert)).
Proof.
  apply (nova_takes_any_body empty_post live_env notion_down_world (VObj [])
           (friendly (mkReq AnthropicMessages "POST" [] VUndef)));
    try reflexivity.
  - intros rq H. simpl. unfold notion_down, friendly. now rewrite H.
  - intros rq H. simpl. unfold notion_down. now rewrite H.
Defined.

Lemma voice_example_usable page ex :
  Nova.voice_example page = Ok ex ->
  truthy (lookup "content" match ex with VObj fs => fs | _ => [] end) = true ->
  usable_example ex.
Proof.
  intros H Ht. destruct (voice_example_ok _ _ H) as (c & tags & p & ->).
  simpl in Ht. now exists c, tags, p.
Qed.

Lemma getVoiceExamples_usable notionToken databaseId platform :
  yields (fun v => exists items, v = VArr items /\ Forall usable_example items)
    (Nova.getVoiceExamples notionToken databaseId platform).
Proof.
  unfold Nova.getVoiceExamples.
  apply yields_try_catch; [| intros e; apply yields_ret; now exists []].
  apply yields_bind; intros response.
  destruct (negb (ok response)).
  - apply yields_bind; intros t. apply yields_ret. now exists [].
  - apply yields_bind; intros data. apply yields_lift. intros v H.
    repeat and_then_step H. injection H as <-.
    eexists; split; [reflexivity|].
    apply Forall_forall. intros ex Hin. apply filter_In in Hin as [Hin Ht].
    match goal with
    | E : map_result Nova.voice_example _ = Ok _ |- _ =>
        pose proof (map_result_Forall (fun ex => exists page, Nova.voice_example page = Ok ex)
                      Nova.voice_example _ _ (fun a b Hab => ex_intro _ a Hab) E) as Hall
    end.
    destruct (proj1 (Forall_forall _ _) Hall ex Hin) as [page Hpage].
    eapply voice_example_usable; eassumption.
Qed.

Lemma getVoiceExamples_sent notionToken databaseId platform w :
  exists rq, is_voice_query databaseId rq /\
    sent_between w (snd (Nova.getVoiceExamples notionToken databaseId platform w)) [rq].
Proof.
  eexists. split.
  2: { unfold Nova.getVoiceExamples, try_catch, bind, fetch, sent_between. simpl.
       destruct (collab w _) as [e | r]; simpl; [reflexivity|].
       destruct (negb (ok r)); simpl; [reflexivity|].
       unfold response_json, lift. destruct (json r); simpl; [| reflexivity].
       destruct (and_then _ _); reflexivity. }
  split; reflexivity.
Qed.

(** X14. getVoiceExamples always resolves, to an array (empty after any
    failure) whose items all have the three properties content, tags and
    platform, with tags an array and a content that is not empty; it
    sends exactly one request, a query of the configured Notion database,
    and leaves the execution store alone. *)
Theorem voice_examples_contract
  (notionToken databaseId : Binding) (platform : Value) (w : World) :
  exists items w' rq,
    Nova.getVoiceExamples notionToken databaseId platform w = (Ok (VArr items), w') /\
    Forall usable_example items /\
    store w' = store w /\
    is_voice_query databaseId rq /\
    sent_between w w' [rq].
Proof.
  destruct (getVoiceExamples_resolves notionToken databaseId platform w) as [v Hv].
  pose proof (getVoiceExamples_usable notionToken databaseId platform w) as Hu.
  pose proof (getVoiceExamples_untouched notionToken databaseId platform w) as [Hs _].
  destruct (getVoiceExamples_sent notionToken databaseId platform w) as (rq & Hq & Hsent).
  rewrite Hv in Hu. destruct Hu as (items & -> & Hall).
  exists items, (snd (Nova.getVoiceExamples notionToken databaseId platform w)), rq.
  split; [now apply run_pair|]. repeat split; try assumption; apply Hq.
Qed.

(** X15. searchNotionWorkspace always resolves, to an array of at most
    three documents, each with a title and a text content; a page that
    could not be read is left out instead of failing the search, and the
    execution store is left alone. *)
Theorem context_search_contract
  (notionToken : Binding) (topic platform : Value) (w : World) :
  exists items w',
    Nova.searchNotionWorkspace notionToken topic platform w = (Ok (VArr items), w') /\
    Forall doc_ok items /\
    List.length items <= 3 /\
    store w' = store w.
Proof.
  destruct (searchNotionWorkspace_resolves notionToken topic platform w) as [v Hv].
  pose proof (searchNotionWorkspace_shape notionToken topic platform w) as Hs.
  pose proof (searchNotionWorkspace_few notionToken topic platform w) as Hf.
  pose proof (searchNotionWorkspace_untouched notionToken topic platform w) as [Hst _].
  rewrite Hv in Hs, Hf. destruct Hs as (items & -> & Hall).
  destruct Hf as (items' & Heq & Hle). injection Heq as <-.
  exists items, (snd (Nova.searchNotionWorkspace notionToken topic platform w)).
  split; [now apply run_pair|]. repeat split; assumption.
Qed.

(** X16. Nova answers every request, whatever its method and however the
    work ended, and every answer carries the three CORS headers. *)
Theorem nova_always_answers_with_cors (request : Request) (env : Env) (w : World) :
  exists resp w',
    Nova.fetch request env w = (Ok resp, w') /\
    forall h, In h Nova.corsHeaders -> In h (r_headers resp).
Proof.
  destruct (String.eqb (req_method request) "POST") eqn:Hm.
  - apply String.eqb_eq in Hm.
    destruct (nova_post request env w Hm) as (resp & w' & Hrun & Hnr).
    exists resp, w'. split; [exact Hrun|].
    intros h Hin. destruct Hnr;
      unfold Nova.json_headers, Nova.corsHeaders in *; simpl in *; tauto.
  - unfold Nova.fetch. rewrite Hm. simpl.
    destruct (String.eqb (req_method request) "OPTIONS");
      [| destruct (String.eqb (req_method request) "GET")];
      do 2 eexists; (split; [reflexivity|]); intros h Hin;
      unfold Nova.json_headers, Nova.corsHeaders in *; simpl in *; tauto.
Qed.

(** *** Credentials *)

Ltac keyed_prim :=
  first [ apply emits_quiet, Date_now_silent
        | apply emits_quiet, Date_toISOString_silent
        | apply keeps_attempt
        | apply fetch_emits; unfold keyed_for, credentials; simpl; auto ].

(** X18. Every request Nova sends carries the credential of the service it
    goes to and no other: the Notion token goes to Notion only, the
    Anthropic key to Anthropic only, the Supabase key to the configured
    Supabase address only; and Nova sends requests nowhere else. *)
Theorem nova_credentials_stay_home (request : Request) (env : Env) (w : World) :
  exists sent,
    http_log (snd (Nova.fetch request env w)) = (http_log w ++ sent)%list /\
    Forall (keyed_for env) sent.
Proof.
  assert (H : keeps (emits (keyed_for env)) (Nova.fetch request env)).
  { unfold Nova.fetch, Nova.accept, Nova.on_error, Nova.domain_logic,
      Nova.logExecutionStart, Nova.logExecutionComplete, Nova.logExecutionError,
      Supabase.logExecutionComplete, Supabase.logExecutionError,
      Nova.getVoiceExamples, Nova.searchNotionWorkspace, Nova.page_document,
      Nova.generateContent.
    keeps_walk (emits_refl (keyed_for env)) (emits_trans (keyed_for env)) keyed_prim. }
  destruct (H w) as (sent & Hs & Hf). exists sent. split; assumption.
Qed.
